(** * Solar dashboard data API: generation scheduler, anomaly seeding, admin API

    A shallow embedding of
    - [src/infrastructure/data-generation-scheduler.ts] (module [Scheduler]),
    - the anomaly seeding script (module [Seed]),
    - [src/api/admin.ts] (module [Admin]),
    together with the pieces of the JavaScript runtime they call (module [Js]).

    Conventions of the embedding.
    - A JavaScript [number] is an exact rational ([Q]); the rounding error of
      IEEE doubles is not modelled.  Integer-valued numbers that are only used
      as loop counters, hours or millisecond time values are [Z].
    - [Math.random()] reads the next element of an explicit stream of draws;
      a stream is [fair] when every draw lies in [0,1).
    - A [Date] is its time value, milliseconds since the epoch.  The local time
      zone of the process is a fixed offset [tza] from UTC (no daylight saving
      transitions).
    - [console.log]/[console.error] append an [Event] to the console.
    - A rejected promise / thrown exception is the [Err] case of [Result];
      state changed before the throw is kept. *)

From Stdlib Require Import ZArith QArith Qround Qminmax Lqa Lia.
From Stdlib Require Import List String Ascii Bool.
Import ListNotations.

(* ================================================================== *)
(** * The JavaScript runtime used by the sources *)
(* ================================================================== *)

Module Js.

Local Open Scope Q_scope.

(** ** Numbers *)

Definition Qleb (x y : Q) : bool := Qle_bool x y.
Definition Qltb (x y : Q) : bool := negb (Qle_bool y x).
Definition Qgtb (x y : Q) : bool := Qltb y x.
Definition Qgeb (x y : Q) : bool := Qleb y x.

(** [Math.round]: the nearest integer, ties towards +infinity. *)
Definition round (x : Q) : Q := inject_Z (Qfloor (x + 0.5)).

(** [y] is a whole number nearest to [x] (ties may go up). *)
Definition nearestWhole (x y : Q) : Prop :=
  exists n : Z, y = inject_Z n /\ x - 0.5 < y /\ y <= x + 0.5.

(** [Math.max] on two numbers. *)
Definition max (x y : Q) : Q := Qmax x y.

(** ** Errors *)

Record Error := { errName : string; message : string }.

(** [String(error)], i.e. [Error.prototype.toString]. *)
Definition errorToString (e : Error) : string :=
  if String.eqb (errName e) EmptyString then message e
  else if String.eqb (message e) EmptyString then errName e
  else (errName e ++ ": " ++ message e)%string.

Inductive Result (A : Type) : Type :=
| Ok (a : A)
| Err (e : Error).
Arguments Ok {A} a.
Arguments Err {A} e.

(** ** [Math.random] *)

Record Rng := { stream : nat -> Q; cursor : nat }.

Definition fair (g : Rng) : Prop := forall n, 0 <= stream g n /\ stream g n < 1.

Definition Rand (A : Type) : Type := Rng -> A * Rng.

Definition retR {A} (a : A) : Rand A := fun g => (a, g).

Definition bindR {A B} (m : Rand A) (k : A -> Rand B) : Rand B :=
  fun g => let (a, g') := m g in k a g'.

Declare Scope rand_scope.
Delimit Scope rand_scope with rand.
Notation "x <- m ;; k" := (bindR m (fun x => k))
  (at level 61, m at next level, right associativity) : rand_scope.

(** The next draw, and the generator after it has been taken. *)
Definition draw (g : Rng) : Q := stream g (cursor g).

Definition advance (g : Rng) : Rng :=
  {| stream := stream g; cursor := S (cursor g) |}.

Definition random : Rand Q := fun g => (draw g, advance g).

(** A stream that always yields the same draw; used for concrete runs. *)
Definition constRng (r : Q) : Rng := {| stream := fun _ => r; cursor := 0 |}.

(** ** Dates *)

Local Open Scope Z_scope.

Definition msPerHour : Z := 3600000.
Definition msPerDay : Z := 86400000.

Definition Day (t : Z) : Z := t / msPerDay.
Definition TimeWithinDay (t : Z) : Z := t mod msPerDay.
Definition MakeTime (hour min sec ms : Z) : Z :=
  hour * msPerHour + min * 60000 + sec * 1000 + ms.
Definition MakeDate (day time : Z) : Z := day * msPerDay + time.

(** Local time for a zone at the fixed offset [tza] milliseconds east of UTC. *)
Definition LocalTime (tza t : Z) : Z := t + tza.
Definition UTC (tza t : Z) : Z := t - tza.

(** [d.setHours(hour, min, sec, ms)]: the new time value of [d]. *)
Definition setHours (tza t hour min sec ms : Z) : Z :=
  UTC tza (MakeDate (Day (LocalTime tza t)) (MakeTime hour min sec ms)).

(** [d.getUTCHours()]. *)
Definition getUTCHours (t : Z) : Z := (t / msPerHour) mod 24.

(** [d.getTime() + ms]. *)
Definition addMs (t ms : Z) : Z := t + ms.

(** Proleptic Gregorian calendar: day number since the epoch to
    (year, month 1..12, day of month), and back. *)
Definition civilFromDays (days : Z) : Z * Z * Z :=
  let z := days + 719468 in
  let era := z / 146097 in
  let doe := z - era * 146097 in
  let yoe := (doe - doe / 1460 + doe / 36524 - doe / 146096) / 365 in
  let y := yoe + era * 400 in
  let doy := doe - (365 * yoe + yoe / 4 - yoe / 100) in
  let mp := (5 * doy + 2) / 153 in
  let d := doy - (153 * mp + 2) / 5 + 1 in
  let m := if mp <? 10 then mp + 3 else mp - 9 in
  ((if m <=? 2 then y + 1 else y), m, d).

Definition daysFromCivil (y m d : Z) : Z :=
  let y := if m <=? 2 then y - 1 else y in
  let era := y / 400 in
  let yoe := y - era * 400 in
  let doy := (153 * (if 2 <? m then m - 3 else m + 9) + 2) / 5 + d - 1 in
  let doe := yoe * 365 + yoe / 4 - yoe / 100 + doy in
  era * 146097 + doe - 719468.

(** [MakeDay(year, month, date)] with a zero-based [month]. *)
Definition MakeDay (year month date : Z) : Z :=
  let ym := year + month / 12 in
  let mn := month mod 12 in
  daysFromCivil ym (mn + 1) 1 + date - 1.

(** [d.getDate()]: day of the month in local time. *)
Definition getDate (tza t : Z) : Z :=
  let '(_, _, d) := civilFromDays (Day (LocalTime tza t)) in d.

(** [d.getUTCMonth()]: zero-based month in UTC. *)
Definition getUTCMonth (t : Z) : Z :=
  let '(_, m, _) := civilFromDays (Day t) in m - 1.

(** [d.setDate(date)]: the new time value of [d]. *)
Definition setDate (tza t date : Z) : Z :=
  let lt := LocalTime tza t in
  let '(y, m, _) := civilFromDays (Day lt) in
  UTC tza (MakeDate (MakeDay y (m - 1) date) (TimeWithinDay lt)).

Definition digit (n : Z) : ascii := ascii_of_nat (48 + Z.to_nat (n mod 10)).

Fixpoint padDigits (width : nat) (n : Z) (acc : string) : string :=
  match width with
  | O => acc
  | S w => padDigits w (n / 10) (String (digit n) acc)
  end.

(** [d.toISOString().split("T")[0]]: the UTC calendar date, [YYYY-MM-DD]
    (expanded years get a sign and six digits). *)
Definition isoDate (t : Z) : string :=
  let '(y, m, d) := civilFromDays (Day t) in
  let year :=
    if (0 <=? y) && (y <=? 9999) then padDigits 4 y EmptyString
    else if y <? 0 then String "-" (padDigits 6 (- y) EmptyString)
    else String "+" (padDigits 6 y EmptyString) in
  (year ++ "-" ++ padDigits 2 m EmptyString ++ "-" ++ padDigits 2 d EmptyString)%string.

End Js.

(* ================================================================== *)
(** * Data model *)
(* ================================================================== *)

(** A solar unit as returned by the core backend.  [capacity] may be absent. *)
Module SolarUnit.
Record t := {
  _id : string;
  serialNumber : string;
  capacity : option Q;
  name : string
}.
End SolarUnit.

(** The documents the scheduler inserts. *)
Record EnergyRecord := {
  serialNumber : string;
  solarUnitId : string;
  timestamp : Z;
  energyGenerated : Q;
  peakPower : Q;
  efficiency : Q;
  temperature : Q
}.

(** The object literal built by the seeding script. *)
Module SeedRecord.
Record t := {
  serialNumber : string;
  timestamp : Z;
  energyGenerated : Q
}.
End SeedRecord.

(** Objects with an [energyGenerated] property: [getEnergy r] reads it and
    [withEnergy v r] is the spread [{ ...r, energyGenerated: v }]. *)
Class HasEnergy (R : Type) := {
  getEnergy : R -> Q;
  withEnergy : Q -> R -> R
}.

#[export] Instance EnergyRecord_HasEnergy : HasEnergy EnergyRecord := {
  getEnergy := energyGenerated;
  withEnergy v r :=
    {| serialNumber := serialNumber r;
       solarUnitId := solarUnitId r;
       timestamp := timestamp r;
       energyGenerated := v;
       peakPower := peakPower r;
       efficiency := efficiency r;
       temperature := temperature r |}
}.

#[export] Instance SeedRecord_HasEnergy : HasEnergy SeedRecord.t := {
  getEnergy := SeedRecord.energyGenerated;
  withEnergy v r :=
    {| SeedRecord.serialNumber := SeedRecord.serialNumber r;
       SeedRecord.timestamp := SeedRecord.timestamp r;
       SeedRecord.energyGenerated := v |}
}.

(** Lines written to the console. *)
Inductive Event :=
| LogFoundUnits (n : nat)
| LogNoActiveUnits
| LogSkipping (unitName : string) (date : Z)
| LogGenerated (n : nat) (unitName : string)
| LogUnitError (unitId : string) (msg : string)
| LogAllUnitsCompleted
| LogDailyError (msg : string)
| LogManualTrigger
| LogHistoricalStart (days : Q)
| LogHistoricalDay (date : Z)
| LogHistoricalCompleted
| LogHistoricalError (msg : string)
| LogApiToday
| LogApiHistorical (days : Q)
| LogApiFailure (e : Js.Error).

(** ** The record store ([EnergyGenerationRecord] collection)

    [countDocuments s serial from to] counts the documents with
    [serialNumber = serial] and [from <= timestamp < to];
    [insertMany s docs] inserts [docs].  Either call may fail, and may change
    the state of the backend while doing so. *)
Class RecordStore (S : Type) := {
  countDocuments : S -> string -> Z -> Z -> Js.Result nat * S;
  insertMany : S -> list EnergyRecord -> Js.Result unit * S
}.

(** The filter of the scheduler's [countDocuments] query. *)
Definition matchesQuery (serial : string) (from to : Z) (r : EnergyRecord) : bool :=
  (String.eqb (serialNumber r) serial && (from <=? timestamp r)%Z && (timestamp r <? to)%Z)%bool.

(** A store that persists every insert and never fails: the collection is
    the list of its documents in insertion order. *)
#[export] Instance MemStore : RecordStore (list EnergyRecord) := {
  countDocuments docs serial from to :=
    (Js.Ok (List.length (List.filter (matchesQuery serial from to) docs)), docs);
  insertMany docs new := (Js.Ok tt, docs ++ new)
}.

(** A store whose calls fail for one serial number and otherwise behave as
    [MemStore]. *)
Record FlakyStore := { brokenSerial : string; docs : list EnergyRecord }.

Definition storeDown : Js.Error :=
  {| Js.errName := "MongoNetworkError"; Js.message := "connection lost" |}.

#[export] Instance FlakyStore_RecordStore : RecordStore FlakyStore := {
  countDocuments s serial from to :=
    if String.eqb serial (brokenSerial s) then (Js.Err storeDown, s)
    else (Js.Ok (List.length (List.filter (matchesQuery serial from to) (docs s))), s);
  insertMany s new := (Js.Ok tt, {| brokenSerial := brokenSerial s; docs := docs s ++ new |})
}.

(* ================================================================== *)
(** * data-generation-scheduler.ts *)
(* ================================================================== *)

Module Scheduler.

Import Js.

Declare Scope sched_scope.
Delimit Scope sched_scope with sched.

(** What the process reads from its surroundings during one run: the offset
    of its time zone, the clock ([new Date()]) and the answer of the core
    backend to [GET /api/solar-units/test?status=ACTIVE]. *)
Record Env := {
  tza : Z;
  now : Z;
  activeUnits : Result (list SolarUnit.t)
}.

(** ** [calculateEnergyGeneration] (lines 137-173) *)

Definition calculateEnergyGeneration (hour capacity : Q) : Rand Q :=
  (if Qgeb hour 22 || Qltb hour 6 then
     retR 0
   else if Qgeb hour 6 && Qltb hour 12 then
     let factor := (hour - 6) / 6 in
     let baseGeneration := capacity * 0.7 * factor in
     r <- random ;;
     let variation := r * 0.2 - 0.1 in
     retR (Js.max 0 (baseGeneration * (1 + variation)))
   else if Qgeb hour 12 && Qltb hour 14 then
     let baseGeneration := capacity * 0.75 in
     r <- random ;;
     let variation := r * 0.15 - 0.075 in
     retR (baseGeneration * (1 + variation))
   else if Qgeb hour 14 && Qltb hour 20 then
     let factor := 1 - (hour - 14) / 6 in
     let baseGeneration := capacity * 0.7 * factor in
     r <- random ;;
     let variation := r * 0.2 - 0.1 in
     retR (Js.max 0 (baseGeneration * (1 + variation)))
   else if Qgeb hour 20 && Qltb hour 22 then
     r <- random ;;
     let baseGeneration := capacity * 0.1 * r in
     retR (Js.max 0 baseGeneration)
   else
     retR 0)%rand%Q.

(** ** Building the records of one day (lines 91-112) *)

(** [unit.capacity || 5000]: an absent or zero capacity is falsy. *)
Definition capacityOrDefault (unit : SolarUnit.t) : Q :=
  match SolarUnit.capacity unit with
  | Some c => if Qeq_bool c 0 then 5000 else c
  | None => 5000
  end.

(** The body of the slot loop for one [hour]. *)
Definition makeRecord (tza : Z) (unit : SolarUnit.t) (date : Z) (hour : Z)
  : Rand EnergyRecord :=
  (let timestamp := setHours tza date hour 0 0 0 in
   energyGenerated <- calculateEnergyGeneration (inject_Z hour) (capacityOrDefault unit) ;;
   let peakPower := if Qgtb energyGenerated 0 then energyGenerated * 1.2 else 0 in
   efficiency <- (if Qgtb energyGenerated 0
                  then (r <- random ;; retR (85 + r * 10))
                  else retR 0) ;;
   r <- random ;;
   let temperature := 25 + r * 15 in
   retR {| serialNumber := SolarUnit.serialNumber unit;
           solarUnitId := SolarUnit._id unit;
           timestamp := timestamp;
           energyGenerated := energyGenerated;
           peakPower := peakPower;
           efficiency := efficiency;
           temperature := temperature |})%rand%Q.

(** [for (let hour = 0; hour < 24; hour += 2) records.push(...)], started at
    [hour] with [records] already pushed.  [fuel] bounds the number of
    iterations; [slotLoop_fuel] shows that 12 is enough. *)
Fixpoint slotLoop (fuel : nat) (tza : Z) (unit : SolarUnit.t) (date : Z)
  (hour : Z) (records : list EnergyRecord) : Rand (list EnergyRecord) :=
  match fuel with
  | O => retR records
  | S fuel' =>
      if (hour <? 24)%Z then
        (r <- makeRecord tza unit date hour ;;
         slotLoop fuel' tza unit date (hour + 2)%Z (records ++ [r]))%rand
      else retR records
  end.

Definition buildRecords (tza : Z) (unit : SolarUnit.t) (date : Z)
  : Rand (list EnergyRecord) :=
  slotLoop 12 tza unit date 0 [].

(** ** The scheduler's effects *)

Section WithStore.

Context {St : Type} {store_ops : RecordStore St}.

Record World := {
  store : St;
  rng : Rng;
  console : list Event
}.

Definition M (A : Type) : Type := World -> Result A * World.

Definition ret {A} (a : A) : M A := fun w => (Ok a, w).

Definition bind {A B} (m : M A) (k : A -> M B) : M B :=
  fun w =>
    match m w with
    | (Ok a, w') => k a w'
    | (Err e, w') => (Err e, w')
    end.

Notation "x <- m ;; k" := (bind m (fun x => k))
  (at level 61, m at next level, right associativity) : sched_scope.
Notation "m ;; k" := (bind m (fun _ => k))
  (at level 61, right associativity) : sched_scope.

Local Open Scope sched_scope.

Definition throw {A} (e : Error) : M A := fun w => (Err e, w).

(** [try { m } catch (e) { handler e }]. *)
Definition tryCatch {A} (m : M A) (handler : Error -> M A) : M A :=
  fun w =>
    match m w with
    | (Ok a, w') => (Ok a, w')
    | (Err e, w') => handler e w'
    end.

Definition liftRand {A} (m : Rand A) : M A :=
  fun w =>
    let (a, g) := m (rng w) in
    (Ok a, {| store := store w; rng := g; console := console w |}).

Definition log (ev : Event) : M unit :=
  fun w => (Ok tt, {| store := store w; rng := rng w; console := console w ++ [ev] |}).

Definition countDocumentsM (serial : string) (from to : Z) : M nat :=
  fun w =>
    let (r, s) := countDocuments (store w) serial from to in
    (r, {| store := s; rng := rng w; console := console w |}).

Definition insertManyM (records : list EnergyRecord) : M unit :=
  fun w =>
    let (r, s) := insertMany (store w) records in
    (r, {| store := s; rng := rng w; console := console w |}).

(** [for (const unit of solarUnits) body(unit)]. *)
Fixpoint forEachUnit (solarUnits : list SolarUnit.t) (body : SolarUnit.t -> M unit)
  : M unit :=
  match solarUnits with
  | [] => ret tt
  | unit :: rest => body unit ;; forEachUnit rest body
  end.

Variable env : Env.

(** [axios.get(coreBackendUrl + '/api/solar-units/test')], then [response.data]. *)
Definition fetchActiveUnits : M (list SolarUnit.t) :=
  fun w => (activeUnits env, w).

(** ** [generateRecordsForUnit] (lines 90-131) *)

Definition generateRecordsForUnit (unit : SolarUnit.t) (date : Z)
  : M Datatypes.unit :=
  let serialNumber := SolarUnit.serialNumber unit in
  records <- liftRand (buildRecords (tza env) unit date) ;;
  existingCount <- countDocumentsM serialNumber date
                     (addMs date (24 * 60 * 60 * 1000)) ;;
  if (0 <? existingCount)%nat then
    log (LogSkipping (SolarUnit.name unit) date)
  else
    insertManyM records ;;
    log (LogGenerated (List.length records) (SolarUnit.name unit)).

(** The per-unit [try]/[catch] shared by both entry points. *)
Definition generateGuarded (date : Z) (unit : SolarUnit.t) : M Datatypes.unit :=
  tryCatch (generateRecordsForUnit unit date)
           (fun error => log (LogUnitError (SolarUnit._id unit) (message error))).

(** ** [generateDailyData] (lines 52-84) *)

Definition generateDailyData : M unit :=
  tryCatch
    (solarUnits <- fetchActiveUnits ;;
     log (LogFoundUnits (List.length solarUnits)) ;;
     if (List.length solarUnits =? 0)%nat then
       log LogNoActiveUnits
     else
       let today := setHours (tza env) (now env) 0 0 0 0 in
       forEachUnit solarUnits (generateGuarded today) ;;
       log LogAllUnitsCompleted)
    (fun error => log (LogDailyError (message error)) ;; throw error).

(** ** [generateTodayData] (lines 178-181) *)

Definition generateTodayData : M unit :=
  log LogManualTrigger ;;
  generateDailyData.

(** ** [generateHistoricalData] (lines 186-218) *)

(** [for (let i = 0; i < days; i++) { ... }], started at [i].  [fuel] bounds
    the number of iterations; [dayLoop_fuel] shows that the ceiling of [days]
    is enough. *)
Fixpoint dayLoop (fuel : nat) (days : Q) (solarUnits : list SolarUnit.t) (i : Z)
  : M unit :=
  match fuel with
  | O => ret tt
  | S fuel' =>
      if Qltb (inject_Z i) days then
        let date := now env in
        let date := setDate (tza env) date (getDate (tza env) date - i) in
        let date := setHours (tza env) date 0 0 0 0 in
        log (LogHistoricalDay date) ;;
        forEachUnit solarUnits (generateGuarded date) ;;
        dayLoop fuel' days solarUnits (i + 1)%Z
      else ret tt
  end.

Definition dayLoopFuel (days : Q) : nat := Z.to_nat (Qceiling days).

Definition generateHistoricalData (days : Q) : M unit :=
  log (LogHistoricalStart days) ;;
  tryCatch
    (solarUnits <- fetchActiveUnits ;;
     log (LogFoundUnits (List.length solarUnits)) ;;
     dayLoop (dayLoopFuel days) days solarUnits 0 ;;
     log LogHistoricalCompleted)
    (fun error => log (LogHistoricalError (message error)) ;; throw error).

End WithStore.

Arguments World St : clear implicits.
Arguments M St A : clear implicits.

End Scheduler.

(* ================================================================== *)
(** * The anomaly seeding script *)
(* ================================================================== *)

Module Seed.

Import Js.

Local Open Scope string_scope.
Local Open Scope rand_scope.

(** One entry of [ANOMALY_PATTERNS].  Absent properties are [None];
    [dateRange] is the pair of its [start] and [end].  [apply] may call
    [Math.random]. *)
Record Pattern (R : Type) := {
  type : string;
  date : option string;
  startHour : option Z;
  endHour : option Z;
  dateRange : option (string * string);
  nightOnly : option bool;
  apply : R -> Rand R
}.
Arguments type {R} _.
Arguments date {R} _.
Arguments startHour {R} _.
Arguments endHour {R} _.
Arguments dateRange {R} _.
Arguments nightOnly {R} _.
Arguments apply {R} _ _.

Section Patterns.

Context {R : Type} {energy : HasEnergy R}.

(** ** [ANOMALY_PATTERNS] (lines 9-48) *)

Definition ZERO_GENERATION : Pattern R := {|
  type := "ZERO_GENERATION";
  date := Some "2025-12-01";
  startHour := Some 10%Z;
  endHour := Some 14%Z;
  dateRange := None;
  nightOnly := None;
  apply := fun record => retR (withEnergy 0 record)
|}.

Definition SUDDEN_DROP : Pattern R := {|
  type := "SUDDEN_DROP";
  date := Some "2025-12-05";
  startHour := Some 9%Z;
  endHour := Some 15%Z;
  dateRange := None;
  nightOnly := None;
  apply := fun record => retR (withEnergy (round (getEnergy record * 0.3)) record)
|}.

Definition CAPACITY_FACTOR : Pattern R := {|
  type := "CAPACITY_FACTOR";
  date := None;
  startHour := None;
  endHour := None;
  dateRange := Some ("2025-12-10", "2025-12-16");
  nightOnly := None;
  apply := fun record => retR (withEnergy (round (getEnergy record * 0.4)) record)
|}.

Definition IRREGULAR_PATTERN : Pattern R := {|
  type := "IRREGULAR_PATTERN";
  date := Some "2025-12-08";
  startHour := None;
  endHour := None;
  dateRange := None;
  nightOnly := None;
  apply := fun record =>
    r <- random ;;
    let spike : Q := if Qgtb r 0.5 then 2.5 else 0.4 in
    retR (withEnergy (round (getEnergy record * spike)) record)
|}.

Definition IRREGULAR_PATTERN_NIGHT : Pattern R := {|
  type := "IRREGULAR_PATTERN_NIGHT";
  date := Some "2025-12-03";
  startHour := None;
  endHour := None;
  dateRange := None;
  nightOnly := Some true;
  apply := fun record =>
    r <- random ;;
    retR (withEnergy (50 + r * 100) record)
|}.

Definition ANOMALY_PATTERNS : list (Pattern R) :=
  [ ZERO_GENERATION; SUDDEN_DROP; CAPACITY_FACTOR; IRREGULAR_PATTERN;
    IRREGULAR_PATTERN_NIGHT ].

(** ** The pattern scan of [seedWithAnomalies] (lines 102-132) *)

(** The value of [shouldApplyPattern] after the two checks of one loop
    iteration (lines 105-125).  Strings compare as in JavaScript on the
    ASCII date strings used here. *)
Definition shouldApplyPattern (pattern : Pattern R) (dateString : string) (hour : Z)
  : bool :=
  let shouldApplyPattern := false in
  let shouldApplyPattern :=
    match date pattern with
    | Some d =>
        if negb (String.eqb d EmptyString) && String.eqb dateString d then
          match startHour pattern, endHour pattern with
          | Some startHour, Some endHour =>
              (startHour <=? hour)%Z && (hour <? endHour)%Z
          | _, _ =>
              match nightOnly pattern with
              | Some true => (hour <? 6)%Z || (20 <? hour)%Z
              | _ => true
              end
          end
        else shouldApplyPattern
    | None => shouldApplyPattern
    end in
  match dateRange pattern with
  | Some (rangeStart, rangeEnd) =>
      let inRange := String.leb rangeStart dateString && String.leb dateString rangeEnd in
      if inRange then true else shouldApplyPattern
  | None => shouldApplyPattern
  end.

(** [for (const pattern of patterns) { ...; if (shouldApplyPattern) { record =
    pattern.apply(record); isAnomaly = true; break; } }]: the final [record]
    and [isAnomaly]. *)
Fixpoint applyAnomalyPatterns (patterns : list (Pattern R)) (dateString : string)
  (hour : Z) (record : R) : Rand (R * bool) :=
  match patterns with
  | [] => retR (record, false)
  | pattern :: rest =>
      if shouldApplyPattern pattern dateString hour then
        record' <- apply pattern record ;;
        retR (record', true)
      else applyAnomalyPatterns rest dateString hour record
  end.

End Patterns.

(** ** One iteration of the seeding loop (lines 66-134) *)

Definition seedRecordAt (currentDate : Z) : Rand (SeedRecord.t * bool) :=
  let hour := getUTCHours currentDate in
  let month := getUTCMonth currentDate in
  let dateString := isoDate currentDate in
  let baseEnergy : Q :=
    if (5 <=? month)%Z && (month <=? 7)%Z then 300
    else if (2 <=? month)%Z && (month <=? 4)%Z then 250
    else if (8 <=? month)%Z && (month <=? 10)%Z then 200
    else 150 in
  let timeMultiplier : Q :=
    if (6 <=? hour)%Z && (hour <=? 18)%Z then
      if (10 <=? hour)%Z && (hour <=? 14)%Z then 1.5 else 1.2
    else 0 in
  r <- random ;;
  let variation := (0.8 + r * 0.4)%Q in
  let energyGenerated := round (baseEnergy * timeMultiplier * variation) in
  let record := {| SeedRecord.serialNumber := "SU-TEST-2024";
                   SeedRecord.timestamp := currentDate;
                   SeedRecord.energyGenerated := energyGenerated |} in
  applyAnomalyPatterns ANOMALY_PATTERNS dateString hour record.

End Seed.

(* ================================================================== *)
(** * api/admin.ts *)
(* ================================================================== *)

Module Admin.

Import Js Scheduler.

Local Open Scope string_scope.

(** The [days] member of a parsed JSON request body, as far as this model
    goes: absent, one of the falsy values [null], [false], the empty string, or a number
    (zero included).  Other truthy values reach the loop bound of
    [generateHistoricalData] through JavaScript's coercions and are left out. *)
Inductive DaysField :=
| DaysUndefined
| DaysNull
| DaysFalse
| DaysEmptyString
| DaysNumber (n : Q).

Inductive ResponseMessage :=
| TodayGenerated
| HistoricalGenerated (days : Q)
| GenerationFailed
| HistoricalFailed.

Record Response := {
  status : Z;
  success : bool;
  responseMessage : ResponseMessage;
  error : option string
}.

(** [req.body?.days || 7]; [req.body] itself may be absent. *)
Definition daysOrDefault (body : option DaysField) : Q :=
  match body with
  | Some (DaysNumber n) => if Qeq_bool n 0 then 7 else n
  | _ => 7
  end.

(** [error?.message || String(error)]. *)
Definition errorText (error : Error) : string :=
  if String.eqb (message error) EmptyString then errorToString error else message error.

Section WithStore.

Context {St : Type} {store_ops : RecordStore St}.
Variable env : Env.

Notation "x <- m ;; k" := (bind m (fun x => k))
  (at level 61, m at next level, right associativity).
Notation "m ;; k" := (bind m (fun _ => k))
  (at level 61, right associativity).

(** [POST /generate-today-data] (lines 12-28). *)
Definition postGenerateTodayData : M St Response :=
  tryCatch
    (log LogApiToday ;;
     generateTodayData env ;;
     ret {| status := 200; success := true;
            responseMessage := TodayGenerated; error := None |})
    (fun e =>
       log (LogApiFailure e) ;;
       ret {| status := 500; success := false;
              responseMessage := GenerationFailed; error := Some (errorText e) |}).

(** [POST /generate-historical-data] (lines 37-54). *)
Definition postGenerateHistoricalData (body : option DaysField) : M St Response :=
  tryCatch
    (let days := daysOrDefault body in
     log (LogApiHistorical days) ;;
     generateHistoricalData env days ;;
     ret {| status := 200; success := true;
            responseMessage := HistoricalGenerated days; error := None |})
    (fun e =>
       log (LogApiFailure e) ;;
       ret {| status := 500; success := false;
              responseMessage := HistoricalFailed; error := Some (errorText e) |}).

End WithStore.

End Admin.

(* ================================================================== *)
(** * Vocabulary of the properties, and concrete scenarios *)
(* ================================================================== *)

Module Scenario.

Import Js Scheduler Seed.

Local Open Scope string_scope.

(** [r'] agrees with [r] on every field other than [energyGenerated]. *)
Definition sameButEnergy (r r' : EnergyRecord) : Prop :=
  serialNumber r' = serialNumber r /\
  solarUnitId r' = solarUnitId r /\
  timestamp r' = timestamp r /\
  peakPower r' = peakPower r /\
  efficiency r' = efficiency r /\
  temperature r' = temperature r.

(** The number of stored documents of [unit] in the 24 hours from [date]:
    what the scheduler's [countDocuments] query counts. *)
Definition recordsFor (docs : list EnergyRecord) (unit : SolarUnit.t) (date : Z) : nat :=
  List.length
    (List.filter
       (matchesQuery (SolarUnit.serialNumber unit) date (addMs date (24 * 60 * 60 * 1000)))
       docs).

(** The console line that reports what happened to [unit] in a run for [date]. *)
Definition unitOutcome (date : Z) (unit : SolarUnit.t) (ev : Event) : Prop :=
  ev = LogSkipping (SolarUnit.name unit) date \/
  ev = LogGenerated 12 (SolarUnit.name unit) \/
  exists msg, ev = LogUnitError (SolarUnit._id unit) msg.

(** The hours visited by the slot loop of [generateRecordsForUnit] when it
    is entered at [hour] with [fuel] iterations left. *)
Fixpoint slotHours (fuel : nat) (hour : Z) : list Z :=
  match fuel with
  | O => []
  | S fuel' => if (hour <? 24)%Z then hour :: slotHours fuel' (hour + 2)%Z else []
  end.

(** [r] is a record of [unit] stamped at [hour] o'clock local time on the
    local day of [date]. *)
Definition slotRecord (tza : Z) (unit : SolarUnit.t) (date : Z) (hour : Z)
  (r : EnergyRecord) : Prop :=
  timestamp r = setHours tza date hour 0 0 0 /\
  serialNumber r = SolarUnit.serialNumber unit /\
  solarUnitId r = SolarUnit._id unit.

Definition unitA : SolarUnit.t :=
  {| SolarUnit._id := "657a0001"; SolarUnit.serialNumber := "SU-0001";
     SolarUnit.capacity := Some 5000%Q; SolarUnit.name := "Roof A" |}.

Definition unitB : SolarUnit.t :=
  {| SolarUnit._id := "657a0002"; SolarUnit.serialNumber := "SU-0002";
     SolarUnit.capacity := None; SolarUnit.name := "Roof B" |}.

(** 2025-12-01T00:00:00Z and 2025-12-01T10:00:00Z. *)
Definition dec1 : Z := 1764547200000.
Definition dec1_10h : Z := 1764583200000.

(** A process in UTC, and one in a zone five and a half hours east of it. *)
Definition envUTC : Env :=
  {| tza := 0; now := dec1_10h; activeUnits := Ok [unitA] |}.

Definition envEast : Env :=
  {| tza := 19800000; now := dec1_10h; activeUnits := Ok [unitA] |}.

Definition registryDown : Error :=
  {| errName := "AxiosError"; message := "connect ECONNREFUSED" |}.

Definition envNoRegistry : Env :=
  {| tza := 0; now := dec1_10h; activeUnits := Err registryDown |}.

Definition envTwoUnits : Env :=
  {| tza := 0; now := dec1_10h; activeUnits := Ok [unitB; unitA] |}.

Definition freshWorld : World (list EnergyRecord) :=
  {| store := []; rng := constRng 0.5; console := [] |}.

(** A store on which every call for [unitB] fails. *)
Definition flakyWorld : World FlakyStore :=
  {| store := {| brokenSerial := "SU-0002"; docs := [] |};
     rng := constRng 0.5; console := [] |}.

Definition record1000 : EnergyRecord :=
  {| serialNumber := "SU-0001"; solarUnitId := "657a0001";
     timestamp := 1764932400000; energyGenerated := 1000;
     peakPower := 1200; efficiency := 90; temperature := 30 |}.

(** A catalog in which two rules select 2025-12-05 at 11 h: [SUDDEN_DROP]
    and, declared after it, a month-long range rule. *)
Definition DECEMBER_FACTOR : Pattern EnergyRecord := {|
  type := "CAPACITY_FACTOR";
  date := None;
  startHour := None;
  endHour := None;
  dateRange := Some ("2025-12-01", "2025-12-31");
  nightOnly := None;
  apply := fun record => retR (withEnergy (round (getEnergy record * 0.4)) record)
|}.

End Scenario.

(* ================================================================== *)
(** * The scheduler's timer, the seeding loop and the command-line scripts *)
(* ================================================================== *)

(** ** [start], [stop] and the cron callback (scheduler lines 17-47) *)

Module Lifecycle.

Import Js Scheduler.

Local Open Scope string_scope.

(** The console lines of [start], [stop] and the callback. *)
Inductive Notice :=
| AlreadyRunning
| Starting
| Started
| Stopped
| TickRunning
| TickCompleted
| TickFailed (msg : string).

(** The console of the process: lifecycle notices and, in between, the
    lines written by the runs. *)
Inductive Line :=
| Lifecycle (n : Notice)
| Run (ev : Event).

(** The task returned by [cron.schedule(expression, callback)]. *)
Record ScheduledTask := { expression : string }.

Section WithStore.

Context {St : Type} {store_ops : RecordStore St}.

(** The static field [job] together with what the runs act on. *)
Record Process := {
  job : option ScheduledTask;
  collection : St;
  generator : Rng;
  journal : list Line
}.

Definition say (n : Notice) (p : Process) : Process :=
  {| job := job p; collection := collection p; generator := generator p;
     journal := journal p ++ [Lifecycle n] |}.

Definition start (p : Process) : Process :=
  match job p with
  | Some _ => say AlreadyRunning p
  | None =>
      say Started
        (say Starting
           {| job := Some {| expression := "0 0 * * *" |};
              collection := collection p; generator := generator p; journal := journal p |})
  end.

Definition stop (p : Process) : Process :=
  match job p with
  | Some _ =>
      say Stopped
        {| job := None; collection := collection p; generator := generator p;
           journal := journal p |}
  | None => p
  end.

(** Runs a scheduler computation inside the process; its console lines are
    appended to the journal in the order they were written. *)
Definition runInProcess {A} (m : M St A) (p : Process) : Result A * Process :=
  let (r, w) := m {| store := collection p; rng := generator p; console := [] |} in
  (r, {| job := job p; collection := store w; generator := rng w;
         journal := journal p ++ map Run (console w) |}).

Variable env : Env.

(** The callback passed to [cron.schedule] (lines 24-32). *)
Definition cronCallback (p : Process) : Result unit * Process :=
  let p := say TickRunning p in
  match runInProcess (generateDailyData env) p with
  | (Ok _, p) => (Ok tt, say TickCompleted p)
  | (Err error, p) => (Ok tt, say (TickFailed (message error)) p)
  end.

End WithStore.

Arguments Process St : clear implicits.

End Lifecycle.

(** ** The loop of [seedWithAnomalies] (seeding script lines 57-144) *)

Module SeedScript.

Import Js Seed.

Local Open Scope rand_scope.

Record Progress := {
  records : list SeedRecord.t;
  normalRecords : Z;
  anomalyRecords : Z
}.

Definition startDate : Z := 1754035200000. (* 2025-08-01T08:00:00Z *)
Definition endDate : Z := 1766217600000.   (* 2025-12-20T08:00:00Z *)

(** [while (currentDate <= endDate) { ...; currentDate += 2 h }].  [fuel]
    bounds the number of iterations; [seedLoop_fuel] shows that [seedFuel]
    is enough. *)
Fixpoint seedLoop (fuel : nat) (currentDate endDate : Z) (st : Progress)
  : Rand Progress :=
  match fuel with
  | O => retR st
  | S fuel' =>
      if (currentDate <=? endDate)%Z then
        made <- seedRecordAt currentDate ;;
        let (record, isAnomaly) := made : SeedRecord.t * bool in
        let st' :=
          {| records := records st ++ [record];
             normalRecords :=
               if isAnomaly then normalRecords st else (normalRecords st + 1)%Z;
             anomalyRecords :=
               if isAnomaly then (anomalyRecords st + 1)%Z else anomalyRecords st |} in
        seedLoop fuel' (addMs currentDate (2 * 60 * 60 * 1000)) endDate st'
      else retR st
  end.

Definition seedFuel (startDate endDate : Z) : nat :=
  Z.to_nat ((endDate - startDate) / (2 * 60 * 60 * 1000) + 1).

Definition seedRecords (startDate endDate : Z) : Rand Progress :=
  seedLoop (seedFuel startDate endDate) startDate endDate
    {| records := []; normalRecords := 0; anomalyRecords := 0 |}.

End SeedScript.

(** ** The command-line scripts around the scheduler

    Each script connects to the database, calls the scheduler and ends the
    process with code 0, or with code 1 when either step throws.  The
    scripts' own console lines are left out. *)

Module Scripts.

Import Js Scheduler.

Section WithStore.

Context {St : Type} {store_ops : RecordStore St}.
Variable env : Env.

(** The outcome of [connectDB()], whose source is not part of these files. *)
Variable connectDB : Result unit.

Definition connect : M St unit := fun w => (connectDB, w).

(** The script that generates today's data: the code passed to
    [process.exit]. *)
Definition generateTodayScript : M St Z :=
  tryCatch
    (bind connect (fun _ =>
     bind (generateTodayData env) (fun _ =>
     ret 0%Z)))
    (fun _ => ret 1%Z).

(** The script that generates the past 7 days. *)
Definition generateHistoricalScript : M St Z :=
  tryCatch
    (bind connect (fun _ =>
     bind (generateHistoricalData env 7) (fun _ =>
     ret 0%Z)))
    (fun _ => ret 1%Z).

End WithStore.

End Scripts.

(** ** Further vocabulary *)

Module Vocabulary.

Import Js Scheduler.



(** Two worlds that agree on store and generator; their consoles may differ. *)
Definition sameState {St : Type} (w1 w2 : World St) : Prop :=
  store w1 = store w2 /\ rng w1 = rng w2.

(** [unit] with its capacity set to [c]. *)
Definition withCapacity (c : Q) (unit : SolarUnit.t) : SolarUnit.t :=
  {| SolarUnit._id := SolarUnit._id unit;
     SolarUnit.serialNumber := SolarUnit.serialNumber unit;
     SolarUnit.capacity := Some c;
     SolarUnit.name := SolarUnit.name unit |}.

(** The invariants of a synthesized record that do not depend on the
    capacity. *)
Definition wellFormed (r : EnergyRecord) : Prop :=
  (25 <= temperature r /\ temperature r < 40)%Q /\
  ((0 < energyGenerated r /\ peakPower r = energyGenerated r * 1.2 /\
    85 <= efficiency r /\ efficiency r < 95) \/
   (energyGenerated r <= 0 /\ peakPower r = 0 /\ efficiency r = 0))%Q.

End Vocabulary.

(** ** A store that refuses writes *)

(** Counting works as in [MemStore]; every insert fails and changes nothing. *)
Record ReadOnlyStore := { frozen : list EnergyRecord }.

Definition writeDenied : Js.Error :=
  {| Js.errName := "MongoServerError"; Js.message := "not authorized" |}.

#[export] Instance ReadOnlyStore_RecordStore : RecordStore ReadOnlyStore := {
  countDocuments s serial from to :=
    (Js.Ok (List.length (List.filter (matchesQuery serial from to) (frozen s))), s);
  insertMany s new := (Js.Err writeDenied, s)
}.

Definition readOnlyWorld : Scheduler.World ReadOnlyStore :=
  {| Scheduler.store := {| frozen := [] |};
     Scheduler.rng := Js.constRng 0.5; Scheduler.console := [] |}.

(** ** Processes used in concrete runs *)

Definition idleProcess : Lifecycle.Process (list EnergyRecord) :=
  {| Lifecycle.job := None; Lifecycle.collection := [];
     Lifecycle.generator := Js.constRng 0.5; Lifecycle.journal := [] |}.

Definition flakyProcess : Lifecycle.Process FlakyStore :=
  {| Lifecycle.job := Some {| Lifecycle.expression := "0 0 * * *" |};
     Lifecycle.collection := {| brokenSerial := "SU-0002"; docs := [] |};
     Lifecycle.generator := Js.constRng 0.5; Lifecycle.journal := [] |}.

(* ================================================================== *)
(** * Properties *)
(* ================================================================== *)

Import Js Scheduler.

(** ** Numbers and draws *)

Lemma Qleb_true (x y : Q) : Qleb x y = true <-> (x <= y)%Q.
Proof. unfold Qleb. apply Qle_bool_iff. Qed.

Lemma Qltb_true (x y : Q) : Qltb x y = true <-> (x < y)%Q.
Proof.
  unfold Qltb. rewrite negb_true_iff. split; intro H.
  - apply Qnot_le_lt. intro L. apply Qle_bool_iff in L. congruence.
  - destruct (Qle_bool y x) eqn:E; [|reflexivity].
    apply Qle_bool_iff in E. exfalso. apply (Qlt_not_le _ _ H E).
Qed.

Lemma Qleb_false (x y : Q) : Qleb x y = false <-> (y < x)%Q.
Proof.
  rewrite <- Qltb_true. unfold Qltb, Qleb. rewrite negb_true_iff. tauto.
Qed.

Lemma Qltb_false (x y : Q) : Qltb x y = false <-> (y <= x)%Q.
Proof.
  rewrite <- Qleb_true. unfold Qltb, Qleb. rewrite negb_false_iff. tauto.
Qed.

Lemma max_zero_nonneg (x : Q) : (0 <= Js.max 0 x)%Q.
Proof. unfold Js.max. apply Q.le_max_l. Qed.

(** [Math.round] returns the whole number nearest to its argument. *)
Lemma round_nearest (x : Q) : nearestWhole x (round x).
Proof.
  exists (Qfloor (x + 0.5)). unfold round. split; [reflexivity|].
  pose proof (Qfloor_le (x + 0.5)) as Hle.
  pose proof (Qlt_floor (x + 0.5)) as Hlt.
  rewrite inject_Z_plus in Hlt. change (inject_Z 1) with 1%Q in Hlt.
  split; lra.
Qed.

Lemma round_nonneg (x : Q) : (0 <= x)%Q -> (0 <= round x)%Q.
Proof.
  intro Hx. unfold round.
  change 0%Q with (inject_Z 0). rewrite <- Zle_Qle.
  rewrite <- (Qfloor_Z 0). apply Qfloor_resp_le.
  change (inject_Z 0) with 0%Q. lra.
Qed.

Lemma fair_constRng (r : Q) : (0 <= r)%Q -> (r < 1)%Q -> fair (constRng r).
Proof. intros H0 H1 n. simpl. split; assumption. Qed.

(** ** [calculateEnergyGeneration], branch by branch *)

Lemma calc_night (hour capacity : Q) (g : Rng) :
  (22 <= hour \/ hour < 6)%Q ->
  calculateEnergyGeneration hour capacity g = (0%Q, g).
Proof.
  intro H. unfold calculateEnergyGeneration.
  assert (E : (Qgeb hour 22 || Qltb hour 6)%bool = true).
  { apply orb_true_iff. unfold Qgeb. rewrite Qleb_true, Qltb_true. exact H. }
  rewrite E. reflexivity.
Qed.

Lemma calc_peak (hour capacity : Q) (g : Rng) :
  (12 <= hour)%Q -> (hour < 14)%Q ->
  calculateEnergyGeneration hour capacity g =
    ((capacity * 0.75 * (1 + (draw g * 0.15 - 0.075)))%Q, advance g).
Proof.
  intros H1 H2. unfold calculateEnergyGeneration.
  assert (E1 : (Qgeb hour 22 || Qltb hour 6)%bool = false).
  { apply orb_false_iff. unfold Qgeb. rewrite Qleb_false, Qltb_false. split; lra. }
  assert (E2 : (Qgeb hour 6 && Qltb hour 12)%bool = false).
  { apply andb_false_iff. right. rewrite Qltb_false. lra. }
  assert (E3 : (Qgeb hour 12 && Qltb hour 14)%bool = true).
  { apply andb_true_iff. unfold Qgeb. rewrite Qleb_true, Qltb_true. split; lra. }
  rewrite E1, E2, E3. reflexivity.
Qed.

Lemma calc_nonneg (hour capacity : Q) (g : Rng) :
  (0 < capacity)%Q -> fair g ->
  (0 <= fst (calculateEnergyGeneration hour capacity g))%Q.
Proof.
  intros Hc Hg. destruct (Hg (cursor g)) as [Hr0 Hr1].
  fold (draw g) in Hr0, Hr1.
  unfold calculateEnergyGeneration.
  destruct (Qgeb hour 22 || Qltb hour 6)%bool eqn:E1; [simpl; lra|].
  destruct (Qgeb hour 6 && Qltb hour 12)%bool eqn:E2;
    [unfold bindR, random, retR; cbn [fst]; apply max_zero_nonneg|].
  destruct (Qgeb hour 12 && Qltb hour 14)%bool eqn:E3.
  { unfold bindR, random, retR; cbn [fst]. nra. }
  destruct (Qgeb hour 14 && Qltb hour 20)%bool eqn:E4;
    [unfold bindR, random, retR; cbn [fst]; apply max_zero_nonneg|].
  destruct (Qgeb hour 20 && Qltb hour 22)%bool eqn:E5;
    [unfold bindR, random, retR; cbn [fst]; apply max_zero_nonneg|].
  simpl. lra.
Qed.

(** C8.  Night hours yield zero: for every hour in [22,24) or [0,6) and
    every capacity, [calculateEnergyGeneration] returns exactly 0, without
    drawing a random number. *)
Theorem night_hours_yield_zero (hour capacity : Q) (g : Rng) :
  ((22 <= hour /\ hour < 24) \/ (0 <= hour /\ hour < 6))%Q ->
  calculateEnergyGeneration hour capacity g = (0%Q, g).
Proof.
  intro H. apply calc_night. destruct H as [[H _]|[_ H]]; [left|right]; exact H.
Qed.

Lemma night_hours_yield_zero_witness :
  ((22 <= 23 /\ 23 < 24) \/ (0 <= 23 /\ 23 < 6))%Q /\
  calculateEnergyGeneration 23 5000 (constRng 0.5) = (0%Q, constRng 0.5).
Proof.
  assert (H : ((22 <= 23 /\ 23 < 24) \/ (0 <= 23 /\ 23 < 6))%Q)
    by (left; split; lra).
  split; [exact H | exact (night_hours_yield_zero 23 5000 (constRng 0.5) H)].
Defined.

(** C7.  Peak-hour band: for every capacity c > 0 and every draw in [0,1),
    the output of [calculateEnergyGeneration] at hour 12 and at hour 13 lies
    within 10 percent of 0.75 c. *)
Theorem peak_hour_band (capacity : Q) (g : Rng) :
  (0 < capacity)%Q -> fair g ->
  let e12 := fst (calculateEnergyGeneration 12 capacity g) in
  let e13 := fst (calculateEnergyGeneration 13 capacity g) in
  (0.9 * (0.75 * capacity) <= e12 /\ e12 <= 1.1 * (0.75 * capacity))%Q /\
  (0.9 * (0.75 * capacity) <= e13 /\ e13 <= 1.1 * (0.75 * capacity))%Q.
Proof.
  intros Hc Hg e12 e13. subst e12 e13.
  destruct (Hg (cursor g)) as [Hr0 Hr1]. fold (draw g) in Hr0, Hr1.
  rewrite !calc_peak by lra. cbn [fst].
  repeat split; nra.
Qed.

Lemma peak_hour_band_witness :
  (0 < 5000)%Q /\ fair (constRng 0.5) /\
  (0.9 * (0.75 * 5000) <= fst (calculateEnergyGeneration 12 5000 (constRng 0.5)))%Q.
Proof.
  assert (Hc : (0 < 5000)%Q) by lra.
  assert (Hg : fair (constRng 0.5)) by (apply fair_constRng; lra).
  split; [exact Hc|]. split; [exact Hg|].
  exact (proj1 (proj1 (peak_hour_band 5000 (constRng 0.5) Hc Hg))).
Defined.

(** ** The anomaly catalog *)

Import Seed Scenario.

Local Open Scope string_scope.
Local Open Scope list_scope.

Lemma apply_keeps_fields (p : Pattern EnergyRecord) (record : EnergyRecord) (g : Rng) :
  In p ANOMALY_PATTERNS -> sameButEnergy record (fst (apply p record g)).
Proof.
  intro Hp. unfold ANOMALY_PATTERNS in Hp. simpl in Hp.
  destruct Hp as [<-|[<-|[<-|[<-|[<-|[]]]]]];
    unfold sameButEnergy; cbn; repeat split; reflexivity.
Qed.

Lemma apply_nonneg (p : Pattern EnergyRecord) (record : EnergyRecord) (g : Rng) :
  In p ANOMALY_PATTERNS -> fair g -> (0 <= energyGenerated record)%Q ->
  (0 <= energyGenerated (fst (apply p record g)))%Q.
Proof.
  intros Hp Hg He. destruct (Hg (cursor g)) as [Hr0 Hr1].
  fold (draw g) in Hr0, Hr1.
  unfold ANOMALY_PATTERNS in Hp. simpl in Hp.
  destruct Hp as [<-|[<-|[<-|[<-|[<-|[]]]]]].
  - cbn. lra.
  - cbn [apply SUDDEN_DROP retR fst withEnergy getEnergy EnergyRecord_HasEnergy
         energyGenerated].
    apply round_nonneg. nra.
  - cbn [apply CAPACITY_FACTOR retR fst withEnergy getEnergy EnergyRecord_HasEnergy
         energyGenerated].
    apply round_nonneg. nra.
  - cbn [apply IRREGULAR_PATTERN retR bindR random fst withEnergy getEnergy
         EnergyRecord_HasEnergy energyGenerated].
    apply round_nonneg. destruct (Qgtb (draw g) 0.5); nra.
  - cbn [apply IRREGULAR_PATTERN_NIGHT retR bindR random fst withEnergy getEnergy
         EnergyRecord_HasEnergy energyGenerated].
    nra.
Qed.

(** The scan either leaves the record alone or applies exactly one pattern
    of the list. *)
Lemma scan_cases {R : Type} (patterns : list (Pattern R)) (dateString : string)
  (hour : Z) (record : R) (g : Rng) :
  applyAnomalyPatterns patterns dateString hour record g = ((record, false), g) \/
  exists p, In p patterns /\
    applyAnomalyPatterns patterns dateString hour record g =
      ((fst (apply p record g), true), snd (apply p record g)).
Proof.
  induction patterns as [|q rest IH]; [left; reflexivity|].
  cbn [applyAnomalyPatterns].
  destruct (shouldApplyPattern q dateString hour).
  - right. exists q. split; [left; reflexivity|].
    unfold bindR, retR. destruct (apply q record g); reflexivity.
  - destruct IH as [IH|[p [Hin IH]]]; [left; exact IH|].
    right. exists p. split; [right; exact Hin | exact IH].
Qed.

Lemma scan_skips {R : Type} (before rest : list (Pattern R)) (dateString : string)
  (hour : Z) (record : R) (g : Rng) :
  (forall q, In q before -> shouldApplyPattern q dateString hour = false) ->
  applyAnomalyPatterns (before ++ rest) dateString hour record g =
  applyAnomalyPatterns rest dateString hour record g.
Proof.
  induction before as [|q before IH]; intro H; [reflexivity|].
  cbn [app applyAnomalyPatterns].
  rewrite (H q (or_introl eq_refl)).
  apply IH. intros q' Hq'. apply H. right. exact Hq'.
Qed.

(** C3.  First match wins.  Rules are scanned in declaration order: when no
    rule of a list selects the date and hour the record is returned
    unchanged with the anomaly flag false; when the rules declared before
    [p] do not select it and [p] does, the outcome is exactly [p]'s
    transform with the flag true, whatever rules are declared after [p],
    including rules that select the same date and hour. *)
Theorem first_match_wins {R : Type} (before after : list (Pattern R))
  (p : Pattern R) (dateString : string) (hour : Z) (record : R) (g : Rng) :
  (forall q, In q before -> shouldApplyPattern q dateString hour = false) ->
  applyAnomalyPatterns before dateString hour record g = ((record, false), g) /\
  (shouldApplyPattern p dateString hour = true ->
   applyAnomalyPatterns (before ++ p :: after) dateString hour record g =
     ((fst (apply p record g), true), snd (apply p record g))).
Proof.
  intro Hbefore. split.
  - rewrite <- (app_nil_r before). rewrite scan_skips by exact Hbefore.
    reflexivity.
  - intro Hp. rewrite scan_skips by exact Hbefore.
    cbn [applyAnomalyPatterns]. rewrite Hp.
    unfold bindR, retR. destruct (apply p record g); reflexivity.
Qed.

Lemma first_match_wins_witness :
  (forall q, In q [ZERO_GENERATION (R:=EnergyRecord)] ->
             shouldApplyPattern q "2025-12-05" 11 = false) /\
  shouldApplyPattern (SUDDEN_DROP (R:=EnergyRecord)) "2025-12-05" 11 = true /\
  shouldApplyPattern DECEMBER_FACTOR "2025-12-05" 11 = true /\
  energyGenerated
    (fst (fst (applyAnomalyPatterns
                 ([ZERO_GENERATION] ++ SUDDEN_DROP :: [DECEMBER_FACTOR])
                 "2025-12-05" 11 record1000 (constRng 0.5)))) = 300%Q.
Proof.
  assert (Hb : forall q, In q [ZERO_GENERATION (R:=EnergyRecord)] ->
                         shouldApplyPattern q "2025-12-05" 11 = false).
  { intros q [<-|[]]. reflexivity. }
  assert (Hp : shouldApplyPattern (SUDDEN_DROP (R:=EnergyRecord)) "2025-12-05" 11 = true)
    by reflexivity.
  split; [exact Hb|]. split; [exact Hp|]. split; [reflexivity|].
  rewrite (proj2 (first_match_wins [ZERO_GENERATION] [DECEMBER_FACTOR] SUDDEN_DROP
                    "2025-12-05" 11 record1000 (constRng 0.5) Hb) Hp).
  reflexivity.
Defined.

(** C9.  SUDDEN_DROP scenario: on 2025-12-05 at hour 11 the SUDDEN_DROP
    rule is the one that matches, and a record whose [energyGenerated] is
    1000 leaves the catalog with [energyGenerated] exactly 300 and the
    anomaly flag set; its other fields are untouched and no random number is
    drawn. *)
Theorem sudden_drop_scenario (record : EnergyRecord) (g : Rng) :
  (energyGenerated record == 1000)%Q ->
  shouldApplyPattern (SUDDEN_DROP (R:=EnergyRecord)) "2025-12-05" 11 = true /\
  shouldApplyPattern (ZERO_GENERATION (R:=EnergyRecord)) "2025-12-05" 11 = false /\
  applyAnomalyPatterns ANOMALY_PATTERNS "2025-12-05" 11 record g =
    ((withEnergy 300 record, true), g).
Proof.
  intro He. split; [reflexivity|]. split; [reflexivity|].
  unfold ANOMALY_PATTERNS. cbn [applyAnomalyPatterns].
  change (shouldApplyPattern (ZERO_GENERATION (R:=EnergyRecord)) "2025-12-05" 11)
    with false.
  change (shouldApplyPattern (SUDDEN_DROP (R:=EnergyRecord)) "2025-12-05" 11)
    with true.
  cbn [apply SUDDEN_DROP bindR retR getEnergy EnergyRecord_HasEnergy].
  assert (Hr : round (energyGenerated record * 0.3) = 300%Q).
  { unfold round.
    assert (Hq : (energyGenerated record * 0.3 + 0.5 == 1000 * 0.3 + 0.5)%Q)
      by (rewrite He; reflexivity).
    rewrite Hq. reflexivity. }
  rewrite Hr. reflexivity.
Qed.

Lemma sudden_drop_scenario_witness :
  (energyGenerated record1000 == 1000)%Q /\
  energyGenerated
    (fst (fst (applyAnomalyPatterns ANOMALY_PATTERNS "2025-12-05" 11 record1000
                 (constRng 0.5)))) = 300%Q.
Proof.
  assert (He : (energyGenerated record1000 == 1000)%Q) by reflexivity.
  split; [exact He|].
  rewrite (proj2 (proj2 (sudden_drop_scenario record1000 (constRng 0.5) He))).
  reflexivity.
Defined.

(** C6.  Non-negativity: for every hour, every capacity above zero and
    every draw in [0,1), the synthesized energy is at least 0; the transform
    of every catalog rule, and the catalog scan as a whole, keep a
    non-negative energy non-negative; and the multiplicative transforms
    (SUDDEN_DROP, CAPACITY_FACTOR, IRREGULAR_PATTERN) return [Math.round] of
    the product, the whole number nearest to it. *)
Theorem energy_never_negative (hour capacity : Q) (g : Rng)
  (p : Pattern EnergyRecord) (record : EnergyRecord)
  (dateString : string) (slotHour : Z) (x : Q) :
  (0 < capacity)%Q -> fair g -> In p ANOMALY_PATTERNS ->
  (0 <= energyGenerated record)%Q ->
  (0 <= fst (calculateEnergyGeneration hour capacity g))%Q /\
  (0 <= energyGenerated (fst (apply p record g)))%Q /\
  (0 <= energyGenerated
          (fst (fst (applyAnomalyPatterns ANOMALY_PATTERNS dateString slotHour
                       record g))))%Q /\
  energyGenerated (fst (apply SUDDEN_DROP record g)) =
    round (energyGenerated record * 0.3) /\
  energyGenerated (fst (apply CAPACITY_FACTOR record g)) =
    round (energyGenerated record * 0.4) /\
  (energyGenerated (fst (apply IRREGULAR_PATTERN record g)) =
     round (energyGenerated record * 2.5) \/
   energyGenerated (fst (apply IRREGULAR_PATTERN record g)) =
     round (energyGenerated record * 0.4)) /\
  nearestWhole x (round x).
Proof.
  intros Hc Hg Hp He.
  split; [apply calc_nonneg; assumption|].
  split; [apply apply_nonneg; assumption|].
  split.
  { destruct (scan_cases ANOMALY_PATTERNS dateString slotHour record g)
      as [E|[q [Hq E]]]; rewrite E; cbn [fst].
    - exact He.
    - apply apply_nonneg; assumption. }
  split; [reflexivity|]. split; [reflexivity|].
  split; [|apply round_nearest].
  cbn [apply IRREGULAR_PATTERN retR bindR random fst withEnergy getEnergy
       EnergyRecord_HasEnergy energyGenerated].
  destruct (Qgtb (draw g) 0.5); [left|right]; reflexivity.
Qed.

Lemma energy_never_negative_witness :
  (0 < 5000)%Q /\ fair (constRng 0.5) /\
  In (IRREGULAR_PATTERN (R:=EnergyRecord)) ANOMALY_PATTERNS /\
  (0 <= energyGenerated record1000)%Q /\
  (0 <= fst (calculateEnergyGeneration 10 5000 (constRng 0.5)))%Q /\
  (0 <= energyGenerated (fst (apply IRREGULAR_PATTERN record1000 (constRng 0.5))))%Q.
Proof.
  assert (Hc : (0 < 5000)%Q) by lra.
  assert (Hg : fair (constRng 0.5)) by (apply fair_constRng; lra).
  assert (Hp : In (IRREGULAR_PATTERN (R:=EnergyRecord)) ANOMALY_PATTERNS)
    by (simpl; tauto).
  assert (He : (0 <= energyGenerated record1000)%Q) by (simpl; lra).
  pose proof (energy_never_negative 10 5000 (constRng 0.5) IRREGULAR_PATTERN
                record1000 "2025-12-08" 10 2.5 Hc Hg Hp He) as H.
  split; [exact Hc|]. split; [exact Hg|]. split; [exact Hp|]. split; [exact He|].
  split; [exact (proj1 H) | exact (proj1 (proj2 H))].
Defined.

(** ** Dates *)

Lemma setHours_startOfDay (tza t hour : Z) :
  setHours tza (setHours tza t 0 0 0 0) hour 0 0 0 =
  (setHours tza t 0 0 0 0 + hour * msPerHour)%Z.
Proof.
  unfold setHours, UTC, LocalTime, MakeDate, MakeTime, Day.
  set (d := ((t + tza) / msPerDay)%Z).
  replace (d * msPerDay + (0 * msPerHour + 0 * 60000 + 0 * 1000 + 0) - tza + tza)%Z
    with (d * msPerDay)%Z by lia.
  rewrite Z.div_mul by (unfold msPerDay; lia).
  lia.
Qed.

Lemma setHours_local_grid (tza t hour : Z) :
  (LocalTime tza (setHours tza t hour 0 0 0) mod (2 * msPerHour) =
   (hour * msPerHour) mod (2 * msPerHour))%Z.
Proof.
  unfold setHours, UTC, LocalTime, MakeDate, MakeTime, Day.
  set (d := ((t + tza) / msPerDay)%Z).
  replace (d * msPerDay + (hour * msPerHour + 0 * 60000 + 0 * 1000 + 0) - tza + tza)%Z
    with (hour * msPerHour + (d * 12) * (2 * msPerHour))%Z
    by (unfold msPerDay, msPerHour; lia).
  apply Z.mod_add. unfold msPerHour. lia.
Qed.

(** ** The slot loop *)

Lemma makeRecord_slot (tza : Z) (unit : SolarUnit.t) (date hour : Z) (g : Rng) :
  slotRecord tza unit date hour (fst (makeRecord tza unit date hour g)).
Proof.
  unfold makeRecord, bindR.
  destruct (calculateEnergyGeneration (inject_Z hour) (capacityOrDefault unit) g)
    as [e g1].
  destruct (Qgtb e 0); unfold random, retR; cbn; repeat split; reflexivity.
Qed.

Lemma slotLoop_records (fuel : nat) (tza : Z) (unit : SolarUnit.t) (date : Z) :
  forall (hour : Z) (acc : list EnergyRecord) (g : Rng),
  exists news,
    fst (slotLoop fuel tza unit date hour acc g) = acc ++ news /\
    Forall2 (slotRecord tza unit date) (slotHours fuel hour) news.
Proof.
  induction fuel as [|fuel IH]; intros hour acc g; cbn [slotLoop slotHours].
  - exists []. rewrite app_nil_r. split; [reflexivity | constructor].
  - destruct (hour <? 24)%Z.
    + unfold bindR.
      pose proof (makeRecord_slot tza unit date hour g) as Hr.
      destruct (makeRecord tza unit date hour g) as [r g1]. cbn [fst] in Hr.
      destruct (IH (hour + 2)%Z (acc ++ [r]) g1) as [news [E F]].
      exists (r :: news). split.
      * rewrite E, <- app_assoc. reflexivity.
      * constructor; assumption.
    + exists []. rewrite app_nil_r. split; [reflexivity | constructor].
Qed.

(** Twelve iterations exhaust the loop condition [hour < 24]: more fuel
    changes nothing. *)
Lemma slotLoop_fuel_from (fuel extra : nat) (tza : Z) (unit : SolarUnit.t) (date : Z) :
  forall (hour : Z) (acc : list EnergyRecord) (g : Rng),
  (24 <= hour + 2 * Z.of_nat fuel)%Z ->
  slotLoop (fuel + extra) tza unit date hour acc g =
  slotLoop fuel tza unit date hour acc g.
Proof.
  induction fuel as [|fuel IH]; intros hour acc g H.
  - cbn [Nat.add slotLoop]. destruct extra; [reflexivity|].
    cbn [slotLoop]. replace (hour <? 24)%Z with false; [reflexivity|].
    symmetry. apply Z.ltb_ge. lia.
  - cbn [Nat.add slotLoop]. destruct (hour <? 24)%Z; [|reflexivity].
    unfold bindR. destruct (makeRecord tza unit date hour g) as [r g1].
    apply IH. lia.
Qed.

Lemma slotLoop_fuel (extra : nat) (tza : Z) (unit : SolarUnit.t) (date : Z) (g : Rng) :
  slotLoop (12 + extra) tza unit date 0 [] g = buildRecords tza unit date g.
Proof. unfold buildRecords. apply slotLoop_fuel_from. lia. Qed.

Lemma buildRecords_slots (tza : Z) (unit : SolarUnit.t) (date : Z) (g : Rng) :
  Forall2 (slotRecord tza unit date) [0; 2; 4; 6; 8; 10; 12; 14; 16; 18; 20; 22]%Z
          (fst (buildRecords tza unit date g)).
Proof.
  unfold buildRecords.
  destruct (slotLoop_records 12 tza unit date 0 [] g) as [news [E F]].
  rewrite E. exact F.
Qed.

Lemma buildRecords_length (tza : Z) (unit : SolarUnit.t) (date : Z) (g : Rng) :
  List.length (fst (buildRecords tza unit date g)) = 12%nat.
Proof.
  pose proof (buildRecords_slots tza unit date g) as F.
  apply Forall2_length in F. rewrite <- F. reflexivity.
Qed.

Lemma Forall2_map_eq {A B C : Type} (f : B -> C) (h : A -> C) (P : A -> B -> Prop)
  (xs : list A) (ys : list B) :
  (forall x y, P x y -> f y = h x) -> Forall2 P xs ys -> map f ys = map h xs.
Proof.
  intros HP F. induction F as [|x y xs ys Hxy F IH]; [reflexivity|].
  cbn [map]. rewrite (HP x y Hxy), IH. reflexivity.
Qed.

Lemma Forall2_Forall_r {A B : Type} (P : A -> B -> Prop) (Q : B -> Prop)
  (xs : list A) (ys : list B) :
  (forall x y, In x xs -> P x y -> Q y) -> Forall2 P xs ys -> Forall Q ys.
Proof.
  intros HP F. induction F as [|x y xs ys Hxy F IH]; constructor.
  - apply (HP x y); [left; reflexivity | exact Hxy].
  - apply IH. intros x' y' Hin. apply HP. right. exact Hin.
Qed.

Lemma filter_all {A : Type} (f : A -> bool) (l : list A) :
  Forall (fun a => f a = true) l -> filter f l = l.
Proof.
  intro F. induction F as [|a l Ha F IH]; [reflexivity|].
  cbn [filter]. rewrite Ha, IH. reflexivity.
Qed.

Lemma setHours_offset (tza t hour : Z) :
  setHours tza t hour 0 0 0 = (setHours tza t 0 0 0 0 + hour * msPerHour)%Z.
Proof. unfold setHours, UTC, MakeDate, MakeTime. lia. Qed.

Lemma slot_hour_range (hour : Z) :
  In hour [0; 2; 4; 6; 8; 10; 12; 14; 16; 18; 20; 22]%Z ->
  exists k : Z, (hour = 2 * k /\ 0 <= k <= 11)%Z.
Proof.
  intro H. exists (hour / 2)%Z.
  repeat (destruct H as [<-|H]; [split; [reflexivity | cbn; lia]|]).
  destruct H.
Qed.

(** ** [generateRecordsForUnit] against a store that persists *)

Lemma generateRecordsForUnit_mem (env : Env) (unit : SolarUnit.t) (date : Z)
  (docs : list EnergyRecord) (g : Rng) (c : list Event) :
  generateRecordsForUnit env unit date {| store := docs; rng := g; console := c |} =
  if (0 <? recordsFor docs unit date)%nat then
    (Ok tt, {| store := docs;
               rng := snd (buildRecords (tza env) unit date g);
               console := c ++ [LogSkipping (SolarUnit.name unit) date] |})
  else
    (Ok tt, {| store := docs ++ fst (buildRecords (tza env) unit date g);
               rng := snd (buildRecords (tza env) unit date g);
               console := c ++ [LogGenerated 12 (SolarUnit.name unit)] |}).
Proof.
  unfold generateRecordsForUnit, bind, liftRand, countDocumentsM, insertManyM, log.
  cbn [store rng console].
  pose proof (buildRecords_length (tza env) unit date g) as Hlen.
  destruct (buildRecords (tza env) unit date g) as [records g1].
  cbn [fst snd] in *. cbn [countDocuments MemStore store rng console].
  fold (recordsFor docs unit date).
  destruct (0 <? recordsFor docs unit date)%nat; cbn [insertMany MemStore store rng console].
  - reflexivity.
  - rewrite Hlen. reflexivity.
Qed.

(** The twelve records built for the day that starts at [date] all fall in
    the window of the existence check. *)
Lemma built_records_counted (tza now : Z) (unit : SolarUnit.t) (g : Rng) :
  let date := setHours tza now 0 0 0 0 in
  recordsFor (fst (buildRecords tza unit date g)) unit date = 12%nat.
Proof.
  intro date. unfold recordsFor.
  rewrite filter_all; [apply buildRecords_length|].
  apply (Forall2_Forall_r (slotRecord tza unit date) _
           [0; 2; 4; 6; 8; 10; 12; 14; 16; 18; 20; 22]%Z);
    [|apply buildRecords_slots].
  intros hour r Hin Hr.
  destruct Hr as [Ht [Hs _]]. apply slot_hour_range in Hin.
  destruct Hin as [k [-> Hk]].
  unfold matchesQuery. rewrite Hs, String.eqb_refl, Ht.
  unfold date. rewrite setHours_startOfDay. unfold addMs, msPerHour.
  apply andb_true_iff. split; [apply andb_true_iff; split; [reflexivity|]|].
  - apply Z.leb_le. lia.
  - apply Z.ltb_lt. lia.
Qed.

Lemma recordsFor_app (docs news : list EnergyRecord) (unit : SolarUnit.t) (date : Z) :
  recordsFor (docs ++ news) unit date =
  (recordsFor docs unit date + recordsFor news unit date)%nat.
Proof. unfold recordsFor. rewrite filter_app, length_app. reflexivity. Qed.

(** C1.  Idempotence of the (unit, day) generation on a store that persists:
    when the day, starting at the local midnight [date], has no record of
    the unit yet, the first invocation leaves exactly 12; the second one
    then counts 12 existing records, inserts nothing, logs the skip, and
    the store still holds exactly 12 records for that unit and day. *)
Theorem generation_run_idempotent (env : Env) (unit : SolarUnit.t) (now : Z)
  (docs : list EnergyRecord) (g : Rng) (c : list Event) :
  let date := setHours (tza env) now 0 0 0 0 in
  let run1 := generateRecordsForUnit env unit date
                {| store := docs; rng := g; console := c |} in
  let run2 := generateRecordsForUnit env unit date (snd run1) in
  recordsFor docs unit date = 0%nat ->
  fst run1 = Ok tt /\
  recordsFor (store (snd run1)) unit date = 12%nat /\
  fst (countDocuments (store (snd run1)) (SolarUnit.serialNumber unit) date
         (addMs date (24 * 60 * 60 * 1000))) = Ok 12%nat /\
  fst run2 = Ok tt /\
  store (snd run2) = store (snd run1) /\
  console (snd run2) =
    console (snd run1) ++ [LogSkipping (SolarUnit.name unit) date] /\
  recordsFor (store (snd run2)) unit date = 12%nat.
Proof.
  intros date run1 run2 H0.
  assert (E1 : run1 =
    (Ok tt, {| store := docs ++ fst (buildRecords (tza env) unit date g);
               rng := snd (buildRecords (tza env) unit date g);
               console := c ++ [LogGenerated 12 (SolarUnit.name unit)] |})).
  { unfold run1. rewrite generateRecordsForUnit_mem, H0. reflexivity. }
  assert (H12 : recordsFor (docs ++ fst (buildRecords (tza env) unit date g)) unit date
                = 12%nat).
  { rewrite recordsFor_app, H0. apply built_records_counted. }
  assert (E2 : run2 =
    (Ok tt, {| store := docs ++ fst (buildRecords (tza env) unit date g);
               rng := snd (buildRecords (tza env) unit date
                             (snd (buildRecords (tza env) unit date g)));
               console := (c ++ [LogGenerated 12 (SolarUnit.name unit)]) ++
                          [LogSkipping (SolarUnit.name unit) date] |})).
  { unfold run2. rewrite E1. cbn [snd].
    rewrite generateRecordsForUnit_mem, H12. reflexivity. }
  rewrite E1, E2. cbn [fst snd store console].
  repeat split; try exact H12.
  cbn [countDocuments MemStore fst]. f_equal. exact H12.
Qed.

Lemma generation_run_idempotent_witness :
  recordsFor [] unitA (setHours (tza envUTC) dec1_10h 0 0 0 0) = 0%nat /\
  recordsFor
    (store (snd (generateRecordsForUnit envUTC unitA (setHours (tza envUTC) dec1_10h 0 0 0 0)
                   (snd (generateRecordsForUnit envUTC unitA
                           (setHours (tza envUTC) dec1_10h 0 0 0 0) freshWorld)))))
    unitA (setHours (tza envUTC) dec1_10h 0 0 0 0) = 12%nat.
Proof.
  assert (H0 : recordsFor [] unitA (setHours (tza envUTC) dec1_10h 0 0 0 0) = 0%nat)
    by reflexivity.
  split; [exact H0|].
  exact (proj2 (proj2 (proj2 (proj2 (proj2 (proj2
           (generation_run_idempotent envUTC unitA dec1_10h [] (constRng 0.5) [] H0))))))).
Defined.

(** C2, as the code has it.  The scheduler does not consult the anomaly
    catalog: for a day without records it persists the batch exactly as
    built.  The catalog is applied by the seeding script, to the record of
    each step under its UTC date and hour.  Wherever a rule of the catalog
    is applied, alone or through the scan, the outcome differs from the
    record it was given in [energyGenerated] at most: serial number, unit
    id, timestamp, [peakPower], [efficiency] and [temperature] are kept. *)
Theorem anomaly_transform_only_energy (env : Env) (unit : SolarUnit.t) (date : Z)
  (docs : list EnergyRecord) (g : Rng) (c : list Event)
  (p : Pattern EnergyRecord) (dateString : string) (hour : Z)
  (record : EnergyRecord) (g' : Rng) (currentDate : Z) :
  recordsFor docs unit date = 0%nat -> In p ANOMALY_PATTERNS ->
  store (snd (generateRecordsForUnit env unit date
                {| store := docs; rng := g; console := c |})) =
    docs ++ fst (buildRecords (tza env) unit date g) /\
  sameButEnergy record (fst (apply p record g')) /\
  sameButEnergy record
    (fst (fst (applyAnomalyPatterns ANOMALY_PATTERNS dateString hour record g'))) /\
  exists base,
    seedRecordAt currentDate g' =
    applyAnomalyPatterns ANOMALY_PATTERNS (isoDate currentDate)
      (getUTCHours currentDate) base (advance g').
Proof.
  intros H0 Hp. split; [|split; [|split]].
  - rewrite generateRecordsForUnit_mem, H0. reflexivity.
  - apply apply_keeps_fields. exact Hp.
  - destruct (scan_cases ANOMALY_PATTERNS dateString hour record g')
      as [E|[q [Hq E]]]; rewrite E; cbn [fst].
    + unfold sameButEnergy. repeat split; reflexivity.
    + apply apply_keeps_fields. exact Hq.
  - unfold seedRecordAt, bindR, random. eexists. reflexivity.
Qed.

Lemma anomaly_transform_only_energy_witness :
  recordsFor [] unitA dec1 = 0%nat /\
  In (SUDDEN_DROP (R:=EnergyRecord)) ANOMALY_PATTERNS /\
  sameButEnergy record1000 (fst (apply SUDDEN_DROP record1000 (constRng 0.5))).
Proof.
  assert (H0 : recordsFor [] unitA dec1 = 0%nat) by reflexivity.
  assert (Hp : In (SUDDEN_DROP (R:=EnergyRecord)) ANOMALY_PATTERNS)
    by (simpl; tauto).
  split; [exact H0|]. split; [exact Hp|].
  exact (proj1 (proj2
    (anomaly_transform_only_energy envUTC unitA dec1 [] (constRng 0.5) []
       SUDDEN_DROP "2025-12-05" 11 record1000 (constRng 0.5) dec1_10h H0 Hp))).
Defined.

(** C2 as stated fails: the record the scheduler persists for 2025-12-01 at
    10:00 UTC keeps its synthesized energy, although ZERO_GENERATION selects
    that date and hour and the catalog would have set the energy to 0. *)
Lemma scheduler_bypasses_catalog :
  exists r,
    In r (store (snd (generateRecordsForUnit envUTC unitA dec1 freshWorld))) /\
    isoDate (timestamp r) = "2025-12-01" /\
    getUTCHours (timestamp r) = 10%Z /\
    (forall base g,
       energyGenerated
         (fst (fst (applyAnomalyPatterns ANOMALY_PATTERNS "2025-12-01" 10 base g)))
       = 0%Q) /\
    ~ (energyGenerated r == 0)%Q.
Proof.
  exists (nth 5 (store (snd (generateRecordsForUnit envUTC unitA dec1 freshWorld)))
            record1000).
  split; [|split; [|split; [|split]]].
  - vm_compute. do 5 right. left. reflexivity.
  - vm_compute. reflexivity.
  - vm_compute. reflexivity.
  - intros base g. reflexivity.
  - vm_compute. discriminate.
Qed.

(** C4, as the code has it.  One (unit, day) generation builds exactly 12
    records, stamped at 00:00, 02:00, ..., 22:00 of the day in the local
    time of the process: every timestamp is on the 2-hour grid of local
    time.  When the zone's offset from UTC is a whole number of 2-hour
    steps the timestamps are on the 2-hour UTC grid as well, and in UTC the
    day starts at UTC midnight. *)
Theorem slot_timestamps_local_grid (tza : Z) (unit : SolarUnit.t) (date : Z)
  (g : Rng) :
  let records := fst (buildRecords tza unit date g) in
  let midnight := setHours tza date 0 0 0 0 in
  List.length records = 12%nat /\
  map timestamp records =
    map (fun k => (midnight + k * (2 * msPerHour))%Z)
        [0; 1; 2; 3; 4; 5; 6; 7; 8; 9; 10; 11]%Z /\
  Forall (fun r => (LocalTime tza (timestamp r) mod (2 * msPerHour) = 0)%Z) records /\
  ((tza mod (2 * msPerHour) = 0)%Z ->
   Forall (fun r => (timestamp r mod (2 * msPerHour) = 0)%Z) records) /\
  (tza = 0%Z -> midnight = (Day date * msPerDay)%Z).
Proof.
  intros records midnight.
  pose proof (buildRecords_slots tza unit date g) as F. fold records in F.
  assert (Hlocal :
    Forall (fun r => (LocalTime tza (timestamp r) mod (2 * msPerHour) = 0)%Z) records).
  { apply (Forall2_Forall_r (slotRecord tza unit date) _
             [0; 2; 4; 6; 8; 10; 12; 14; 16; 18; 20; 22]%Z); [|exact F].
    intros hour r Hin [Ht _]. apply slot_hour_range in Hin.
    destruct Hin as [k [-> _]].
    rewrite Ht, setHours_local_grid.
    replace (2 * k * msPerHour)%Z with (k * (2 * msPerHour))%Z by lia.
    apply Z.mod_mul. unfold msPerHour. lia. }
  split; [apply buildRecords_length|]. split; [|split; [exact Hlocal|split]].
  - rewrite (Forall2_map_eq timestamp (fun hour => setHours tza date hour 0 0 0)
               (slotRecord tza unit date) _ _ (fun x y H => proj1 H) F).
    cbn [map]. subst midnight.
    repeat (f_equal; try (unfold setHours, UTC, MakeDate, MakeTime, msPerHour; lia)).
  - intro Htz. apply (Forall_impl _ (P := fun r =>
        (LocalTime tza (timestamp r) mod (2 * msPerHour) = 0)%Z)); [|exact Hlocal].
    intros r Hr. unfold LocalTime in Hr.
    replace (timestamp r) with (timestamp r + tza - tza)%Z by lia.
    rewrite Zminus_mod, Hr, Htz. reflexivity.
  - intros ->. subst midnight.
    unfold setHours, UTC, LocalTime, MakeDate, MakeTime.
    cbn [Z.mul Z.add]. rewrite !Z.add_0_r, Z.sub_0_r. reflexivity.
Qed.

Lemma slot_timestamps_local_grid_witness :
  (tza envUTC mod (2 * msPerHour) = 0)%Z /\ tza envUTC = 0%Z /\
  Forall (fun r => (timestamp r mod (2 * msPerHour) = 0)%Z)
         (fst (buildRecords (tza envUTC) unitA dec1 (constRng 0.5))) /\
  setHours (tza envUTC) dec1 0 0 0 0 = (Day dec1 * msPerDay)%Z.
Proof.
  assert (H2 : (tza envUTC mod (2 * msPerHour) = 0)%Z) by reflexivity.
  assert (H0 : tza envUTC = 0%Z) by reflexivity.
  pose proof (slot_timestamps_local_grid (tza envUTC) unitA dec1 (constRng 0.5)) as H.
  split; [exact H2|]. split; [exact H0|]. split.
  - exact (proj1 (proj2 (proj2 (proj2 H))) H2).
  - exact (proj2 (proj2 (proj2 (proj2 H))) H0).
Defined.

(** C4 as stated fails: in a zone five and a half hours east of UTC the
    twelve records of today's run are stamped 18:30, 20:30, ... UTC of the
    previous UTC day onwards, none of them on the 2-hour UTC grid. *)
Lemma east_zone_off_utc_grid :
  let stamps := map timestamp (store (snd (generateDailyData envEast freshWorld))) in
  stamps =
    [1764527400000; 1764534600000; 1764541800000; 1764549000000;
     1764556200000; 1764563400000; 1764570600000; 1764577800000;
     1764585000000; 1764592200000; 1764599400000; 1764606600000]%Z /\
  isoDate 1764527400000 = "2025-11-30" /\
  getUTCHours 1764527400000 = 18%Z /\
  Forall (fun t => (t mod (2 * msPerHour) <> 0)%Z) stamps.
Proof.
  intro stamps.
  assert (E : stamps =
    [1764527400000; 1764534600000; 1764541800000; 1764549000000;
     1764556200000; 1764563400000; 1764570600000; 1764577800000;
     1764585000000; 1764592200000; 1764599400000; 1764606600000]%Z)
    by (vm_compute; reflexivity).
  rewrite E. split; [reflexivity|].
  split; [vm_compute; reflexivity|]. split; [vm_compute; reflexivity|].
  repeat (apply Forall_cons; [intro H; vm_compute in H; discriminate H|]).
  apply Forall_nil.
Qed.
(** ** Runs over the active units, for any store *)

Section AnyStore.

Context {St : Type} {store_ops : RecordStore St}.
Variable env : Env.

(** The guarded generation for one unit never throws and writes exactly one
    console line, the outcome for that unit. *)
Lemma generateGuarded_outcome (date : Z) (unit : SolarUnit.t) (w : World St) :
  fst (generateGuarded env date unit w) = Ok tt /\
  exists ev,
    console (snd (generateGuarded env date unit w)) = console w ++ [ev] /\
    unitOutcome date unit ev.
Proof.
  unfold generateGuarded, tryCatch, generateRecordsForUnit, bind, liftRand,
    countDocumentsM, insertManyM, log.
  pose proof (buildRecords_length (tza env) unit date (rng w)) as Hlen.
  destruct (buildRecords (tza env) unit date (rng w)) as [records g1].
  cbn [fst] in Hlen. cbn [store rng console].
  destruct (countDocuments (store w) (SolarUnit.serialNumber unit) date
              (addMs date (24 * 60 * 60 * 1000))) as [[n|e] s1].
  - destruct (0 <? n)%nat; cbn [store rng console fst snd].
    + split; [reflexivity|]. eexists. split; [reflexivity|]. left. reflexivity.
    + destruct (insertMany s1 records) as [[[]|e] s2]; cbn [store rng console fst snd].
      * split; [reflexivity|]. eexists. split; [reflexivity|].
        right. left. rewrite Hlen. reflexivity.
      * split; [reflexivity|]. eexists. split; [reflexivity|].
        right. right. eexists. reflexivity.
  - cbn [store rng console fst snd].
    split; [reflexivity|]. eexists. split; [reflexivity|].
    right. right. eexists. reflexivity.
Qed.

(** The loop over the units visits every unit, whatever happened to the
    units before it. *)
Lemma forEachUnit_outcomes (date : Z) (solarUnits : list SolarUnit.t) :
  forall w : World St,
  fst (forEachUnit solarUnits (generateGuarded env date) w) = Ok tt /\
  exists outcomes,
    console (snd (forEachUnit solarUnits (generateGuarded env date) w)) =
      console w ++ outcomes /\
    Forall2 (unitOutcome date) solarUnits outcomes.
Proof.
  induction solarUnits as [|unit rest IH]; intro w; cbn [forEachUnit].
  - split; [reflexivity|]. exists []. rewrite app_nil_r.
    split; [reflexivity | constructor].
  - unfold bind.
    destruct (generateGuarded_outcome date unit w) as [Hr [ev [Hc Hev]]].
    destruct (generateGuarded env date unit w) as [r w1]. cbn [fst snd] in Hr, Hc.
    subst r.
    destruct (IH w1) as [Hr' [outcomes [Hc' F]]].
    split; [exact Hr'|]. exists (ev :: outcomes). split.
    + rewrite Hc', Hc, <- app_assoc. reflexivity.
    + constructor; assumption.
Qed.

(** A loop bound that is not positive gives no iteration, whatever the fuel. *)
Lemma dayLoop_nonpositive (fuel : nat) (days : Q) (solarUnits : list SolarUnit.t)
  (w : World St) :
  (days <= 0)%Q -> dayLoop env fuel days solarUnits 0 w = (Ok tt, w).
Proof.
  intro H. destruct fuel; [reflexivity|]. cbn [dayLoop].
  replace (Qltb (inject_Z 0) days) with false; [reflexivity|].
  symmetry. apply Qltb_false. exact H.
Qed.

(** The ceiling of [days] iterations exhaust the loop condition [i < days]:
    more fuel changes nothing. *)
Lemma dayLoop_fuel_from (fuel extra : nat) (days : Q) (solarUnits : list SolarUnit.t) :
  forall (i : Z) (w : World St),
  (days <= inject_Z (i + Z.of_nat fuel))%Q ->
  dayLoop env (fuel + extra) days solarUnits i w =
  dayLoop env fuel days solarUnits i w.
Proof.
  induction fuel as [|fuel IH]; intros i w H.
  - cbn [Nat.add dayLoop]. destruct extra; [reflexivity|]. cbn [dayLoop].
    replace (Qltb (inject_Z i) days) with false; [reflexivity|].
    symmetry. apply Qltb_false. rewrite Z.add_0_r in H. exact H.
  - cbn [Nat.add dayLoop]. destruct (Qltb (inject_Z i) days); [|reflexivity].
    unfold bind. destruct (log _ w) as [[[]|e] w1]; [|reflexivity].
    destruct (forEachUnit solarUnits _ w1) as [[[]|e] w2]; [|reflexivity].
    apply IH. replace (i + 1 + Z.of_nat fuel)%Z with (i + Z.of_nat (S fuel))%Z by lia.
    exact H.
Qed.

Lemma dayLoop_fuel (extra : nat) (days : Q) (solarUnits : list SolarUnit.t)
  (w : World St) :
  dayLoop env (dayLoopFuel days + extra) days solarUnits 0 w =
  dayLoop env (dayLoopFuel days) days solarUnits 0 w.
Proof.
  apply dayLoop_fuel_from. unfold dayLoopFuel.
  apply Qle_trans with (inject_Z (Qceiling days)); [apply Qle_ceiling|].
  rewrite <- Zle_Qle. lia.
Qed.

End AnyStore.


Section DailyRun.

Context {St : Type} {store_ops : RecordStore St}.
Variables (env : Env) (w : World St).

Lemma generateDailyData_registry_error (e : Error) :
  activeUnits env = Err e ->
  generateDailyData env w =
    (Err e, {| store := store w; rng := rng w;
               console := console w ++ [LogDailyError (message e)] |}).
Proof.
  intro H. unfold generateDailyData, tryCatch, bind, fetchActiveUnits, log, throw.
  rewrite H. reflexivity.
Qed.

Lemma generateDailyData_no_units :
  activeUnits env = Ok [] ->
  generateDailyData env w =
    (Ok tt, {| store := store w; rng := rng w;
               console := console w ++ [LogFoundUnits 0; LogNoActiveUnits] |}).
Proof.
  intro H. unfold generateDailyData, tryCatch, bind, fetchActiveUnits, log.
  rewrite H. cbn [List.length Nat.eqb store rng console].
  rewrite <- app_assoc. reflexivity.
Qed.

Lemma generateDailyData_units (solarUnits : list SolarUnit.t) :
  activeUnits env = Ok solarUnits -> solarUnits <> [] ->
  fst (generateDailyData env w) = Ok tt /\
  exists outcomes,
    console (snd (generateDailyData env w)) =
      console w ++ [LogFoundUnits (List.length solarUnits)] ++ outcomes ++
      [LogAllUnitsCompleted] /\
    Forall2 (unitOutcome (setHours (tza env) (now env) 0 0 0 0)) solarUnits outcomes.
Proof.
  intros H Hne. unfold generateDailyData, tryCatch, bind, fetchActiveUnits.
  rewrite H. cbn [log].
  assert (Hlen : (List.length solarUnits =? 0)%nat = false).
  { destruct solarUnits; [contradiction Hne; reflexivity | reflexivity]. }
  rewrite Hlen. cbn zeta.
  set (w1 := {| store := store w; rng := rng w;
                console := console w ++ [LogFoundUnits (List.length solarUnits)] |}).
  destruct (forEachUnit_outcomes env (setHours (tza env) (now env) 0 0 0 0)
              solarUnits w1) as [Hr [outcomes [Hc F]]].
  destruct (forEachUnit solarUnits
              (generateGuarded env (setHours (tza env) (now env) 0 0 0 0)) w1)
    as [r w2].
  cbn [fst snd] in Hr, Hc. subst r. unfold log. cbn [fst snd console].
  split; [reflexivity|]. exists outcomes. split; [|exact F].
  rewrite Hc. unfold w1. cbn [console]. rewrite <- !app_assoc. reflexivity.
Qed.

End DailyRun.

(** C5.  Today's run propagates an error exactly when the registry fetch
    fails, and then it is that error.  With zero active units the run
    returns normally and leaves the store untouched.  With units, the run
    returns normally whatever the store does: every unit gets its outcome
    line (skipped, generated 12, or its own error), in order, between the
    count line and the completion line. *)
Theorem daily_run_fails_only_with_registry {St : Type} {store_ops : RecordStore St}
  (env : Env) (w : World St) (solarUnits : list SolarUnit.t) (e : Error) :
  let run := generateDailyData env w in
  let today := setHours (tza env) (now env) 0 0 0 0 in
  (fst run = Err e <-> activeUnits env = Err e) /\
  (activeUnits env = Err e ->
     store (snd run) = store w /\
     console (snd run) = console w ++ [LogDailyError (message e)]) /\
  (activeUnits env = Ok [] ->
     fst run = Ok tt /\ store (snd run) = store w /\
     console (snd run) = console w ++ [LogFoundUnits 0; LogNoActiveUnits]) /\
  (activeUnits env = Ok solarUnits -> solarUnits <> [] ->
     fst run = Ok tt /\
     exists outcomes,
       console (snd run) =
         console w ++ [LogFoundUnits (List.length solarUnits)] ++ outcomes ++
         [LogAllUnitsCompleted] /\
       Forall2 (unitOutcome today) solarUnits outcomes).
Proof.
  intros run today. split; [split|split; [|split]].
  - intro H. destruct (activeUnits env) as [units|e'] eqn:E.
    + exfalso. destruct units as [|u rest].
      * unfold run in H. rewrite (generateDailyData_no_units env w E) in H.
        discriminate H.
      * assert (Hne : u :: rest <> []) by discriminate.
        destruct (generateDailyData_units env w (u :: rest) E Hne) as [Hr _].
        unfold run in H. rewrite Hr in H. discriminate H.
    + unfold run in H. rewrite (generateDailyData_registry_error env w e' E) in H.
      cbn [fst] in H. injection H as ->. reflexivity.
  - intro H. unfold run. rewrite (generateDailyData_registry_error env w e H).
    reflexivity.
  - intro H. unfold run. rewrite (generateDailyData_registry_error env w e H).
    split; reflexivity.
  - intro H. unfold run. rewrite (generateDailyData_no_units env w H).
    repeat split; reflexivity.
  - intros H Hne. exact (generateDailyData_units env w solarUnits H Hne).
Qed.

Lemma daily_run_fails_only_with_registry_witness :
  activeUnits envTwoUnits = Ok [unitB; unitA] /\
  [unitB; unitA] <> [] /\
  fst (generateDailyData envTwoUnits flakyWorld) = Ok tt.
Proof.
  assert (H : activeUnits envTwoUnits = Ok [unitB; unitA]) by reflexivity.
  assert (Hne : [unitB; unitA] <> []) by discriminate.
  split; [exact H|]. split; [exact Hne|].
  exact (proj1 (proj2 (proj2 (proj2
    (daily_run_fails_only_with_registry envTwoUnits flakyWorld [unitB; unitA]
       registryDown))) H Hne)).
Defined.

(** A run in which the store fails for the first unit: the failure is
    logged for that unit, the second unit still gets its 12 records, and
    the run returns normally.  With the registry down the run throws the
    registry's error and inserts nothing. *)
Example unit_failure_is_isolated :
  fst (generateDailyData envTwoUnits flakyWorld) = Ok tt /\
  console (snd (generateDailyData envTwoUnits flakyWorld)) =
    [LogFoundUnits 2; LogUnitError "657a0002" "connection lost";
     LogGenerated 12 "Roof A"; LogAllUnitsCompleted] /\
  map serialNumber (docs (store (snd (generateDailyData envTwoUnits flakyWorld)))) =
    repeat "SU-0001" 12 /\
  fst (generateDailyData envNoRegistry flakyWorld) = Err registryDown /\
  docs (store (snd (generateDailyData envNoRegistry flakyWorld))) = [].
Proof.
  repeat split; vm_compute; reflexivity.
Qed.

(** ** The historical run and its admin endpoint *)

Import Admin.

Section HistoricalRun.

Context {St : Type} {store_ops : RecordStore St}.
Variable env : Env.

Lemma dayLoop_console (days : Q) (solarUnits : list SolarUnit.t) (fuel : nat) :
  forall (i : Z) (w : World St),
  exists rest,
    console (snd (dayLoop env fuel days solarUnits i w)) = console w ++ rest.
Proof.
  induction fuel as [|fuel IH]; intros i w; cbn [dayLoop].
  - exists []. rewrite app_nil_r. reflexivity.
  - destruct (Qltb (inject_Z i) days).
    + cbn zeta. unfold bind at 1. unfold log at 1. unfold bind at 1.
      match goal with
      | |- context [forEachUnit solarUnits (generateGuarded env ?d) ?w1] =>
          destruct (forEachUnit_outcomes env d solarUnits w1) as [Hr [outs [Hc _]]];
          destruct (forEachUnit solarUnits (generateGuarded env d) w1) as [r w2]
      end.
      cbn [fst snd console] in Hr, Hc. subst r.
      destruct (IH (i + 1)%Z w2) as [rest Hrest].
      eexists. rewrite Hrest, Hc, <- ?app_assoc. reflexivity.
    + exists []. rewrite app_nil_r. reflexivity.
Qed.

(** On entry [generateHistoricalData] logs the number of days it was given. *)
Lemma generateHistoricalData_console (days : Q) (w : World St) :
  exists rest,
    console (snd (generateHistoricalData env days w)) =
    console w ++ LogHistoricalStart days :: rest.
Proof.
  unfold generateHistoricalData. unfold bind at 1. unfold log at 1.
  unfold tryCatch, bind, fetchActiveUnits.
  destruct (activeUnits env) as [units|e].
  - unfold log at 1.
    match goal with
    | |- context [dayLoop env ?f days units 0%Z ?w1] =>
        destruct (dayLoop_console days units f 0%Z w1) as [rest Hrest];
        destruct (dayLoop env f days units 0%Z w1) as [[[]|e] w2]
    end; cbn [fst snd console] in Hrest; unfold log, throw; cbn [fst snd console];
      rewrite Hrest; eexists; rewrite <- ?app_assoc; reflexivity.
  - unfold log, throw. cbn [fst snd console store rng].
    eexists. rewrite <- ?app_assoc. reflexivity.
Qed.

Lemma generateHistoricalData_nonpositive (days : Q) (w : World St)
  (solarUnits : list SolarUnit.t) :
  (days <= 0)%Q -> activeUnits env = Ok solarUnits ->
  generateHistoricalData env days w =
    (Ok tt, {| store := store w; rng := rng w;
               console := console w ++
                 [LogHistoricalStart days; LogFoundUnits (List.length solarUnits);
                  LogHistoricalCompleted] |}).
Proof.
  intros Hd H. unfold generateHistoricalData. unfold bind at 1. unfold log at 1.
  unfold tryCatch, bind, fetchActiveUnits. rewrite H. unfold log at 1.
  rewrite dayLoop_nonpositive by exact Hd.
  unfold log. cbn [store rng console]. rewrite <- ?app_assoc. reflexivity.
Qed.

End HistoricalRun.

Lemma daysOrDefault_number (n : Q) :
  ~ (n == 0)%Q -> daysOrDefault (Some (DaysNumber n)) = n.
Proof.
  intro H. cbn [daysOrDefault]. destruct (Qeq_bool n 0) eqn:E; [|reflexivity].
  apply Qeq_bool_iff in E. contradiction.
Qed.

(** C10.  The historical endpoint.  When the body is absent, [days] is
    absent, [null], [false], the empty string or zero, the backfill is
    invoked with 7 days: the run coincides with the run for an explicit 7,
    and [generateHistoricalData] logs 7 as the number of days it was given.
    A number other than zero is passed on as it is, whether or not it is a
    whole number of at least 1.  With a negative number, once the unit list
    has been fetched, no day and no unit is processed, the store is left as
    it was, and the response is the success response with status 200. *)
Theorem historical_days_defaulted_not_validated {St : Type}
  {store_ops : RecordStore St} (env : Env) (w : World St)
  (body : option DaysField) (n : Q) (solarUnits : list SolarUnit.t) :
  ((body = None \/ body = Some DaysUndefined \/ body = Some DaysNull \/
    body = Some DaysFalse \/ body = Some DaysEmptyString \/
    exists z, body = Some (DaysNumber z) /\ (z == 0)%Q) ->
   daysOrDefault body = 7%Q /\
   postGenerateHistoricalData env body w =
     postGenerateHistoricalData env (Some (DaysNumber 7)) w /\
   exists rest,
     console (snd (postGenerateHistoricalData env body w)) =
       console w ++ [LogApiHistorical 7; LogHistoricalStart 7] ++ rest) /\
  (~ (n == 0)%Q -> daysOrDefault (Some (DaysNumber n)) = n) /\
  ((n < 0)%Q -> activeUnits env = Ok solarUnits ->
   let run := postGenerateHistoricalData env (Some (DaysNumber n)) w in
   fst run = Ok {| status := 200; success := true;
                   responseMessage := HistoricalGenerated n; error := None |} /\
   store (snd run) = store w /\
   console (snd run) =
     console w ++ [LogApiHistorical n; LogHistoricalStart n;
                   LogFoundUnits (List.length solarUnits); LogHistoricalCompleted]).
Proof.
  split; [|split].
  - intro Hbody.
    assert (Hd : daysOrDefault body = 7%Q).
    { destruct Hbody as [->|[->|[->|[->|[->|[z [-> Hz]]]]]]]; try reflexivity.
      cbn [daysOrDefault]. apply Qeq_bool_iff in Hz. rewrite Hz. reflexivity. }
    assert (Hrun : postGenerateHistoricalData env body w =
                   postGenerateHistoricalData env (Some (DaysNumber 7)) w).
    { unfold postGenerateHistoricalData. rewrite Hd. reflexivity. }
    split; [exact Hd|]. split; [exact Hrun|].
    rewrite Hrun. unfold postGenerateHistoricalData.
    change (daysOrDefault (Some (DaysNumber 7))) with 7%Q.
    unfold tryCatch. unfold bind at 1. unfold log at 1.
    set (w1 := {| store := store w; rng := rng w;
                  console := console w ++ [LogApiHistorical 7] |}).
    unfold bind at 1.
    destruct (generateHistoricalData_console env 7 w1) as [rest Hrest].
    destruct (generateHistoricalData env 7 w1) as [[[]|e] w2];
      cbn [fst snd] in Hrest; unfold bind, log, ret; cbn [fst snd console];
      rewrite Hrest; unfold w1; cbn [console];
      eexists; rewrite <- ?app_assoc; reflexivity.
  - apply daysOrDefault_number.
  - intros Hn Hunits run.
    assert (E : run =
      (Ok {| status := 200; success := true;
             responseMessage := HistoricalGenerated n; error := None |},
       {| store := store w; rng := rng w;
          console := (console w ++ [LogApiHistorical n]) ++
            [LogHistoricalStart n; LogFoundUnits (List.length solarUnits);
             LogHistoricalCompleted] |})).
    { unfold run, postGenerateHistoricalData.
      rewrite daysOrDefault_number by lra.
      unfold tryCatch. unfold bind at 1. unfold log at 1. unfold bind at 1.
      rewrite (generateHistoricalData_nonpositive env n _ solarUnits)
        by (try lra; exact Hunits).
      reflexivity. }
    rewrite E. cbn [fst snd store console].
    repeat split. rewrite <- app_assoc. reflexivity.
Qed.

Lemma historical_days_defaulted_not_validated_witness :
  ((-3 < 0)%Q /\ activeUnits envUTC = Ok [unitA] /\ ~ (-3 == 0)%Q /\
   (exists z, Some (DaysNumber 0) = Some (DaysNumber z) /\ (z == 0)%Q)) /\
  daysOrDefault (Some (DaysNumber 0)) = 7%Q /\
  daysOrDefault (Some (DaysNumber (-3))) = (-3)%Q /\
  store (snd (postGenerateHistoricalData envUTC (Some (DaysNumber (-3))) freshWorld))
    = [].
Proof.
  assert (Hn : (-3 < 0)%Q) by lra.
  assert (Hu : activeUnits envUTC = Ok [unitA]) by reflexivity.
  assert (Hz : ~ (-3 == 0)%Q) by (intro H; discriminate H).
  assert (H0 : exists z, Some (DaysNumber 0) = Some (DaysNumber z) /\ (z == 0)%Q)
    by (exists 0%Q; split; reflexivity).
  pose proof (historical_days_defaulted_not_validated envUTC freshWorld
                (Some (DaysNumber 0)) (-3) [unitA]) as [Hdef [Hpass Hneg]].
  split; [repeat split; assumption|].
  split; [exact (proj1 (Hdef (or_intror (or_intror (or_intror (or_intror
                                 (or_intror H0)))))))|].
  split; [exact (Hpass Hz)|].
  exact (proj1 (proj2 (Hneg Hn Hu))).
Defined.

(** The bound is not checked to be whole either: 2.5 is accepted, and the
    loop runs for i = 0, 1, 2, that is over three days. *)
Example fractional_days_run_three_days :
  fst (postGenerateHistoricalData envUTC (Some (DaysNumber 2.5)) freshWorld) =
    Ok {| status := 200; success := true;
          responseMessage := HistoricalGenerated 2.5; error := None |} /\
  map (fun r => isoDate (timestamp r))
      (store (snd (postGenerateHistoricalData envUTC (Some (DaysNumber 2.5)) freshWorld)))
  = repeat "2025-12-01" 12 ++ repeat "2025-11-30" 12 ++ repeat "2025-11-29" 12.
Proof.
  split; vm_compute; reflexivity.
Qed.

(* ================================================================== *)
(** * Further properties of the code *)
(* ================================================================== *)

Import Vocabulary.

(** ** The curve and the synthesized batch *)

Lemma fair_same_stream (g g' : Rng) : stream g' = stream g -> fair g -> fair g'.
Proof. intros E H n. rewrite E. apply H. Qed.

Lemma fair_advance (g : Rng) : fair g -> fair (advance g).
Proof. apply fair_same_stream. reflexivity. Qed.

Lemma fair_draw (g : Rng) : fair g -> (0 <= draw g /\ draw g < 1)%Q.
Proof. intro H. apply (H (cursor g)). Qed.

Lemma calc_stream (hour capacity : Q) (g : Rng) :
  stream (snd (calculateEnergyGeneration hour capacity g)) = stream g.
Proof.
  unfold calculateEnergyGeneration.
  repeat match goal with
         | |- context [if ?b then _ else _] => destruct b
         end; reflexivity.
Qed.

Lemma makeRecord_stream (tza : Z) (unit : SolarUnit.t) (date hour : Z) (g : Rng) :
  stream (snd (makeRecord tza unit date hour g)) = stream g.
Proof.
  unfold makeRecord, bindR.
  pose proof (calc_stream (inject_Z hour) (capacityOrDefault unit) g) as E.
  destruct (calculateEnergyGeneration (inject_Z hour) (capacityOrDefault unit) g)
    as [e g1].
  cbn [snd] in E. destruct (Qgtb e 0); cbn; exact E.
Qed.

(** The hour fraction of the two ramps stays between 0 and 1. *)
Lemma ramp_bound (capacity factor v : Q) :
  (0 < capacity)%Q -> (0 <= factor)%Q -> (factor <= 1)%Q ->
  (-0.1 <= v)%Q -> (v <= 0.1)%Q ->
  (Js.max 0 (capacity * 0.7 * factor * (1 + v)) <= 0.77 * capacity)%Q.
Proof.
  intros Hc Hf0 Hf1 Hv0 Hv1. unfold Js.max. apply Q.max_lub; [lra|].
  assert (Ha : (0 <= capacity * factor /\ capacity * factor <= capacity)%Q) by nra.
  set (a := (capacity * factor)%Q) in *.
  assert (E : (capacity * 0.7 * factor * (1 + v) == 0.7 * (a * (1 + v)))%Q)
    by (unfold a; ring).
  rewrite E. nra.
Qed.

Lemma energy_below_capacity_aux (hour capacity : Q) (g : Rng) :
  (0 < capacity)%Q -> fair g ->
  (fst (calculateEnergyGeneration hour capacity g) <= 0.80625 * capacity)%Q /\
  (fst (calculateEnergyGeneration hour capacity g) < capacity)%Q.
Proof.
  intros Hc Hg. destruct (fair_draw g Hg) as [Hr0 Hr1].
  assert (H : (fst (calculateEnergyGeneration hour capacity g) <= 0.80625 * capacity)%Q).
  { unfold calculateEnergyGeneration.
    destruct (Qgeb hour 22 || Qltb hour 6)%bool eqn:E1; [simpl; lra|].
    destruct (Qgeb hour 6 && Qltb hour 12)%bool eqn:E2.
    { apply andb_true_iff in E2. destruct E2 as [E2a E2b].
      unfold Qgeb in E2a. apply Qleb_true in E2a. apply Qltb_true in E2b.
      unfold bindR, random, retR; cbn [fst].
      apply Qle_trans with (0.77 * capacity)%Q; [|lra].
      apply ramp_bound; try lra.
      - apply Qle_shift_div_l; lra.
      - apply Qle_shift_div_r; lra. }
    destruct (Qgeb hour 12 && Qltb hour 14)%bool eqn:E3.
    { unfold bindR, random, retR; cbn [fst]. nra. }
    destruct (Qgeb hour 14 && Qltb hour 20)%bool eqn:E4.
    { apply andb_true_iff in E4. destruct E4 as [E4a E4b].
      unfold Qgeb in E4a. apply Qleb_true in E4a. apply Qltb_true in E4b.
      unfold bindR, random, retR; cbn [fst].
      apply Qle_trans with (0.77 * capacity)%Q; [|lra].
      assert (Hd : (0 <= (hour - 14) / 6 /\ (hour - 14) / 6 <= 1)%Q).
      { split; [apply Qle_shift_div_l | apply Qle_shift_div_r]; lra. }
      apply ramp_bound; lra. }
    destruct (Qgeb hour 20 && Qltb hour 22)%bool eqn:E5.
    { unfold bindR, random, retR; cbn [fst]. unfold Js.max.
      apply Q.max_lub; nra. }
    simpl. lra. }
  split; [exact H | lra].
Qed.

(** X1.  The synthesized energy never exceeds 80.625 percent of the
    capacity, whatever the hour and the draw; in particular it stays below
    the capacity. *)
Theorem energy_below_capacity (hour capacity : Q) (g : Rng) :
  (0 < capacity)%Q -> fair g ->
  (fst (calculateEnergyGeneration hour capacity g) <= 0.80625 * capacity)%Q /\
  (fst (calculateEnergyGeneration hour capacity g) < capacity)%Q.
Proof.
  apply energy_below_capacity_aux.
Qed.

Lemma energy_below_capacity_witness :
  (0 < 5000)%Q /\ fair (constRng 0.5) /\
  (fst (calculateEnergyGeneration 12 5000 (constRng 0.5)) < 5000)%Q.
Proof.
  assert (Hc : (0 < 5000)%Q) by lra.
  assert (Hg : fair (constRng 0.5)) by (apply fair_constRng; lra).
  split; [exact Hc|]. split; [exact Hg|].
  exact (proj2 (energy_below_capacity 12 5000 (constRng 0.5) Hc Hg)).
Defined.

(** Every record of the batch is [makeRecord] at its hour, run on a
    generator with the stream of the batch. *)
Lemma slotLoop_made (fuel : nat) (tza : Z) (unit : SolarUnit.t) (date : Z) :
  forall (hour : Z) (acc : list EnergyRecord) (g : Rng),
  exists news,
    fst (slotLoop fuel tza unit date hour acc g) = acc ++ news /\
    Forall2 (fun h r => exists g', stream g' = stream g /\
                                   r = fst (makeRecord tza unit date h g'))
            (slotHours fuel hour) news.
Proof.
  induction fuel as [|fuel IH]; intros hour acc g; cbn [slotLoop slotHours].
  - exists []. rewrite app_nil_r. split; [reflexivity | constructor].
  - destruct (hour <? 24)%Z.
    + unfold bindR.
      pose proof (makeRecord_stream tza unit date hour g) as Hs.
      destruct (makeRecord tza unit date hour g) as [r g1] eqn:Er.
      cbn [snd] in Hs.
      destruct (IH (hour + 2)%Z (acc ++ [r]) g1) as [news [E F]].
      exists (r :: news). split.
      * rewrite E, <- app_assoc. reflexivity.
      * constructor.
        -- exists g. split; [reflexivity|]. rewrite Er. reflexivity.
        -- clear - F Hs.
           induction F as [|h r' hs rs [g' [Hg' Hr']] F' IHF]; constructor.
           ++ exists g'. split; [congruence | exact Hr'].
           ++ exact IHF.
    + exists []. rewrite app_nil_r. split; [reflexivity | constructor].
Qed.

Lemma buildRecords_made (tza : Z) (unit : SolarUnit.t) (date : Z) (g : Rng) :
  Forall2 (fun h r => exists g', stream g' = stream g /\
                                 r = fst (makeRecord tza unit date h g'))
          [0; 2; 4; 6; 8; 10; 12; 14; 16; 18; 20; 22]%Z
          (fst (buildRecords tza unit date g)).
Proof.
  unfold buildRecords.
  destruct (slotLoop_made 12 tza unit date 0 [] g) as [news [E F]].
  rewrite E. exact F.
Qed.

Lemma Qgtb_true (x y : Q) : Qgtb x y = true <-> (y < x)%Q.
Proof. unfold Qgtb. apply Qltb_true. Qed.

Lemma Qgtb_false (x y : Q) : Qgtb x y = false <-> (x <= y)%Q.
Proof. unfold Qgtb. apply Qltb_false. Qed.

Lemma makeRecord_wellFormed (tza : Z) (unit : SolarUnit.t) (date hour : Z) (g : Rng) :
  fair g -> wellFormed (fst (makeRecord tza unit date hour g)).
Proof.
  intro Hg. unfold makeRecord, bindR.
  pose proof (calc_stream (inject_Z hour) (capacityOrDefault unit) g) as Es.
  destruct (calculateEnergyGeneration (inject_Z hour) (capacityOrDefault unit) g)
    as [e g1].
  cbn [snd] in Es.
  assert (Hg1 : fair g1) by (apply (fair_same_stream g); assumption).
  destruct (fair_draw g1 Hg1) as [Ha0 Ha1].
  destruct (fair_draw (advance g1) (fair_advance g1 Hg1)) as [Hb0 Hb1].
  unfold wellFormed.
  destruct (Qgtb e 0) eqn:Ee; unfold bindR, random, retR;
    cbn [fst snd temperature energyGenerated peakPower efficiency].
  - apply Qgtb_true in Ee. split; [split; lra|]. left.
    split; [exact Ee|]. split; [reflexivity|]. split; lra.
  - apply Qgtb_false in Ee. split; [split; lra|]. right.
    split; [exact Ee|]. split; reflexivity.
Qed.

(** X2.  Every record of a synthesized batch is well formed, for every unit,
    day and fair stream of draws: its temperature lies in [25,40); when its
    energy is positive its peak power is 1.2 times the energy and its
    efficiency lies in [85,95); otherwise peak power and efficiency are 0. *)
Theorem batch_records_well_formed (tza : Z) (unit : SolarUnit.t) (date : Z)
  (g : Rng) :
  fair g -> Forall wellFormed (fst (buildRecords tza unit date g)).
Proof.
  intro Hg.
  apply (Forall2_Forall_r
           (fun h r => exists g', stream g' = stream g /\
                                  r = fst (makeRecord tza unit date h g'))
           wellFormed [0; 2; 4; 6; 8; 10; 12; 14; 16; 18; 20; 22]%Z);
    [|apply buildRecords_made].
  intros h r _ [g' [Hs ->]].
  apply makeRecord_wellFormed. apply (fair_same_stream g); assumption.
Qed.

Lemma batch_records_well_formed_witness :
  fair (constRng 0.5) /\
  Forall wellFormed (fst (buildRecords 0 unitA dec1 (constRng 0.5))).
Proof.
  assert (Hg : fair (constRng 0.5)) by (apply fair_constRng; lra).
  split; [exact Hg|].
  exact (batch_records_well_formed 0 unitA dec1 (constRng 0.5) Hg).
Defined.

Lemma Forall2_In_r {A B : Type} (P : A -> B -> Prop) (xs : list A) (ys : list B)
  (y : B) :
  Forall2 P xs ys -> In y ys -> exists x, In x xs /\ P x y.
Proof.
  intro F. induction F as [|x y' xs ys Hxy F IH]; [intros []|].
  intros [<-|Hin].
  - exists x. split; [left; reflexivity | exact Hxy].
  - destruct (IH Hin) as [x' [Hx' HP]]. exists x'. split; [right|]; assumption.
Qed.

(** The energy of a record is the curve at its hour; without positive
    energy, peak power and efficiency are 0. *)
Lemma makeRecord_energy (tza : Z) (unit : SolarUnit.t) (date hour : Z) (g : Rng) :
  let e := fst (calculateEnergyGeneration (inject_Z hour) (capacityOrDefault unit) g) in
  let r := fst (makeRecord tza unit date hour g) in
  energyGenerated r = e /\
  (Qgtb e 0 = true -> peakPower r = (e * 1.2)%Q) /\
  (Qgtb e 0 = false -> peakPower r = 0%Q /\ efficiency r = 0%Q).
Proof.
  unfold makeRecord, bindR.
  destruct (calculateEnergyGeneration (inject_Z hour) (capacityOrDefault unit) g)
    as [e g1].
  cbn [fst]. destruct (Qgtb e 0); unfold bindR, random, retR;
    cbn [fst snd energyGenerated peakPower efficiency];
    repeat split; (reflexivity || discriminate).
Qed.

(** X3.  In a batch synthesized for a positive capacity every energy value
    lies between 0 and 80.625 percent of the capacity, and every peak power
    stays below the capacity (at most 96.75 percent of it). *)
Theorem batch_within_capacity (tza : Z) (unit : SolarUnit.t) (date : Z) (g : Rng) :
  (0 < capacityOrDefault unit)%Q -> fair g ->
  Forall (fun r =>
            (0 <= energyGenerated r /\
             energyGenerated r <= 0.80625 * capacityOrDefault unit /\
             0 <= peakPower r /\
             peakPower r <= 0.9675 * capacityOrDefault unit /\
             peakPower r < capacityOrDefault unit)%Q)
         (fst (buildRecords tza unit date g)).
Proof.
  intros Hc Hg.
  apply (Forall2_Forall_r
           (fun h r => exists g', stream g' = stream g /\
                                  r = fst (makeRecord tza unit date h g'))
           _ [0; 2; 4; 6; 8; 10; 12; 14; 16; 18; 20; 22]%Z);
    [|apply buildRecords_made].
  intros h r _ [g' [Hs ->]].
  assert (Hg' : fair g') by (apply (fair_same_stream g); assumption).
  destruct (makeRecord_energy tza unit date h g') as [He [Hp1 Hp0]].
  pose proof (calc_nonneg (inject_Z h) (capacityOrDefault unit) g' Hc Hg') as Hlo.
  destruct (energy_below_capacity_aux (inject_Z h) (capacityOrDefault unit) g' Hc Hg')
    as [Hhi _].
  rewrite He.
  set (e := fst (calculateEnergyGeneration (inject_Z h) (capacityOrDefault unit) g')) in *.
  destruct (Qgtb e 0) eqn:Ee.
  - rewrite (Hp1 eq_refl). repeat split; lra.
  - destruct (Hp0 eq_refl) as [-> _]. repeat split; lra.
Qed.

Lemma batch_within_capacity_witness :
  (0 < capacityOrDefault unitB)%Q /\ fair (constRng 0.5) /\
  Forall (fun r => (peakPower r < capacityOrDefault unitB)%Q)
         (fst (buildRecords 0 unitB dec1 (constRng 0.5))).
Proof.
  assert (Hc : (0 < capacityOrDefault unitB)%Q) by (cbn; lra).
  assert (Hg : fair (constRng 0.5)) by (apply fair_constRng; lra).
  split; [exact Hc|]. split; [exact Hg|].
  apply (Forall_impl _ (P := fun r =>
            (0 <= energyGenerated r /\
             energyGenerated r <= 0.80625 * capacityOrDefault unitB /\
             0 <= peakPower r /\
             peakPower r <= 0.9675 * capacityOrDefault unitB /\
             peakPower r < capacityOrDefault unitB)%Q)).
  - intros r H. exact (proj2 (proj2 (proj2 (proj2 H)))).
  - exact (batch_within_capacity 0 unitB dec1 (constRng 0.5) Hc Hg).
Defined.

Lemma setHours_injective (tza t h h' : Z) :
  setHours tza t h 0 0 0 = setHours tza t h' 0 0 0 -> h = h'.
Proof. unfold setHours, UTC, MakeDate, MakeTime, msPerHour. lia. Qed.

(** At 06:00 the morning ramp starts from a factor of 0. *)
Lemma calc_six (capacity : Q) (g : Rng) :
  (fst (calculateEnergyGeneration (inject_Z 6) capacity g) == 0)%Q.
Proof.
  unfold calculateEnergyGeneration.
  change (Qgeb (inject_Z 6) 22 || Qltb (inject_Z 6) 6)%bool with false.
  change (Qgeb (inject_Z 6) 6 && Qltb (inject_Z 6) 12)%bool with true.
  unfold bindR, random, retR. cbn [fst].
  assert (E : (capacity * 0.7 * ((inject_Z 6 - 6) / 6) *
               (1 + (draw g * 0.2 - 0.1)) == 0)%Q).
  { assert (E0 : ((inject_Z 6 - 6) / 6 == 0)%Q) by reflexivity.
    rewrite E0. ring. }
  unfold Js.max. rewrite E. reflexivity.
Qed.

Lemma calc_idle_hours (h : Z) (capacity : Q) (g : Rng) :
  In h [0; 2; 4; 6; 22]%Z ->
  (fst (calculateEnergyGeneration (inject_Z h) capacity g) == 0)%Q.
Proof.
  intros [<-|[<-|[<-|[<-|[<-|[]]]]]]; try apply calc_six;
    rewrite calc_night; try reflexivity;
    (left; unfold Qle; cbn; lia) || (right; unfold Qlt; cbn; lia).
Qed.

(** X4.  Whatever the capacity and the draws, the records of a batch
    stamped 00:00, 02:00, 04:00, 06:00 and 22:00 local time carry no
    generation: energy 0, peak power 0 and efficiency 0.  The first slot
    that can generate is 08:00. *)
Theorem idle_slots_carry_no_energy (tza : Z) (unit : SolarUnit.t) (date : Z)
  (g : Rng) (r : EnergyRecord) (h : Z) :
  In r (fst (buildRecords tza unit date g)) ->
  In h [0; 2; 4; 6; 22]%Z ->
  timestamp r = setHours tza date h 0 0 0 ->
  (energyGenerated r == 0)%Q /\ peakPower r = 0%Q /\ efficiency r = 0%Q.
Proof.
  intros Hr Hh Ht.
  destruct (Forall2_In_r _ _ _ r (buildRecords_made tza unit date g) Hr)
    as [h' [_ [g' [_ Er]]]].
  pose proof (makeRecord_slot tza unit date h' g') as [Ht' _].
  rewrite <- Er, Ht in Ht'. apply setHours_injective in Ht'. subst h'.
  destruct (makeRecord_energy tza unit date h g') as [He [_ Hp0]].
  rewrite <- Er in He, Hp0.
  pose proof (calc_idle_hours h (capacityOrDefault unit) g' Hh) as H0.
  split; [rewrite He; exact H0|].
  apply Hp0. apply Qgtb_false. rewrite H0. lra.
Qed.

Lemma idle_slots_carry_no_energy_witness :
  let r := nth 3 (fst (buildRecords 0 unitA dec1 (constRng 0.5))) record1000 in
  In r (fst (buildRecords 0 unitA dec1 (constRng 0.5))) /\
  In 6%Z [0; 2; 4; 6; 22]%Z /\
  timestamp r = setHours 0 dec1 6 0 0 0 /\
  (energyGenerated r == 0)%Q.
Proof.
  intro r.
  assert (Hr : In r (fst (buildRecords 0 unitA dec1 (constRng 0.5))))
    by (vm_compute; tauto).
  assert (Hh : In 6%Z [0; 2; 4; 6; 22]%Z) by (cbn; tauto).
  assert (Ht : timestamp r = setHours 0 dec1 6 0 0 0) by (vm_compute; reflexivity).
  split; [exact Hr|]. split; [exact Hh|]. split; [exact Ht|].
  exact (proj1 (idle_slots_carry_no_energy 0 unitA dec1 (constRng 0.5) r 6 Hr Hh Ht)).
Defined.

(** ** The default capacity *)

Lemma slotLoop_same_unit (fuel : nat) (tza : Z) (u u' : SolarUnit.t) (date : Z) :
  (forall hour g, makeRecord tza u date hour g = makeRecord tza u' date hour g) ->
  forall hour acc g,
  slotLoop fuel tza u date hour acc g = slotLoop fuel tza u' date hour acc g.
Proof.
  intro H. induction fuel as [|fuel IH]; intros hour acc g; cbn [slotLoop];
    [reflexivity|].
  destruct (hour <? 24)%Z; [|reflexivity].
  unfold bindR. rewrite H. destruct (makeRecord tza u' date hour g) as [r g1].
  apply IH.
Qed.

(** X5.  [unit.capacity || 5000]: a unit whose capacity is absent or zero
    gets exactly the batch of the same unit with a capacity of 5000, record
    for record and draw for draw. *)
Theorem missing_capacity_means_5000 (tza : Z) (unit : SolarUnit.t) (date : Z)
  (g : Rng) :
  (SolarUnit.capacity unit = None \/
   exists c, SolarUnit.capacity unit = Some c /\ (c == 0)%Q) ->
  capacityOrDefault unit = 5000%Q /\
  buildRecords tza unit date g = buildRecords tza (withCapacity 5000 unit) date g.
Proof.
  intro H.
  assert (Hc : capacityOrDefault unit = 5000%Q).
  { unfold capacityOrDefault. destruct H as [->|[c [-> Hc]]]; [reflexivity|].
    apply Qeq_bool_iff in Hc. rewrite Hc. reflexivity. }
  split; [exact Hc|].
  unfold buildRecords. apply slotLoop_same_unit. intros hour g'.
  unfold makeRecord. rewrite Hc. reflexivity.
Qed.

Lemma missing_capacity_means_5000_witness :
  (SolarUnit.capacity unitB = None \/
   exists c, SolarUnit.capacity unitB = Some c /\ (c == 0)%Q) /\
  buildRecords 0 unitB dec1 (constRng 0.5) =
  buildRecords 0 (withCapacity 5000 unitB) dec1 (constRng 0.5).
Proof.
  assert (H : SolarUnit.capacity unitB = None \/
              exists c, SolarUnit.capacity unitB = Some c /\ (c == 0)%Q)
    by (left; reflexivity).
  split; [exact H|].
  exact (proj2 (missing_capacity_means_5000 0 unitB dec1 (constRng 0.5) H)).
Defined.

(** ** One (unit, day) generation against the store *)

(** X6.  The existence check is all or nothing.  When the day already holds
    at least one record of the unit, even fewer than 12, the generation
    leaves the store as it is and logs the skip; it never completes a
    partial day.  In every case the documents already stored stay where
    they are, followed by nothing or by the 12 new records. *)
Theorem existing_records_block_generation (env : Env) (unit : SolarUnit.t)
  (date : Z) (docs : list EnergyRecord) (g : Rng) (c : list Event) :
  let run := generateRecordsForUnit env unit date
               {| store := docs; rng := g; console := c |} in
  fst run = Ok tt /\
  ((0 < recordsFor docs unit date)%nat ->
   store (snd run) = docs /\
   console (snd run) = c ++ [LogSkipping (SolarUnit.name unit) date]) /\
  exists added,
    store (snd run) = docs ++ added /\
    (added = [] \/ List.length added = 12%nat).
Proof.
  intro run. unfold run. rewrite generateRecordsForUnit_mem.
  destruct (0 <? recordsFor docs unit date)%nat eqn:E; cbn [fst snd store console].
  - split; [reflexivity|]. split; [intros _; split; reflexivity|].
    exists []. rewrite app_nil_r. split; [reflexivity | left; reflexivity].
  - split; [reflexivity|]. split.
    + intro H. apply Nat.ltb_lt in H. congruence.
    + eexists. split; [reflexivity|]. right. apply buildRecords_length.
Qed.

Lemma existing_records_block_generation_witness :
  (0 < recordsFor [record1000] unitA 1764892800000)%nat /\
  store (snd (generateRecordsForUnit envUTC unitA 1764892800000
                {| store := [record1000]; rng := constRng 0.5; console := [] |})) =
    [record1000].
Proof.
  assert (H : (0 < recordsFor [record1000] unitA 1764892800000)%nat)
    by (vm_compute; apply le_n).
  split; [exact H|].
  exact (proj1 (proj1 (proj2
    (existing_records_block_generation envUTC unitA 1764892800000 [record1000]
       (constRng 0.5) [])) H)).
Defined.

Lemma recordsFor_other_serial (news : list EnergyRecord) (unit other : SolarUnit.t)
  (date : Z) :
  Forall (fun r => serialNumber r = SolarUnit.serialNumber unit) news ->
  SolarUnit.serialNumber other <> SolarUnit.serialNumber unit ->
  recordsFor news other date = 0%nat.
Proof.
  intros F Hne. unfold recordsFor.
  induction F as [|r news Hr F IH]; [reflexivity|].
  cbn [filter]. unfold matchesQuery at 1. rewrite Hr.
  destruct (String.eqb_spec (SolarUnit.serialNumber unit) (SolarUnit.serialNumber other))
    as [E|E]; [symmetry in E; contradiction|].
  cbn [andb]. exact IH.
Qed.

Lemma buildRecords_serial (tza : Z) (unit : SolarUnit.t) (date : Z) (g : Rng) :
  Forall (fun r => serialNumber r = SolarUnit.serialNumber unit)
         (fst (buildRecords tza unit date g)).
Proof.
  apply (Forall2_Forall_r (slotRecord tza unit date) _
           [0; 2; 4; 6; 8; 10; 12; 14; 16; 18; 20; 22]%Z);
    [|apply buildRecords_slots].
  intros h r _ [_ [Hs _]]. exact Hs.
Qed.

Lemma generation_other_unit (env : Env) (unit other : SolarUnit.t)
  (date day : Z) (docs : list EnergyRecord) (g : Rng) (c : list Event) :
  SolarUnit.serialNumber other <> SolarUnit.serialNumber unit ->
  recordsFor
    (store (snd (generateRecordsForUnit env unit date
                   {| store := docs; rng := g; console := c |}))) other day =
  recordsFor docs other day.
Proof.
  intro Hne. rewrite generateRecordsForUnit_mem.
  destruct (0 <? recordsFor docs unit date)%nat; cbn [snd store]; [reflexivity|].
  rewrite recordsFor_app.
  rewrite (recordsFor_other_serial (fst (buildRecords (tza env) unit date g))
             unit other day (buildRecords_serial (tza env) unit date g) Hne).
  apply Nat.add_0_r.
Qed.

(** X7.  Generating for one unit never touches what the store holds for a
    unit with another serial number: for every other unit and every day,
    the number of that unit's records is the same before and after. *)
Theorem generation_leaves_other_units_alone (env : Env) (unit other : SolarUnit.t)
  (date day : Z) (docs : list EnergyRecord) (g : Rng) (c : list Event) :
  SolarUnit.serialNumber other <> SolarUnit.serialNumber unit ->
  recordsFor
    (store (snd (generateRecordsForUnit env unit date
                   {| store := docs; rng := g; console := c |}))) other day =
  recordsFor docs other day.
Proof.
  apply generation_other_unit.
Qed.

Lemma generation_leaves_other_units_alone_witness :
  SolarUnit.serialNumber unitB <> SolarUnit.serialNumber unitA /\
  recordsFor
    (store (snd (generateRecordsForUnit envUTC unitA dec1 freshWorld))) unitB dec1 =
  0%nat.
Proof.
  assert (Hne : SolarUnit.serialNumber unitB <> SolarUnit.serialNumber unitA)
    by discriminate.
  split; [exact Hne|].
  exact (generation_leaves_other_units_alone envUTC unitA unitB dec1 dec1 []
           (constRng 0.5) [] Hne).
Defined.

(** ** Failures of the store *)

Section StoreFailures.

Context {St : Type} {store_ops : RecordStore St}.
Variables (env : Env) (unit : SolarUnit.t) (date : Z) (w : World St).

(** X8.  A failing existence check stops the generation for the unit: the
    error is the one the store gave, [insertMany] is not called (the store
    is in the state the check left it in) and nothing is logged by the
    generation itself; the per-unit guard then turns the error into one
    console line carrying the unit id and the message, and returns
    normally. *)
Theorem failed_count_stops_generation (e : Error) (s : St) :
  countDocuments (store w) (SolarUnit.serialNumber unit) date
    (addMs date (24 * 60 * 60 * 1000)) = (Err e, s) ->
  fst (generateRecordsForUnit env unit date w) = Err e /\
  store (snd (generateRecordsForUnit env unit date w)) = s /\
  console (snd (generateRecordsForUnit env unit date w)) = console w /\
  fst (generateGuarded env date unit w) = Ok tt /\
  store (snd (generateGuarded env date unit w)) = s /\
  console (snd (generateGuarded env date unit w)) =
    console w ++ [LogUnitError (SolarUnit._id unit) (message e)].
Proof.
  intro H.
  assert (E : generateRecordsForUnit env unit date w =
              (Err e, {| store := s;
                         rng := snd (buildRecords (tza env) unit date (rng w));
                         console := console w |})).
  { unfold generateRecordsForUnit, bind, liftRand, countDocumentsM.
    destruct (buildRecords (tza env) unit date (rng w)) as [records g1].
    cbn [store rng console snd]. rewrite H. reflexivity. }
  unfold generateGuarded, tryCatch. rewrite E. cbn [fst snd store console log].
  repeat split; reflexivity.
Qed.

(** X9.  A failing insert after a passed existence check surfaces the same
    way: the generation returns the store's error without logging success,
    and the guard logs it for the unit and returns normally. *)
Theorem failed_insert_is_reported (s s' : St) (e : Error) :
  countDocuments (store w) (SolarUnit.serialNumber unit) date
    (addMs date (24 * 60 * 60 * 1000)) = (Ok 0%nat, s) ->
  insertMany s (fst (buildRecords (tza env) unit date (rng w))) = (Err e, s') ->
  fst (generateRecordsForUnit env unit date w) = Err e /\
  console (snd (generateRecordsForUnit env unit date w)) = console w /\
  fst (generateGuarded env date unit w) = Ok tt /\
  store (snd (generateGuarded env date unit w)) = s' /\
  console (snd (generateGuarded env date unit w)) =
    console w ++ [LogUnitError (SolarUnit._id unit) (message e)].
Proof.
  intros Hc Hi.
  assert (E : generateRecordsForUnit env unit date w =
              (Err e, {| store := s';
                         rng := snd (buildRecords (tza env) unit date (rng w));
                         console := console w |})).
  { unfold generateRecordsForUnit, bind, liftRand, countDocumentsM, insertManyM.
    destruct (buildRecords (tza env) unit date (rng w)) as [records g1].
    cbn [fst] in Hi. cbn [store rng console snd]. rewrite Hc.
    cbn [Nat.ltb Nat.leb store rng console]. rewrite Hi. reflexivity. }
  unfold generateGuarded, tryCatch. rewrite E. cbn [fst snd store console log].
  repeat split; reflexivity.
Qed.

End StoreFailures.

Lemma failed_count_stops_generation_witness :
  countDocuments (store flakyWorld) (SolarUnit.serialNumber unitB) dec1
    (addMs dec1 (24 * 60 * 60 * 1000)) = (Err storeDown, store flakyWorld) /\
  console (snd (generateGuarded envUTC dec1 unitB flakyWorld)) =
    [LogUnitError "657a0002" "connection lost"].
Proof.
  assert (H : countDocuments (store flakyWorld) (SolarUnit.serialNumber unitB) dec1
                (addMs dec1 (24 * 60 * 60 * 1000)) = (Err storeDown, store flakyWorld))
    by reflexivity.
  split; [exact H|].
  exact (proj2 (proj2 (proj2 (proj2 (proj2
    (failed_count_stops_generation envUTC unitB dec1 flakyWorld storeDown
       (store flakyWorld) H)))))).
Defined.

Lemma failed_insert_is_reported_witness :
  countDocuments (store readOnlyWorld) (SolarUnit.serialNumber unitA) dec1
    (addMs dec1 (24 * 60 * 60 * 1000)) = (Ok 0%nat, store readOnlyWorld) /\
  insertMany (store readOnlyWorld)
    (fst (buildRecords (tza envUTC) unitA dec1 (rng readOnlyWorld))) =
    (Err writeDenied, store readOnlyWorld) /\
  fst (generateRecordsForUnit envUTC unitA dec1 readOnlyWorld) = Err writeDenied.
Proof.
  assert (Hc : countDocuments (store readOnlyWorld) (SolarUnit.serialNumber unitA) dec1
                 (addMs dec1 (24 * 60 * 60 * 1000)) = (Ok 0%nat, store readOnlyWorld))
    by reflexivity.
  assert (Hi : insertMany (store readOnlyWorld)
                 (fst (buildRecords (tza envUTC) unitA dec1 (rng readOnlyWorld))) =
               (Err writeDenied, store readOnlyWorld)) by reflexivity.
  split; [exact Hc|]. split; [exact Hi|].
  exact (proj1 (failed_insert_is_reported envUTC unitA dec1 readOnlyWorld
                  (store readOnlyWorld) (store readOnlyWorld) writeDenied Hc Hi)).
Defined.

(** ** Today's run against a store that persists *)

Section DailyRunMem.

Variable env : Env.

Lemma generateGuarded_mem (date : Z) (unit : SolarUnit.t)
  (w : World (list EnergyRecord)) :
  generateGuarded env date unit w = generateRecordsForUnit env unit date w.
Proof.
  unfold generateGuarded, tryCatch. destruct w as [docs g c].
  rewrite generateRecordsForUnit_mem.
  destruct (0 <? recordsFor docs unit date)%nat; reflexivity.
Qed.

(** Units that already have records for the day are all skipped. *)
Lemma forEachUnit_all_present (date : Z) (solarUnits : list SolarUnit.t) :
  forall w : World (list EnergyRecord),
  (forall u, In u solarUnits -> (0 < recordsFor (store w) u date)%nat) ->
  store (snd (forEachUnit solarUnits (generateGuarded env date) w)) = store w.
Proof.
  induction solarUnits as [|u rest IH]; intros w H; cbn [forEachUnit];
    [reflexivity|].
  unfold bind. rewrite generateGuarded_mem. destruct w as [docs g c].
  rewrite generateRecordsForUnit_mem. cbn [store] in H.
  assert (Hu : (0 <? recordsFor docs u date)%nat = true).
  { apply Nat.ltb_lt. apply H. left. reflexivity. }
  rewrite Hu. rewrite IH; [reflexivity|].
  cbn [store]. intros u' Hu'. apply H. right. exact Hu'.
Qed.

(** After the loop every unit of the list has records for the day that
    starts at [date], and what was stored before is still there. *)
Lemma forEachUnit_covers (now : Z) (solarUnits : list SolarUnit.t) :
  let date := setHours (tza env) now 0 0 0 0 in
  forall w : World (list EnergyRecord),
  (exists added,
     store (snd (forEachUnit solarUnits (generateGuarded env date) w)) =
     store w ++ added) /\
  forall u, In u solarUnits ->
    (0 < recordsFor (store (snd (forEachUnit solarUnits (generateGuarded env date) w)))
           u date)%nat.
Proof.
  intro date. induction solarUnits as [|u rest IH]; intro w; cbn [forEachUnit].
  - split; [exists []; rewrite app_nil_r; reflexivity | intros u []].
  - unfold bind. rewrite generateGuarded_mem. destruct w as [docs g c].
    rewrite generateRecordsForUnit_mem. cbn [store].
    destruct (0 <? recordsFor docs u date)%nat eqn:Eu;
      match goal with
      | |- context [forEachUnit rest _ ?w1] =>
          destruct (IH w1) as [[added Hadd] Hcov]; cbn [store] in Hadd
      end.
    + split; [exists added; exact Hadd|].
      intros u' [<-|Hu']; [|apply Hcov; exact Hu'].
      rewrite Hadd, recordsFor_app. apply Nat.ltb_lt in Eu. lia.
    + split; [eexists; rewrite Hadd, <- app_assoc; reflexivity|].
      intros u' [<-|Hu']; [|apply Hcov; exact Hu'].
      rewrite Hadd, !recordsFor_app.
      pose proof (built_records_counted (tza env) now u g) as H12.
      cbn zeta in H12. fold date in H12. lia.
Qed.

(** Units with other serial numbers leave the records of [other] alone. *)
Lemma forEachUnit_other_unit (date day : Z) (other : SolarUnit.t)
  (solarUnits : list SolarUnit.t) :
  forall w : World (list EnergyRecord),
  (forall u, In u solarUnits ->
             SolarUnit.serialNumber other <> SolarUnit.serialNumber u) ->
  recordsFor (store (snd (forEachUnit solarUnits (generateGuarded env date) w)))
    other day = recordsFor (store w) other day.
Proof.
  induction solarUnits as [|u rest IH]; intros w H; cbn [forEachUnit];
    [reflexivity|].
  unfold bind. rewrite generateGuarded_mem. destruct w as [docs g c].
  pose proof (generation_other_unit env u other date day docs g c
                (H u (or_introl eq_refl))) as Hu.
  pose proof (generateRecordsForUnit_mem env u date docs g c) as Ok1.
  destruct (generateRecordsForUnit env u date
              {| store := docs; rng := g; console := c |}) as [r w1].
  assert (Hr : r = Ok tt)
    by (destruct (0 <? recordsFor docs u date)%nat; congruence).
  subst r. cbn [snd] in Hu. rewrite IH; [exact Hu|].
  intros u' Hu'. apply H. right. exact Hu'.
Qed.

(** Starting from a day without records for units with distinct serial
    numbers, every unit gets inserted. *)
Lemma forEachUnit_fresh (now : Z) (solarUnits : list SolarUnit.t) :
  let date := setHours (tza env) now 0 0 0 0 in
  NoDup (map SolarUnit.serialNumber solarUnits) ->
  forall w : World (list EnergyRecord),
  (forall u, In u solarUnits -> recordsFor (store w) u date = 0%nat) ->
  List.length (store (snd (forEachUnit solarUnits (generateGuarded env date) w))) =
    (List.length (store w) + 12 * List.length solarUnits)%nat /\
  forall u, In u solarUnits ->
    recordsFor (store (snd (forEachUnit solarUnits (generateGuarded env date) w)))
      u date = 12%nat.
Proof.
  intros date Hnd. induction solarUnits as [|u rest IH]; intros w H0;
    cbn [forEachUnit].
  - split; [cbn; lia | intros u []].
  - inversion Hnd as [|s ss Hnotin Hnd' Es]. subst s ss.
    assert (Hother : forall u', In u' rest ->
              SolarUnit.serialNumber u <> SolarUnit.serialNumber u').
    { intros u' Hu' E. apply Hnotin. rewrite E. apply in_map. exact Hu'. }
    unfold bind. rewrite generateGuarded_mem. destruct w as [docs g c].
    rewrite generateRecordsForUnit_mem. cbn [store] in H0 |- *.
    rewrite (H0 u (or_introl eq_refl)). cbn [Nat.ltb Nat.leb].
    set (w1 := {| store := docs ++ fst (buildRecords (tza env) u date g);
                  rng := snd (buildRecords (tza env) u date g);
                  console := c ++ [LogGenerated 12 (SolarUnit.name u)] |}).
    pose proof (built_records_counted (tza env) now u g) as H12.
    cbn zeta in H12. fold date in H12.
    assert (H1 : forall u', In u' rest -> recordsFor (store w1) u' date = 0%nat).
    { intros u' Hu'. unfold w1. cbn [store]. rewrite recordsFor_app.
      rewrite (H0 u' (or_intror Hu')).
      apply (recordsFor_other_serial _ u u' date (buildRecords_serial _ u date g)).
      intro E. apply (Hother u' Hu'). symmetry. exact E. }
    destruct (IH Hnd' w1 H1) as [Hlen Hrest].
    split.
    + rewrite Hlen. unfold w1. cbn [store List.length].
      rewrite length_app, buildRecords_length. lia.
    + intros u' [<-|Hu']; [|apply Hrest; exact Hu'].
      rewrite (forEachUnit_other_unit date date u rest w1 Hother).
      unfold w1. cbn [store]. rewrite recordsFor_app, (H0 u (or_introl eq_refl)).
      exact H12.
Qed.

(** The store after today's run, in terms of the loop over the units. *)
Lemma generateDailyData_store (w : World (list EnergyRecord))
  (solarUnits : list SolarUnit.t) :
  activeUnits env = Ok solarUnits ->
  store (snd (generateDailyData env w)) =
  store (snd (forEachUnit solarUnits
                (generateGuarded env (setHours (tza env) (now env) 0 0 0 0))
                {| store := store w; rng := rng w;
                   console := console w ++ [LogFoundUnits (List.length solarUnits)] |})).
Proof.
  intro H. unfold generateDailyData, tryCatch, bind, fetchActiveUnits.
  rewrite H. cbn [log]. destruct solarUnits as [|u rest]; [reflexivity|].
  cbn [List.length Nat.eqb]. cbn zeta.
  match goal with
  | |- context [forEachUnit ?us ?body ?w1] =>
      destruct (forEachUnit_outcomes env (setHours (tza env) (now env) 0 0 0 0) us w1)
        as [Hr _];
      destruct (forEachUnit us body w1) as [r w2]
  end.
  cbn [fst] in Hr. subst r. reflexivity.
Qed.

End DailyRunMem.

(** X10.  Today's run is idempotent on a store that persists: running it a
    second time, with the same answer from the registry, leaves the store
    exactly as the first run left it, whatever was stored before. *)
Theorem daily_run_idempotent (env : Env) (w : World (list EnergyRecord)) :
  store (snd (generateDailyData env (snd (generateDailyData env w)))) =
  store (snd (generateDailyData env w)).
Proof.
  destruct (activeUnits env) as [units|e] eqn:E.
  - rewrite (generateDailyData_store env (snd (generateDailyData env w)) units E).
    rewrite forEachUnit_all_present; [reflexivity|].
    cbn [store]. rewrite (generateDailyData_store env w units E).
    apply (forEachUnit_covers env (now env) units).
  - rewrite !(generateDailyData_registry_error env _ e E). reflexivity.
Qed.

(** X11.  From a day without records, today's run over units with distinct
    serial numbers stores exactly 12 records per unit: the store grows by
    12 times the number of units, and the existence check of every unit
    then counts 12. *)
Theorem daily_run_fills_every_unit (env : Env) (w : World (list EnergyRecord))
  (solarUnits : list SolarUnit.t) :
  let today := setHours (tza env) (now env) 0 0 0 0 in
  activeUnits env = Ok solarUnits ->
  NoDup (map SolarUnit.serialNumber solarUnits) ->
  (forall u, In u solarUnits -> recordsFor (store w) u today = 0%nat) ->
  List.length (store (snd (generateDailyData env w))) =
    (List.length (store w) + 12 * List.length solarUnits)%nat /\
  forall u, In u solarUnits ->
    recordsFor (store (snd (generateDailyData env w))) u today = 12%nat.
Proof.
  intros today H Hnd H0.
  rewrite (generateDailyData_store env w solarUnits H).
  exact (forEachUnit_fresh env (now env) solarUnits Hnd
           {| store := store w; rng := rng w;
              console := console w ++ [LogFoundUnits (List.length solarUnits)] |}
           H0).
Qed.

Lemma daily_run_fills_every_unit_witness :
  activeUnits envTwoUnits = Ok [unitB; unitA] /\
  NoDup (map SolarUnit.serialNumber [unitB; unitA]) /\
  (forall u, In u [unitB; unitA] ->
     recordsFor (store freshWorld) u (setHours (tza envTwoUnits) (now envTwoUnits) 0 0 0 0)
     = 0%nat) /\
  List.length (store (snd (generateDailyData envTwoUnits freshWorld))) = 24%nat.
Proof.
  assert (H : activeUnits envTwoUnits = Ok [unitB; unitA]) by reflexivity.
  assert (Hnd : NoDup (map SolarUnit.serialNumber [unitB; unitA])).
  { repeat constructor; cbn; intuition discriminate. }
  assert (H0 : forall u, In u [unitB; unitA] ->
            recordsFor (store freshWorld) u
              (setHours (tza envTwoUnits) (now envTwoUnits) 0 0 0 0) = 0%nat)
    by (intros u _; reflexivity).
  split; [exact H|]. split; [exact Hnd|]. split; [exact H0|].
  exact (proj1 (daily_run_fills_every_unit envTwoUnits freshWorld [unitB; unitA]
                  H Hnd H0)).
Defined.

(** ** Calendar arithmetic behind [setDate] and [getDate] *)

Lemma civil_round_trip (days : Z) :
  let '(y, m, d) := civilFromDays days in
  (1 <= m <= 12 /\ daysFromCivil y m 1 + d - 1 = days)%Z.
Proof.
  unfold civilFromDays, daysFromCivil.
  set (z := (days + 719468)%Z).
  set (era := (z / 146097)%Z).
  set (doe := (z - era * 146097)%Z).
  assert (Hdoe : (0 <= doe <= 146096)%Z)
    by (unfold doe, era; Z.to_euclidean_division_equations; lia).
  set (yoe := ((doe - doe / 1460 + doe / 36524 - doe / 146096) / 365)%Z).
  set (doy := (doe - (365 * yoe + yoe / 4 - yoe / 100))%Z).
  assert (Hy : (0 <= yoe <= 399 /\ 0 <= doy <= 365)%Z)
    by (unfold doy, yoe; clearbody doe; clear - Hdoe;
        Z.to_euclidean_division_equations; lia).
  destruct Hy as [Hyoe Hdoy].
  set (mp := ((5 * doy + 2) / 153)%Z).
  assert (Hmp : (0 <= mp <= 11)%Z)
    by (unfold mp; clearbody doy; clear - Hdoy; Z.to_euclidean_division_equations; lia).
  assert (Hera : ((yoe + era * 400) / 400 = era)%Z)
    by (clearbody yoe era; clear - Hyoe; Z.to_euclidean_division_equations; lia).
  destruct (mp <? 10)%Z eqn:E10.
  - apply Z.ltb_lt in E10.
    replace (mp + 3 <=? 2)%Z with false by (symmetry; apply Z.leb_gt; lia).
    replace (2 <? mp + 3)%Z with true by (symmetry; apply Z.ltb_lt; lia).
    split; [lia|]. rewrite Hera.
    replace (mp + 3 - 3)%Z with mp by lia.
    clearbody mp. unfold doy, doe, z. clearbody yoe era.
    clear. Z.to_euclidean_division_equations. lia.
  - apply Z.ltb_ge in E10.
    replace (mp - 9 <=? 2)%Z with true by (symmetry; apply Z.leb_le; lia).
    replace (2 <? mp - 9)%Z with false by (symmetry; apply Z.ltb_ge; lia).
    split; [lia|].
    replace (yoe + era * 400 + 1 - 1)%Z with (yoe + era * 400)%Z by lia.
    rewrite Hera.
    replace (mp - 9 + 9)%Z with mp by lia.
    clearbody mp. unfold doy, doe, z. clearbody yoe era.
    clear. Z.to_euclidean_division_equations. lia.
Qed.

(** [d.setDate(d.getDate() - i)] moves [d] back by exactly [i] days. *)
Lemma setDate_back (tza t i : Z) :
  setDate tza t (getDate tza t - i) = (t - i * msPerDay)%Z.
Proof.
  unfold setDate, getDate.
  pose proof (civil_round_trip (Day (LocalTime tza t))) as H.
  destruct (civilFromDays (Day (LocalTime tza t))) as [[y m] d].
  destruct H as [Hm Hd].
  unfold MakeDay.
  replace ((m - 1) / 12)%Z with 0%Z by (Z.to_euclidean_division_equations; lia).
  replace ((m - 1) mod 12 + 1)%Z with m by (Z.to_euclidean_division_equations; lia).
  rewrite Z.add_0_r.
  replace (daysFromCivil y m 1 + (d - i) - 1)%Z with (Day (LocalTime tza t) - i)%Z by lia.
  unfold UTC, MakeDate, TimeWithinDay, Day, LocalTime, msPerDay.
  Z.to_euclidean_division_equations. lia.
Qed.

Lemma setHours_back (tza t i : Z) :
  setHours tza (t - i * msPerDay) 0 0 0 0 =
  (setHours tza t 0 0 0 0 - i * msPerDay)%Z.
Proof.
  unfold setHours, UTC, MakeDate, MakeTime, Day, LocalTime.
  replace (t - i * msPerDay + tza)%Z with (t + tza + (- i) * msPerDay)%Z by lia.
  rewrite Z.div_add by (unfold msPerDay; lia). lia.
Qed.

(** ** The historical run, for any store *)





Section HistoricalAny.

Context {St : Type} {store_ops : RecordStore St}.
Variable env : Env.

Lemma dayLoop_returns (days : Q) (solarUnits : list SolarUnit.t) (fuel : nat) :
  forall (i : Z) (w : World St),
  fst (dayLoop env fuel days solarUnits i w) = Ok tt.
Proof.
  induction fuel as [|fuel IH]; intros i w; cbn [dayLoop]; [reflexivity|].
  destruct (Qltb (inject_Z i) days); [|reflexivity].
  cbn zeta. unfold bind at 1. unfold log at 1. unfold bind at 1.
  match goal with
  | |- context [forEachUnit solarUnits (generateGuarded env ?d) ?w1] =>
      destruct (forEachUnit_outcomes env d solarUnits w1) as [Hr _];
      destruct (forEachUnit solarUnits (generateGuarded env d) w1) as [r w2]
  end.
  cbn [fst] in Hr. subst r. apply IH.
Qed.


Lemma generateHistoricalData_registry_error (days : Q) (w : World St) (e : Error) :
  activeUnits env = Err e ->
  generateHistoricalData env days w =
    (Err e, {| store := store w; rng := rng w;
               console := console w ++
                 [LogHistoricalStart days; LogHistoricalError (message e)] |}).
Proof.
  intro H. unfold generateHistoricalData. unfold bind at 1. unfold log at 1.
  unfold tryCatch, bind, fetchActiveUnits. rewrite H.
  unfold log, throw. cbn [store rng console]. rewrite <- app_assoc. reflexivity.
Qed.

(** With the unit list fetched, the run is the day loop between the count
    line and the completion line. *)
Lemma generateHistoricalData_units (days : Q) (w : World St)
  (solarUnits : list SolarUnit.t) :
  activeUnits env = Ok solarUnits ->
  let w1 := {| store := store w; rng := rng w;
               console := (console w ++ [LogHistoricalStart days]) ++
                          [LogFoundUnits (List.length solarUnits)] |} in
  let w2 := snd (dayLoop env (dayLoopFuel days) days solarUnits 0 w1) in
  generateHistoricalData env days w =
    (Ok tt, {| store := store w2; rng := rng w2;
               console := console w2 ++ [LogHistoricalCompleted] |}).
Proof.
  intros H w1 w2. unfold generateHistoricalData. unfold bind at 1. unfold log at 1.
  unfold tryCatch, bind, fetchActiveUnits. rewrite H. unfold log at 1.
  cbn [store rng console]. fold w1.
  pose proof (dayLoop_returns days solarUnits (dayLoopFuel days) 0 w1) as Hr.
  unfold w2. destruct (dayLoop env (dayLoopFuel days) days solarUnits 0 w1) as [r w3].
  cbn [fst] in Hr. subst r. reflexivity.
Qed.

End HistoricalAny.

(** X12.  The historical run propagates an error exactly when the registry
    fetch fails, and then it is the registry's error with the store left
    untouched; no failure of the store while generating can make it throw. *)
Theorem historical_run_fails_only_with_registry {St : Type}
  {store_ops : RecordStore St} (env : Env) (days : Q) (w : World St) (e : Error) :
  (fst (generateHistoricalData env days w) = Err e <-> activeUnits env = Err e) /\
  (activeUnits env = Err e ->
   store (snd (generateHistoricalData env days w)) = store w).
Proof.
  split; [split|].
  - intro H. destruct (activeUnits env) as [units|e'] eqn:E.
    + rewrite (generateHistoricalData_units env days w units E) in H. discriminate H.
    + rewrite (generateHistoricalData_registry_error env days w e' E) in H.
      cbn [fst] in H. injection H as ->. reflexivity.
  - intro H. rewrite (generateHistoricalData_registry_error env days w e H).
    reflexivity.
  - intro H. rewrite (generateHistoricalData_registry_error env days w e H).
    reflexivity.
Qed.

Lemma historical_run_fails_only_with_registry_witness :
  activeUnits envNoRegistry = Err registryDown /\
  store (snd (generateHistoricalData envNoRegistry 7 flakyWorld)) = store flakyWorld.
Proof.
  assert (H : activeUnits envNoRegistry = Err registryDown) by reflexivity.
  split; [exact H|].
  exact (proj2 (historical_run_fails_only_with_registry envNoRegistry 7 flakyWorld
                  registryDown) H).
Defined.



(** ** The console is write-only *)

Section ConsoleFree.

Context {St : Type} {store_ops : RecordStore St}.
Variable env : Env.

Lemma generateGuarded_sameState (date : Z) (unit : SolarUnit.t) (w1 w2 : World St) :
  sameState w1 w2 ->
  fst (generateGuarded env date unit w1) = fst (generateGuarded env date unit w2) /\
  sameState (snd (generateGuarded env date unit w1))
            (snd (generateGuarded env date unit w2)).
Proof.
  intros [Hs Hg]. destruct w1 as [s1 g1 c1], w2 as [s2 g2 c2].
  cbn [store rng] in Hs, Hg. subst s2 g2.
  unfold generateGuarded, tryCatch, generateRecordsForUnit, bind, liftRand,
    countDocumentsM, insertManyM, log, sameState.
  cbn [store rng console].
  destruct (buildRecords (tza env) unit date g1) as [records g'].
  cbn [store rng console].
  destruct (countDocuments s1 (SolarUnit.serialNumber unit) date
              (addMs date (24 * 60 * 60 * 1000))) as [[n|e] s'];
    cbn [store rng console fst snd].
  - destruct (0 <? n)%nat; cbn [store rng console fst snd].
    + repeat split; reflexivity.
    + destruct (insertMany s' records) as [[[]|e] s'']; cbn [store rng console fst snd];
        repeat split; reflexivity.
  - repeat split; reflexivity.
Qed.

Lemma forEachUnit_sameState (date : Z) (solarUnits : list SolarUnit.t) :
  forall w1 w2 : World St,
  sameState w1 w2 ->
  sameState (snd (forEachUnit solarUnits (generateGuarded env date) w1))
            (snd (forEachUnit solarUnits (generateGuarded env date) w2)).
Proof.
  induction solarUnits as [|u rest IH]; intros w1 w2 H; cbn [forEachUnit];
    [exact H|].
  unfold bind.
  destruct (generateGuarded_sameState date u w1 w2 H) as [_ Hsame].
  destruct (generateGuarded_outcome env date u w1) as [Hr1 _].
  destruct (generateGuarded_outcome env date u w2) as [Hr2 _].
  destruct (generateGuarded env date u w1) as [r1 w1'].
  destruct (generateGuarded env date u w2) as [r2 w2'].
  cbn [fst snd] in *. subst r1 r2. apply IH. exact Hsame.
Qed.

(** Today's run is the loop over the fetched units at today's local
    midnight. *)
Lemma generateDailyData_loop (w : World St) (solarUnits : list SolarUnit.t) :
  activeUnits env = Ok solarUnits ->
  fst (generateDailyData env w) = Ok tt /\
  sameState (snd (generateDailyData env w))
            (snd (forEachUnit solarUnits
                    (generateGuarded env (setHours (tza env) (now env) 0 0 0 0)) w)).
Proof.
  intro H. unfold generateDailyData, tryCatch, bind, fetchActiveUnits.
  rewrite H. cbn [log]. destruct solarUnits as [|u rest].
  - cbn. split; [reflexivity | split; reflexivity].
  - cbn [List.length Nat.eqb]. cbn zeta.
    match goal with
    | |- context [forEachUnit ?us ?body ?w1] =>
        pose proof (forEachUnit_sameState (setHours (tza env) (now env) 0 0 0 0)
                      us w1 w (conj eq_refl eq_refl)) as Hsame;
        destruct (forEachUnit_outcomes env (setHours (tza env) (now env) 0 0 0 0) us w1)
          as [Hr _];
        destruct (forEachUnit us body w1) as [r w2]
    end.
    cbn [fst snd] in Hr, Hsame. subst r. cbn [log fst snd].
    split; [reflexivity|]. destruct Hsame as [Hs Hg]. split; cbn [store rng]; assumption.
Qed.

Lemma generateHistoricalData_one (w : World St) (solarUnits : list SolarUnit.t) :
  activeUnits env = Ok solarUnits ->
  fst (generateHistoricalData env 1 w) = Ok tt /\
  sameState (snd (generateHistoricalData env 1 w))
            (snd (forEachUnit solarUnits
                    (generateGuarded env (setHours (tza env) (now env) 0 0 0 0)) w)).
Proof.
  intro H. rewrite (generateHistoricalData_units env 1 w solarUnits H).
  cbn [fst snd]. split; [reflexivity|].
  change (dayLoopFuel 1) with 1%nat.
  match goal with
  | |- sameState {| store := store ?wd; rng := _; console := _ |} ?w' =>
      cut (sameState wd w');
      [intros [A B]; split; cbn [store rng]; assumption|]
  end.
  cbn [dayLoop].
  change (Qltb (inject_Z 0) 1) with true. cbn zeta.
  rewrite setDate_back, setHours_back.
  replace (setHours (tza env) (now env) 0 0 0 0 - 0 * msPerDay)%Z
    with (setHours (tza env) (now env) 0 0 0 0) by lia.
  unfold bind at 1. unfold log at 1. unfold bind at 1.
  match goal with
  | |- context [forEachUnit ?us ?body ?w1] =>
      pose proof (forEachUnit_sameState (setHours (tza env) (now env) 0 0 0 0)
                    us w1 w (conj eq_refl eq_refl)) as Hsame;
      destruct (forEachUnit_outcomes env (setHours (tza env) (now env) 0 0 0 0) us w1)
        as [Hr _];
      destruct (forEachUnit us body w1) as [r w2]
  end.
  cbn [fst snd] in Hr, Hsame. subst r. unfold ret. cbn [snd]. exact Hsame.
Qed.

End ConsoleFree.

(** X14.  A backfill of one day does what today's run does: both return the
    same result, and they leave the same store and the same generator
    behind, for every store, registry answer and starting state. *)
Theorem backfill_of_one_day_is_todays_run {St : Type} {store_ops : RecordStore St}
  (env : Env) (w : World St) :
  fst (generateHistoricalData env 1 w) = fst (generateDailyData env w) /\
  store (snd (generateHistoricalData env 1 w)) = store (snd (generateDailyData env w)) /\
  rng (snd (generateHistoricalData env 1 w)) = rng (snd (generateDailyData env w)).
Proof.
  destruct (activeUnits env) as [units|e] eqn:E.
  - destruct (generateHistoricalData_one env w units E) as [Hr1 [Hs1 Hg1]].
    destruct (generateDailyData_loop env w units E) as [Hr2 [Hs2 Hg2]].
    repeat split; congruence.
  - rewrite (generateHistoricalData_registry_error env 1 w e E).
    rewrite (generateDailyData_registry_error env w e E).
    repeat split; reflexivity.
Qed.

(** ** The admin endpoints *)

Section Endpoints.

Context {St : Type} {store_ops : RecordStore St}.
Variable env : Env.

Lemma generateTodayData_registry_error (w : World St) (e : Error) :
  activeUnits env = Err e ->
  fst (generateTodayData env w) = Err e /\
  store (snd (generateTodayData env w)) = store w.
Proof.
  intro H. unfold generateTodayData. unfold bind, log.
  rewrite (generateDailyData_registry_error env _ e H). split; reflexivity.
Qed.

Lemma generateTodayData_returns (w : World St) (solarUnits : list SolarUnit.t) :
  activeUnits env = Ok solarUnits -> fst (generateTodayData env w) = Ok tt.
Proof.
  intro H. unfold generateTodayData. unfold bind, log.
  destruct (generateDailyData_loop env
              {| store := store w; rng := rng w;
                 console := console w ++ [LogManualTrigger] |} solarUnits H) as [Hr _].
  destruct (generateDailyData env _) as [r w1]. cbn [fst] in Hr. subst r.
  reflexivity.
Qed.

Lemma postGenerateTodayData_ok (w : World St) (solarUnits : list SolarUnit.t) :
  activeUnits env = Ok solarUnits ->
  exists w',
    postGenerateTodayData env w =
      (Ok {| status := 200; success := true;
             responseMessage := TodayGenerated; error := None |}, w').
Proof.
  intro H. unfold postGenerateTodayData, tryCatch. unfold bind at 1.
  unfold log at 1. unfold bind at 1.
  pose proof (generateTodayData_returns
                {| store := store w; rng := rng w;
                   console := console w ++ [LogApiToday] |} solarUnits H) as Hr.
  destruct (generateTodayData env _) as [r w1]. cbn [fst] in Hr. subst r.
  eexists. reflexivity.
Qed.

Lemma postGenerateTodayData_failed (w : World St) (e : Error) :
  activeUnits env = Err e ->
  exists w',
    postGenerateTodayData env w =
      (Ok {| status := 500; success := false;
             responseMessage := GenerationFailed; error := Some (errorText e) |}, w') /\
    store w' = store w.
Proof.
  intro H. unfold postGenerateTodayData, tryCatch. unfold bind at 1.
  unfold log at 1. unfold bind at 1.
  destruct (generateTodayData_registry_error
                {| store := store w; rng := rng w;
                   console := console w ++ [LogApiToday] |} e H) as [Hr Hs].
  destruct (generateTodayData env _) as [r w1]. cbn [fst snd store] in Hr, Hs.
  subst r. unfold bind, log, ret. eexists. split; [reflexivity | exact Hs].
Qed.



End Endpoints.

(** X15.  [POST /generate-today-data] always answers.  When the registry
    fetch succeeds the response is 200 with success, whatever happens to
    individual units; when it fails the response is 500 without success,
    carrying the error's message (or its string form when the message is
    empty), and the store is untouched. *)
Theorem today_endpoint_always_answers {St : Type} {store_ops : RecordStore St}
  (env : Env) (w : World St) (solarUnits : list SolarUnit.t) (e : Error) :
  (activeUnits env = Ok solarUnits ->
   fst (postGenerateTodayData env w) =
     Ok {| status := 200; success := true;
           responseMessage := TodayGenerated; error := None |}) /\
  (activeUnits env = Err e ->
   fst (postGenerateTodayData env w) =
     Ok {| status := 500; success := false;
           responseMessage := GenerationFailed; error := Some (errorText e) |} /\
   store (snd (postGenerateTodayData env w)) = store w).
Proof.
  split; intro H.
  - destruct (postGenerateTodayData_ok env w solarUnits H) as [w' E].
    rewrite E. reflexivity.
  - destruct (postGenerateTodayData_failed env w e H) as [w' [E Hs]].
    rewrite E. split; [reflexivity | exact Hs].
Qed.

Lemma today_endpoint_always_answers_witness :
  (activeUnits envTwoUnits = Ok [unitB; unitA] /\
   activeUnits envNoRegistry = Err registryDown) /\
  fst (postGenerateTodayData envTwoUnits flakyWorld) =
    Ok {| status := 200; success := true;
          responseMessage := TodayGenerated; error := None |} /\
  fst (postGenerateTodayData envNoRegistry flakyWorld) =
    Ok {| status := 500; success := false; responseMessage := GenerationFailed;
          error := Some "connect ECONNREFUSED" |}.
Proof.
  assert (H1 : activeUnits envTwoUnits = Ok [unitB; unitA]) by reflexivity.
  assert (H2 : activeUnits envNoRegistry = Err registryDown) by reflexivity.
  split; [split; assumption|]. split.
  - exact (proj1 (today_endpoint_always_answers envTwoUnits flakyWorld [unitB; unitA]
                    registryDown) H1).
  - exact (proj1 (proj2 (today_endpoint_always_answers envNoRegistry flakyWorld []
                           registryDown) H2)).
Defined.



(** ** More on the anomaly catalog *)

(** X17.  The anomaly flag returned by the scan is true exactly when some
    rule of the list selects the date and hour, for every list of rules. *)
Theorem anomaly_flag_iff_some_rule_selects {R : Type} (patterns : list (Pattern R))
  (dateString : string) (hour : Z) (record : R) (g : Rng) :
  snd (fst (applyAnomalyPatterns patterns dateString hour record g)) =
  existsb (fun p => shouldApplyPattern p dateString hour) patterns.
Proof.
  induction patterns as [|p rest IH]; [reflexivity|].
  cbn [applyAnomalyPatterns existsb].
  destruct (shouldApplyPattern p dateString hour); cbn [orb]; [|exact IH].
  unfold bindR, retR. destruct (apply p record g). reflexivity.
Qed.

(** The selectors of the catalog, rule by rule. *)
Lemma selects_ZERO_GENERATION {R : Type} {energy : HasEnergy R} (d : string) (h : Z) :
  shouldApplyPattern (ZERO_GENERATION (R:=R)) d h =
  (String.eqb d "2025-12-01" && ((10 <=? h)%Z && (h <? 14)%Z))%bool.
Proof.
  unfold shouldApplyPattern. cbn.
  destruct (String.eqb d "2025-12-01"); reflexivity.
Qed.

Lemma selects_SUDDEN_DROP {R : Type} {energy : HasEnergy R} (d : string) (h : Z) :
  shouldApplyPattern (SUDDEN_DROP (R:=R)) d h =
  (String.eqb d "2025-12-05" && ((9 <=? h)%Z && (h <? 15)%Z))%bool.
Proof.
  unfold shouldApplyPattern. cbn.
  destruct (String.eqb d "2025-12-05"); reflexivity.
Qed.

Lemma selects_CAPACITY_FACTOR {R : Type} {energy : HasEnergy R} (d : string) (h : Z) :
  shouldApplyPattern (CAPACITY_FACTOR (R:=R)) d h =
  (String.leb "2025-12-10" d && String.leb d "2025-12-16")%bool.
Proof.
  unfold shouldApplyPattern. cbn [date dateRange CAPACITY_FACTOR].
  destruct (String.leb "2025-12-10" d && String.leb d "2025-12-16")%bool; reflexivity.
Qed.

Lemma selects_IRREGULAR_PATTERN {R : Type} {energy : HasEnergy R} (d : string) (h : Z) :
  shouldApplyPattern (IRREGULAR_PATTERN (R:=R)) d h = String.eqb d "2025-12-08".
Proof.
  unfold shouldApplyPattern. cbn.
  destruct (String.eqb d "2025-12-08"); reflexivity.
Qed.

Lemma selects_IRREGULAR_PATTERN_NIGHT {R : Type} {energy : HasEnergy R}
  (d : string) (h : Z) :
  shouldApplyPattern (IRREGULAR_PATTERN_NIGHT (R:=R)) d h =
  (String.eqb d "2025-12-03" && ((h <? 6)%Z || (20 <? h)%Z))%bool.
Proof.
  unfold shouldApplyPattern. cbn.
  destruct (String.eqb d "2025-12-03"); reflexivity.
Qed.

(** X18.  The rules of the shipped catalog exclude one another: whatever the
    date string and the hour, at most one of the five rules selects it, so
    the scan never has to drop a second match. *)
Theorem catalog_rules_are_exclusive (d : string) (h : Z) :
  (List.length
     (filter (fun p : Pattern EnergyRecord => shouldApplyPattern p d h)
        ANOMALY_PATTERNS) <= 1)%nat.
Proof.
  unfold ANOMALY_PATTERNS. cbn [filter].
  rewrite selects_ZERO_GENERATION, selects_SUDDEN_DROP, selects_CAPACITY_FACTOR,
    selects_IRREGULAR_PATTERN, selects_IRREGULAR_PATTERN_NIGHT.
  destruct (String.eqb_spec d "2025-12-01") as [->|_];
    [cbn; destruct ((10 <=? h)%Z && (h <? 14)%Z)%bool; cbn; lia|].
  destruct (String.eqb_spec d "2025-12-05") as [->|_];
    [cbn; destruct ((9 <=? h)%Z && (h <? 15)%Z)%bool; cbn; lia|].
  destruct (String.eqb_spec d "2025-12-08") as [->|_]; [cbn; lia|].
  destruct (String.eqb_spec d "2025-12-03") as [->|_];
    [cbn; destruct ((h <? 6)%Z || (20 <? h)%Z)%bool; cbn; lia|].
  cbn [andb]. destruct (String.leb "2025-12-10" d && String.leb d "2025-12-16")%bool;
    cbn; lia.
Qed.

(** X19.  The low-capacity week.  For every date string from 2025-12-10 to
    2025-12-16 (in string order) and every hour, the scan applies
    CAPACITY_FACTOR: the energy becomes [Math.round] of 0.4 times the
    energy, the flag is set and no random number is drawn. *)
Theorem capacity_factor_week (d : string) (h : Z) (record : EnergyRecord) (g : Rng) :
  String.leb "2025-12-10" d = true -> String.leb d "2025-12-16" = true ->
  applyAnomalyPatterns ANOMALY_PATTERNS d h record g =
    ((withEnergy (round (energyGenerated record * 0.4)) record, true), g).
Proof.
  intros H1 H2. unfold ANOMALY_PATTERNS. cbn [applyAnomalyPatterns].
  rewrite selects_ZERO_GENERATION, selects_SUDDEN_DROP, selects_CAPACITY_FACTOR.
  destruct (String.eqb_spec d "2025-12-01") as [->|_]; [discriminate H1|].
  destruct (String.eqb_spec d "2025-12-05") as [->|_]; [discriminate H1|].
  cbn [andb]. rewrite H1, H2. reflexivity.
Qed.

Lemma capacity_factor_week_witness :
  String.leb "2025-12-10" "2025-12-13" = true /\
  String.leb "2025-12-13" "2025-12-16" = true /\
  energyGenerated
    (fst (fst (applyAnomalyPatterns ANOMALY_PATTERNS "2025-12-13" 3 record1000
                 (constRng 0.5)))) = 400%Q.
Proof.
  assert (H1 : String.leb "2025-12-10" "2025-12-13" = true) by reflexivity.
  assert (H2 : String.leb "2025-12-13" "2025-12-16" = true) by reflexivity.
  split; [exact H1|]. split; [exact H2|].
  rewrite (capacity_factor_week "2025-12-13" 3 record1000 (constRng 0.5) H1 H2).
  reflexivity.
Defined.

Lemma Zwindow_true (lo hi h : Z) :
  (lo <= h < hi)%Z -> ((lo <=? h)%Z && (h <? hi)%Z)%bool = true.
Proof.
  intros [H1 H2]. apply andb_true_iff. split; [apply Z.leb_le | apply Z.ltb_lt]; lia.
Qed.

Lemma Zwindow_false (lo hi h : Z) :
  (h < lo \/ hi <= h)%Z -> ((lo <=? h)%Z && (h <? hi)%Z)%bool = false.
Proof.
  intro H. apply andb_false_iff.
  destruct H; [left; apply Z.leb_gt | right; apply Z.ltb_ge]; lia.
Qed.

(** X20.  The two windowed rules act inside their hour window only.  On
    2025-12-01 a record at an hour in [10,14) leaves the scan with energy 0
    whatever it had, and at any other hour it is returned unchanged and
    unflagged; on 2025-12-05 an hour in [9,15) gives [Math.round] of 0.3
    times the energy, and any other hour leaves the record unchanged. *)
Theorem windowed_rules_respect_hours (h : Z) (record : EnergyRecord) (g : Rng) :
  ((10 <= h < 14)%Z ->
   applyAnomalyPatterns ANOMALY_PATTERNS "2025-12-01" h record g =
     ((withEnergy 0 record, true), g)) /\
  ((h < 10 \/ 14 <= h)%Z ->
   applyAnomalyPatterns ANOMALY_PATTERNS "2025-12-01" h record g =
     ((record, false), g)) /\
  ((9 <= h < 15)%Z ->
   applyAnomalyPatterns ANOMALY_PATTERNS "2025-12-05" h record g =
     ((withEnergy (round (energyGenerated record * 0.3)) record, true), g)) /\
  ((h < 9 \/ 15 <= h)%Z ->
   applyAnomalyPatterns ANOMALY_PATTERNS "2025-12-05" h record g =
     ((record, false), g)).
Proof.
  unfold ANOMALY_PATTERNS. cbn [applyAnomalyPatterns].
  rewrite !selects_ZERO_GENERATION, !selects_SUDDEN_DROP, !selects_CAPACITY_FACTOR,
    !selects_IRREGULAR_PATTERN, !selects_IRREGULAR_PATTERN_NIGHT.
  change (String.eqb "2025-12-01" "2025-12-01") with true.
  change (String.eqb "2025-12-05" "2025-12-01") with false.
  change (String.eqb "2025-12-01" "2025-12-05") with false.
  change (String.eqb "2025-12-05" "2025-12-05") with true.
  change (String.eqb "2025-12-01" "2025-12-08") with false.
  change (String.eqb "2025-12-05" "2025-12-08") with false.
  change (String.eqb "2025-12-01" "2025-12-03") with false.
  change (String.eqb "2025-12-05" "2025-12-03") with false.
  change (String.leb "2025-12-10" "2025-12-01") with false.
  change (String.leb "2025-12-10" "2025-12-05") with false.
  cbn [andb].
  repeat split; intro H.
  - rewrite (Zwindow_true 10 14 h H). reflexivity.
  - rewrite (Zwindow_false 10 14 h H). reflexivity.
  - rewrite (Zwindow_true 9 15 h H). reflexivity.
  - rewrite (Zwindow_false 9 15 h H). reflexivity.
Qed.

Lemma windowed_rules_respect_hours_witness :
  ((10 <= 12 < 14)%Z /\ (16 < 10 \/ 14 <= 16)%Z) /\
  energyGenerated
    (fst (fst (applyAnomalyPatterns ANOMALY_PATTERNS "2025-12-01" 12 record1000
                 (constRng 0.5)))) = 0%Q /\
  applyAnomalyPatterns ANOMALY_PATTERNS "2025-12-01" 16 record1000 (constRng 0.5) =
    ((record1000, false), constRng 0.5).
Proof.
  assert (H1 : (10 <= 12 < 14)%Z) by lia.
  assert (H2 : (16 < 10 \/ 14 <= 16)%Z) by lia.
  split; [split; assumption|]. split.
  - rewrite (proj1 (windowed_rules_respect_hours 12 record1000 (constRng 0.5)) H1).
    reflexivity.
  - exact (proj1 (proj2 (windowed_rules_respect_hours 16 record1000 (constRng 0.5))) H2).
Defined.

(** X21.  The night-time sensor rule.  On 2025-12-03, at an hour before 6 or
    after 20, the scan replaces the energy by 50 plus 100 times the next
    draw, a value in [50,150) that does not depend on the energy the record
    had; from 6 to 20 o'clock the record is returned unchanged. *)
Theorem night_rule_overrides_energy (h : Z) (record : EnergyRecord) (g : Rng) :
  ((h < 6 \/ 20 < h)%Z -> fair g ->
   applyAnomalyPatterns ANOMALY_PATTERNS "2025-12-03" h record g =
     ((withEnergy (50 + draw g * 100) record, true), advance g) /\
   (50 <= 50 + draw g * 100 /\ 50 + draw g * 100 < 150)%Q) /\
  ((6 <= h <= 20)%Z ->
   applyAnomalyPatterns ANOMALY_PATTERNS "2025-12-03" h record g =
     ((record, false), g)).
Proof.
  unfold ANOMALY_PATTERNS. cbn [applyAnomalyPatterns].
  rewrite !selects_ZERO_GENERATION, !selects_SUDDEN_DROP, !selects_CAPACITY_FACTOR,
    !selects_IRREGULAR_PATTERN, !selects_IRREGULAR_PATTERN_NIGHT.
  change (String.eqb "2025-12-03" "2025-12-01") with false.
  change (String.eqb "2025-12-03" "2025-12-05") with false.
  change (String.eqb "2025-12-03" "2025-12-08") with false.
  change (String.eqb "2025-12-03" "2025-12-03") with true.
  change (String.leb "2025-12-10" "2025-12-03") with false.
  cbn [andb].
  split.
  - intros H Hg.
    assert (E : ((h <? 6)%Z || (20 <? h)%Z)%bool = true).
    { apply orb_true_iff. destruct H; [left; apply Z.ltb_lt | right; apply Z.ltb_lt]; lia. }
    rewrite E. destruct (fair_draw g Hg) as [H0 H1].
    split; [reflexivity | split; lra].
  - intro H.
    assert (E : ((h <? 6)%Z || (20 <? h)%Z)%bool = false).
    { apply orb_false_iff. split; apply Z.ltb_ge; lia. }
    rewrite E. reflexivity.
Qed.

Lemma night_rule_overrides_energy_witness :
  ((22 < 6 \/ 20 < 22)%Z /\ fair (constRng 0.5) /\ (6 <= 12 <= 20)%Z) /\
  energyGenerated
    (fst (fst (applyAnomalyPatterns ANOMALY_PATTERNS "2025-12-03" 22 record1000
                 (constRng 0.5)))) = (50 + 0.5 * 100)%Q /\
  applyAnomalyPatterns ANOMALY_PATTERNS "2025-12-03" 12 record1000 (constRng 0.5) =
    ((record1000, false), constRng 0.5).
Proof.
  assert (H1 : (22 < 6 \/ 20 < 22)%Z) by lia.
  assert (Hg : fair (constRng 0.5)) by (apply fair_constRng; lra).
  assert (H2 : (6 <= 12 <= 20)%Z) by lia.
  split; [split; [exact H1 | split; [exact Hg | exact H2]]|]. split.
  - rewrite (proj1 (proj1 (night_rule_overrides_energy 22 record1000 (constRng 0.5))
                      H1 Hg)).
    reflexivity.
  - exact (proj2 (night_rule_overrides_energy 12 record1000 (constRng 0.5)) H2).
Defined.

(** String order is transitive. *)
Lemma ascii_compare_trans (a b c : ascii) (r : comparison) :
  Ascii.compare a b = r -> Ascii.compare b c = r -> Ascii.compare a c = r.
Proof.
  unfold Ascii.compare. intros H1 H2. destruct r.
  - apply N.compare_eq_iff in H1. apply N.compare_eq_iff in H2.
    apply N.compare_eq_iff. congruence.
  - apply N.compare_lt_iff in H1. apply N.compare_lt_iff in H2.
    apply N.compare_lt_iff. eapply N.lt_trans; eassumption.
  - apply N.compare_gt_iff in H1. apply N.compare_gt_iff in H2.
    apply N.compare_gt_iff. eapply N.lt_trans; eassumption.
Qed.

Lemma string_compare_lt_trans (a : string) :
  forall b c : string,
  String.compare a b = Lt -> String.compare b c = Lt -> String.compare a c = Lt.
Proof.
  induction a as [|x a IH]; intros [|y b] [|z c]; cbn [String.compare];
    try discriminate; try reflexivity.
  destruct (Ascii.compare x y) eqn:Exy; try discriminate;
    destruct (Ascii.compare y z) eqn:Eyz; try discriminate; intros H1 H2.
  - rewrite (ascii_compare_trans x y z Eq Exy Eyz). eapply IH; eassumption.
  - apply Ascii.compare_eq_iff in Exy. subst y. rewrite Eyz. reflexivity.
  - apply Ascii.compare_eq_iff in Eyz. subst z. rewrite Exy. reflexivity.
  - rewrite (ascii_compare_trans x y z Lt Exy Eyz). reflexivity.
Qed.

Lemma string_ltb_leb_false (a b c : string) :
  String.ltb a b = true -> String.ltb c a = true -> String.leb b c = false.
Proof.
  unfold String.ltb, String.leb. intros H1 H2.
  destruct (String.compare a b) eqn:Eab; try discriminate.
  destruct (String.compare c a) eqn:Eca; try discriminate.
  pose proof (string_compare_lt_trans c a b Eca Eab) as Ecb.
  rewrite String.compare_antisym, Ecb. reflexivity.
Qed.

(** X22.  Outside December 1 to 16, 2025 nothing is altered: every date
    string that sorts before 2025-12-01 or after 2025-12-16 gets its record
    back unchanged, unflagged and without a draw, at every hour. *)
Theorem dates_outside_catalog_untouched (d : string) (h : Z)
  (record : EnergyRecord) (g : Rng) :
  String.ltb d "2025-12-01" = true \/ String.ltb "2025-12-16" d = true ->
  applyAnomalyPatterns ANOMALY_PATTERNS d h record g = ((record, false), g).
Proof.
  intro H. unfold ANOMALY_PATTERNS. cbn [applyAnomalyPatterns].
  rewrite selects_ZERO_GENERATION, selects_SUDDEN_DROP, selects_CAPACITY_FACTOR,
    selects_IRREGULAR_PATTERN, selects_IRREGULAR_PATTERN_NIGHT.
  assert (Hrange : (String.leb "2025-12-10" d && String.leb d "2025-12-16")%bool = false).
  { apply andb_false_iff. destruct H as [H|H].
    - left. apply (string_ltb_leb_false "2025-12-01" _ _); [reflexivity | exact H].
    - right. unfold String.ltb, String.leb in *. rewrite String.compare_antisym.
      destruct (String.compare "2025-12-16" d); try discriminate. reflexivity. }
  rewrite Hrange.
  destruct (String.eqb_spec d "2025-12-01") as [->|_];
    [destruct H as [H|H]; discriminate H|].
  destruct (String.eqb_spec d "2025-12-05") as [->|_];
    [destruct H as [H|H]; discriminate H|].
  destruct (String.eqb_spec d "2025-12-08") as [->|_];
    [destruct H as [H|H]; discriminate H|].
  destruct (String.eqb_spec d "2025-12-03") as [->|_];
    [destruct H as [H|H]; discriminate H|].
  reflexivity.
Qed.

Lemma dates_outside_catalog_untouched_witness :
  (String.ltb "2025-08-01" "2025-12-01" = true \/
   String.ltb "2025-12-16" "2025-08-01" = true) /\
  applyAnomalyPatterns ANOMALY_PATTERNS "2025-08-01" 12 record1000 (constRng 0.5) =
    ((record1000, false), constRng 0.5).
Proof.
  assert (H : String.ltb "2025-08-01" "2025-12-01" = true \/
              String.ltb "2025-12-16" "2025-08-01" = true) by (left; reflexivity).
  split; [exact H|].
  exact (dates_outside_catalog_untouched "2025-08-01" 12 record1000 (constRng 0.5) H).
Defined.

(** ** The seeding loop *)

Lemma scan_stream {R : Type} {energy : HasEnergy R} (d : string) (h : Z)
  (record : R) (g : Rng) :
  stream (snd (applyAnomalyPatterns ANOMALY_PATTERNS d h record g)) = stream g.
Proof.
  unfold ANOMALY_PATTERNS. cbn [applyAnomalyPatterns].
  repeat match goal with
         | |- context [if shouldApplyPattern ?p d h then _ else _] =>
             destruct (shouldApplyPattern p d h)
         end; reflexivity.
Qed.

Lemma seed_apply_keeps (p : Pattern SeedRecord.t) (record : SeedRecord.t) (g : Rng) :
  In p ANOMALY_PATTERNS ->
  SeedRecord.timestamp (fst (apply p record g)) = SeedRecord.timestamp record /\
  SeedRecord.serialNumber (fst (apply p record g)) = SeedRecord.serialNumber record.
Proof.
  intro Hp. unfold ANOMALY_PATTERNS in Hp. simpl in Hp.
  destruct Hp as [<-|[<-|[<-|[<-|[<-|[]]]]]]; split; reflexivity.
Qed.

Lemma seed_apply_nonneg (p : Pattern SeedRecord.t) (record : SeedRecord.t) (g : Rng) :
  In p ANOMALY_PATTERNS -> fair g -> (0 <= SeedRecord.energyGenerated record)%Q ->
  (0 <= SeedRecord.energyGenerated (fst (apply p record g)))%Q.
Proof.
  intros Hp Hg He. destruct (fair_draw g Hg) as [Hr0 Hr1].
  unfold ANOMALY_PATTERNS in Hp. simpl in Hp.
  destruct Hp as [<-|[<-|[<-|[<-|[<-|[]]]]]].
  - cbn. lra.
  - cbn [apply SUDDEN_DROP retR fst withEnergy getEnergy SeedRecord_HasEnergy
         SeedRecord.energyGenerated].
    apply round_nonneg. nra.
  - cbn [apply CAPACITY_FACTOR retR fst withEnergy getEnergy SeedRecord_HasEnergy
         SeedRecord.energyGenerated].
    apply round_nonneg. nra.
  - cbn [apply IRREGULAR_PATTERN retR bindR random fst withEnergy getEnergy
         SeedRecord_HasEnergy SeedRecord.energyGenerated].
    apply round_nonneg. destruct (Qgtb (draw g) 0.5); nra.
  - cbn [apply IRREGULAR_PATTERN_NIGHT retR bindR random fst withEnergy getEnergy
         SeedRecord_HasEnergy SeedRecord.energyGenerated].
    nra.
Qed.

(** One step of the loop: the record carries the step's time and the fixed
    serial number, its energy is not negative, and the stream of draws is
    the one it started from. *)
Lemma seedRecordAt_step (currentDate : Z) (g : Rng) :
  SeedRecord.timestamp (fst (fst (seedRecordAt currentDate g))) = currentDate /\
  SeedRecord.serialNumber (fst (fst (seedRecordAt currentDate g))) = "SU-TEST-2024" /\
  stream (snd (seedRecordAt currentDate g)) = stream g /\
  (fair g ->
   (0 <= SeedRecord.energyGenerated (fst (fst (seedRecordAt currentDate g))))%Q).
Proof.
  unfold seedRecordAt, bindR, random.
  set (hour := getUTCHours currentDate).
  set (month := getUTCMonth currentDate).
  set (baseEnergy := (if (5 <=? month)%Z && (month <=? 7)%Z then 300
                      else if (2 <=? month)%Z && (month <=? 4)%Z then 250
                      else if (8 <=? month)%Z && (month <=? 10)%Z then 200
                      else 150)%Q).
  set (timeMultiplier := (if (6 <=? hour)%Z && (hour <=? 18)%Z
                          then if (10 <=? hour)%Z && (hour <=? 14)%Z then 1.5 else 1.2
                          else 0)%Q).
  set (base := {| SeedRecord.serialNumber := "SU-TEST-2024";
                  SeedRecord.timestamp := currentDate;
                  SeedRecord.energyGenerated :=
                    round (baseEnergy * timeMultiplier * (0.8 + draw g * 0.4)) |}).
  assert (Hbase : fair g -> (0 <= SeedRecord.energyGenerated base)%Q).
  { intro Hg. destruct (fair_draw g Hg) as [H0 H1]. unfold base.
    cbn [SeedRecord.energyGenerated]. apply round_nonneg.
    assert (Hb : (0 <= baseEnergy)%Q)
      by (unfold baseEnergy;
          repeat match goal with |- context [if ?b then _ else _] => destruct b end; lra).
    assert (Ht : (0 <= timeMultiplier)%Q)
      by (unfold timeMultiplier;
          repeat match goal with |- context [if ?b then _ else _] => destruct b end; lra).
    assert (Hbt : (0 <= baseEnergy * timeMultiplier)%Q) by nra.
    nra. }
  pose proof (scan_stream (isoDate currentDate) hour base (advance g)) as Hs.
  destruct (scan_cases ANOMALY_PATTERNS (isoDate currentDate) hour base (advance g))
    as [E|[p [Hp E]]]; rewrite E in *; cbn [fst snd] in *.
  - repeat split; try reflexivity; assumption.
  - destruct (seed_apply_keeps p base (advance g) Hp) as [Ht Hsn].
    repeat split; try assumption.
    intro Hg. apply seed_apply_nonneg; [exact Hp | apply fair_advance; exact Hg |].
    apply Hbase. exact Hg.
Qed.

Lemma seedLoop_run (endDate : Z) (fuel : nat) :
  forall (currentDate : Z) (st : SeedScript.Progress) (g : Rng),
  (currentDate + (Z.of_nat fuel - 1) * 7200000 <= endDate \/ fuel = O)%Z ->
  let st' := fst (SeedScript.seedLoop fuel currentDate endDate st g) in
  map SeedRecord.timestamp (SeedScript.records st') =
    map SeedRecord.timestamp (SeedScript.records st) ++
    map (fun k => (currentDate + Z.of_nat k * 7200000)%Z) (seq 0 fuel) /\
  (SeedScript.normalRecords st' + SeedScript.anomalyRecords st' =
   SeedScript.normalRecords st + SeedScript.anomalyRecords st + Z.of_nat fuel)%Z /\
  (fair g ->
   Forall (fun r => 0 <= SeedRecord.energyGenerated r)%Q (SeedScript.records st) ->
   Forall (fun r => 0 <= SeedRecord.energyGenerated r)%Q (SeedScript.records st')).
Proof.
  induction fuel as [|fuel IH]; intros cur st g H st'.
  - subst st'. cbn [SeedScript.seedLoop retR fst seq map]. rewrite app_nil_r.
    repeat split; [lia | intros _ F; exact F].
  - subst st'. cbn [SeedScript.seedLoop].
    assert (Hc : (cur <=? endDate)%Z = true).
    { apply Z.leb_le. destruct H as [H|H]; [lia | discriminate H]. }
    rewrite Hc. unfold bindR.
    destruct (seedRecordAt_step cur g) as [Ht [_ [Hs He]]].
    destruct (seedRecordAt cur g) as [[record isAnomaly] g1]. cbn [fst snd] in Ht, Hs, He.
    unfold addMs.
    match goal with
    | |- context [SeedScript.seedLoop fuel ?c endDate ?s g1] =>
        destruct (IH c s g1) as [IHt [IHn IHe]];
        [destruct fuel; [right; reflexivity | left; destruct H as [H|H]; [lia|discriminate H]]|]
    end.
    cbn [SeedScript.records SeedScript.normalRecords SeedScript.anomalyRecords] in IHt, IHn, IHe.
    split; [|split].
    + rewrite IHt, map_app, <- app_assoc. cbn [map app seq]. rewrite Ht.
      f_equal. f_equal; [lia|].
      rewrite <- seq_shift, map_map. apply map_ext. intro k. lia.
    + rewrite IHn. destruct isAnomaly; lia.
    + intros Hg F. apply IHe; [apply (fair_same_stream g); assumption|].
      apply Forall_app. split; [exact F|]. constructor; [apply He; exact Hg | constructor].
Qed.

Lemma seedLoop_fuel_from (endDate : Z) (fuel extra : nat) :
  forall (currentDate : Z) (st : SeedScript.Progress) (g : Rng),
  (endDate < currentDate + Z.of_nat fuel * 7200000)%Z ->
  SeedScript.seedLoop (fuel + extra) currentDate endDate st g =
  SeedScript.seedLoop fuel currentDate endDate st g.
Proof.
  induction fuel as [|fuel IH]; intros cur st g H.
  - cbn [Nat.add SeedScript.seedLoop]. destruct extra; [reflexivity|].
    cbn [SeedScript.seedLoop]. replace (cur <=? endDate)%Z with false; [reflexivity|].
    symmetry. apply Z.leb_gt. lia.
  - cbn [Nat.add SeedScript.seedLoop]. destruct (cur <=? endDate)%Z; [|reflexivity].
    unfold bindR. destruct (seedRecordAt cur g) as [[record isAnomaly] g1].
    apply IH. unfold addMs. lia.
Qed.

(** The fuel of [seedRecords] never cuts the loop short. *)
Lemma seedLoop_fuel (startDate endDate : Z) (extra : nat) (g : Rng)
  (st : SeedScript.Progress) :
  SeedScript.seedLoop (SeedScript.seedFuel startDate endDate + extra)
    startDate endDate st g =
  SeedScript.seedLoop (SeedScript.seedFuel startDate endDate) startDate endDate st g.
Proof.
  apply seedLoop_fuel_from. unfold SeedScript.seedFuel.
  Z.to_euclidean_division_equations. lia.
Qed.

Lemma seedFuel_last (startDate endDate : Z) :
  (startDate + (Z.of_nat (SeedScript.seedFuel startDate endDate) - 1) * 7200000
     <= endDate \/
   SeedScript.seedFuel startDate endDate = O)%Z.
Proof.
  unfold SeedScript.seedFuel.
  destruct (Z.to_nat ((endDate - startDate) / (2 * 60 * 60 * 1000) + 1)) eqn:E;
    [right; reflexivity | left].
  Z.to_euclidean_division_equations. lia.
Qed.

(** X23.  The seeding loop produces one record per 2-hour step from the
    start date up to and including the end date, stamped in order at the
    start plus 0, 2, 4, ... hours; each record is counted exactly once, as
    normal or as anomaly, so the two counters add up to the number of
    records.  From 2025-08-01 08:00 to 2025-12-20 08:00 UTC that is 1693
    records. *)
Theorem seeding_covers_every_step (startDate endDate : Z) (g : Rng) :
  let st := fst (SeedScript.seedRecords startDate endDate g) in
  let steps := SeedScript.seedFuel startDate endDate in
  List.length (SeedScript.records st) = steps /\
  map SeedRecord.timestamp (SeedScript.records st) =
    map (fun k => (startDate + Z.of_nat k * 7200000)%Z) (seq 0 steps) /\
  (SeedScript.normalRecords st + SeedScript.anomalyRecords st =
   Z.of_nat (List.length (SeedScript.records st)))%Z /\
  (forall k, (startDate + Z.of_nat k * 7200000 <= endDate)%Z <-> (k < steps)%nat) /\
  SeedScript.seedFuel SeedScript.startDate SeedScript.endDate = 1693%nat.
Proof.
  intros st steps. subst st steps. unfold SeedScript.seedRecords.
  set (steps := SeedScript.seedFuel startDate endDate).
  assert (Hsteps : forall k, (startDate + Z.of_nat k * 7200000 <= endDate)%Z <->
                             (k < steps)%nat).
  { intro k. unfold steps, SeedScript.seedFuel.
    split; intro H; Z.to_euclidean_division_equations; lia. }
  pose proof (seedLoop_run endDate steps startDate
                {| SeedScript.records := []; SeedScript.normalRecords := 0;
                   SeedScript.anomalyRecords := 0 |} g
                (seedFuel_last startDate endDate)) as H.
  cbv zeta in H.
  cbn [SeedScript.records SeedScript.normalRecords SeedScript.anomalyRecords map app]
    in H.
  destruct H as [Ht [Hn _]].
  set (st := fst (SeedScript.seedLoop steps startDate endDate _ g)) in *.
  assert (Hlen : List.length (SeedScript.records st) = steps).
  { rewrite <- (length_map SeedRecord.timestamp), Ht, length_map, length_seq.
    reflexivity. }
  split; [exact Hlen|]. split; [exact Ht|]. split; [rewrite Hlen; lia|].
  split; [exact Hsteps | reflexivity].
Qed.

Lemma seeding_covers_every_step_witness :
  (1764547200000 + Z.of_nat 2 * 7200000 <= 1764561600000)%Z /\
  (2 < SeedScript.seedFuel 1764547200000 1764561600000)%nat.
Proof.
  assert (H : (1764547200000 + Z.of_nat 2 * 7200000 <= 1764561600000)%Z)
    by (cbn; lia).
  split; [exact H|].
  exact (proj1 (proj1 (proj2 (proj2 (proj2
    (seeding_covers_every_step 1764547200000 1764561600000 (constRng 0.5))))) 2%nat) H).
Defined.

(** X24.  With fair draws no seeded record has negative energy, whether or
    not an anomaly rule rewrote it, for every start and end date. *)
Theorem seeded_energy_never_negative (startDate endDate : Z) (g : Rng) :
  fair g ->
  Forall (fun r => 0 <= SeedRecord.energyGenerated r)%Q
         (SeedScript.records (fst (SeedScript.seedRecords startDate endDate g))).
Proof.
  intro Hg.
  destruct (seedLoop_run endDate (SeedScript.seedFuel startDate endDate) startDate
              {| SeedScript.records := []; SeedScript.normalRecords := 0;
                 SeedScript.anomalyRecords := 0 |} g
              (seedFuel_last startDate endDate)) as [_ [_ He]].
  apply He; [exact Hg | constructor].
Qed.

Lemma seeded_energy_never_negative_witness :
  fair (constRng 0.5) /\
  Forall (fun r => 0 <= SeedRecord.energyGenerated r)%Q
         (SeedScript.records
            (fst (SeedScript.seedRecords 1764547200000 1764633600000 (constRng 0.5)))).
Proof.
  assert (Hg : fair (constRng 0.5)) by (apply fair_constRng; lra).
  split; [exact Hg|].
  exact (seeded_energy_never_negative 1764547200000 1764633600000 (constRng 0.5) Hg).
Defined.

(** ** The timer *)

(** X25.  The scheduler holds at most one cron job.  [start] on a stopped
    scheduler installs the daily midnight job; [start] on a running one
    keeps the job it has and only says so; [stop] leaves no job, and on a
    stopped scheduler it does nothing at all.  Neither touches the store or
    the generator. *)
Theorem timer_holds_at_most_one_job {St : Type} (p : Lifecycle.Process St) :
  (Lifecycle.job p = None ->
   Lifecycle.job (Lifecycle.start p) =
     Some {| Lifecycle.expression := "0 0 * * *" |}) /\
  Lifecycle.job (Lifecycle.start (Lifecycle.start p)) =
    Lifecycle.job (Lifecycle.start p) /\
  Lifecycle.journal (Lifecycle.start (Lifecycle.start p)) =
    Lifecycle.journal (Lifecycle.start p) ++
    [Lifecycle.Lifecycle Lifecycle.AlreadyRunning] /\
  Lifecycle.job (Lifecycle.stop p) = None /\
  Lifecycle.stop (Lifecycle.stop p) = Lifecycle.stop p /\
  Lifecycle.job (Lifecycle.stop (Lifecycle.start p)) = None /\
  (Lifecycle.job p = None -> Lifecycle.stop p = p) /\
  Lifecycle.collection (Lifecycle.start p) = Lifecycle.collection p /\
  Lifecycle.collection (Lifecycle.stop p) = Lifecycle.collection p /\
  Lifecycle.generator (Lifecycle.start p) = Lifecycle.generator p /\
  Lifecycle.generator (Lifecycle.stop p) = Lifecycle.generator p.
Proof.
  destruct p as [[j|] s g l]; unfold Lifecycle.start, Lifecycle.stop, Lifecycle.say;
    cbn; repeat split; try reflexivity; try discriminate.
Qed.

Lemma timer_holds_at_most_one_job_witness :
  Lifecycle.job idleProcess = None /\
  Lifecycle.job (Lifecycle.start idleProcess) =
    Some {| Lifecycle.expression := "0 0 * * *" |} /\
  Lifecycle.stop idleProcess = idleProcess.
Proof.
  assert (H : Lifecycle.job idleProcess = None) by reflexivity.
  pose proof (timer_holds_at_most_one_job idleProcess) as T.
  split; [exact H|]. split.
  - exact (proj1 T H).
  - exact (proj1 (proj2 (proj2 (proj2 (proj2 (proj2 (proj2 T)))))) H).
Defined.

(** X26.  A tick of the timer never throws and never drops the job.  It
    does to the store what today's run does; when the registry fetch fails
    the store is untouched and the journal gains the tick line, the run's
    error line and the failure line with the registry's message. *)
Theorem cron_tick_swallows_errors {St : Type} {store_ops : RecordStore St}
  (env : Env) (p : Lifecycle.Process St) (e : Error) :
  let w := {| store := Lifecycle.collection p; rng := Lifecycle.generator p;
              console := [] |} in
  fst (Lifecycle.cronCallback env p) = Ok tt /\
  Lifecycle.job (snd (Lifecycle.cronCallback env p)) = Lifecycle.job p /\
  Lifecycle.collection (snd (Lifecycle.cronCallback env p)) =
    store (snd (generateDailyData env w)) /\
  (activeUnits env = Err e ->
   Lifecycle.collection (snd (Lifecycle.cronCallback env p)) = Lifecycle.collection p /\
   Lifecycle.journal (snd (Lifecycle.cronCallback env p)) =
     Lifecycle.journal p ++
     [Lifecycle.Lifecycle Lifecycle.TickRunning;
      Lifecycle.Run (LogDailyError (message e));
      Lifecycle.Lifecycle (Lifecycle.TickFailed (message e))]).
Proof.
  intro w.
  assert (E : Lifecycle.cronCallback env p =
    match generateDailyData env w with
    | (Ok _, w') =>
        (Ok tt,
         {| Lifecycle.job := Lifecycle.job p; Lifecycle.collection := store w';
            Lifecycle.generator := rng w';
            Lifecycle.journal :=
              ((Lifecycle.journal p ++ [Lifecycle.Lifecycle Lifecycle.TickRunning]) ++
               map Lifecycle.Run (console w')) ++
              [Lifecycle.Lifecycle Lifecycle.TickCompleted] |})
    | (Err error, w') =>
        (Ok tt,
         {| Lifecycle.job := Lifecycle.job p; Lifecycle.collection := store w';
            Lifecycle.generator := rng w';
            Lifecycle.journal :=
              ((Lifecycle.journal p ++ [Lifecycle.Lifecycle Lifecycle.TickRunning]) ++
               map Lifecycle.Run (console w')) ++
              [Lifecycle.Lifecycle (Lifecycle.TickFailed (message error))] |})
    end).
  { unfold Lifecycle.cronCallback, Lifecycle.runInProcess, Lifecycle.say.
    cbn [Lifecycle.job Lifecycle.collection Lifecycle.generator Lifecycle.journal].
    fold w. destruct (generateDailyData env w) as [[[]|error] w']; reflexivity. }
  rewrite E. split; [|split; [|split]].
  - destruct (generateDailyData env w) as [[[]|error] w']; reflexivity.
  - destruct (generateDailyData env w) as [[[]|error] w']; reflexivity.
  - destruct (generateDailyData env w) as [[[]|error] w']; reflexivity.
  - intro H. rewrite (generateDailyData_registry_error env w e H).
    cbn [Lifecycle.collection Lifecycle.journal store console map app].
    split; [reflexivity|]. rewrite <- !app_assoc. reflexivity.
Qed.

Lemma cron_tick_swallows_errors_witness :
  activeUnits envNoRegistry = Err registryDown /\
  fst (Lifecycle.cronCallback envNoRegistry flakyProcess) = Ok tt /\
  Lifecycle.collection (snd (Lifecycle.cronCallback envNoRegistry flakyProcess)) =
    Lifecycle.collection flakyProcess.
Proof.
  assert (H : activeUnits envNoRegistry = Err registryDown) by reflexivity.
  pose proof (cron_tick_swallows_errors envNoRegistry flakyProcess registryDown) as T.
  split; [exact H|]. split.
  - exact (proj1 T).
  - exact (proj1 (proj2 (proj2 (proj2 T)) H)).
Defined.

(** ** The command-line scripts *)

(** X27.  The two generation scripts exit with code 0 exactly when the
    database connection and the registry fetch both succeed, and with code
    1 otherwise; when the connection fails nothing is generated or logged.
    Failures for single units never change the exit code. *)
Theorem scripts_exit_codes {St : Type} {store_ops : RecordStore St}
  (env : Env) (connectDB : Result unit) (w : World St) :
  let today := Scripts.generateTodayScript env connectDB w in
  let past := Scripts.generateHistoricalScript env connectDB w in
  (fst today = Ok 0%Z \/ fst today = Ok 1%Z) /\
  (fst today = Ok 0%Z <->
   connectDB = Ok tt /\ exists units, activeUnits env = Ok units) /\
  (fst past = Ok 0%Z \/ fst past = Ok 1%Z) /\
  (fst past = Ok 0%Z <->
   connectDB = Ok tt /\ exists units, activeUnits env = Ok units) /\
  (forall e, connectDB = Err e -> snd today = w /\ snd past = w).
Proof.
  intros today past.
  assert (Et : today =
    match connectDB with
    | Ok _ => match generateTodayData env w with
              | (Ok _, w') => (Ok 0%Z, w')
              | (Err _, w') => (Ok 1%Z, w')
              end
    | Err _ => (Ok 1%Z, w)
    end).
  { unfold today, Scripts.generateTodayScript, Scripts.connect, tryCatch, bind, ret.
    destruct connectDB as [[]|e]; [|reflexivity].
    destruct (generateTodayData env w) as [[[]|e] w']; reflexivity. }
  assert (Ep : past =
    match connectDB with
    | Ok _ => match generateHistoricalData env 7 w with
              | (Ok _, w') => (Ok 0%Z, w')
              | (Err _, w') => (Ok 1%Z, w')
              end
    | Err _ => (Ok 1%Z, w)
    end).
  { unfold past, Scripts.generateHistoricalScript, Scripts.connect, tryCatch, bind, ret.
    destruct connectDB as [[]|e]; [|reflexivity].
    destruct (generateHistoricalData env 7 w) as [[[]|e] w']; reflexivity. }
  rewrite Et, Ep. clear Et Ep today past.
  destruct connectDB as [[]|ce].
  - destruct (activeUnits env) as [units|e] eqn:E.
    + pose proof (generateTodayData_returns env w units E) as Ht.
      pose proof (generateHistoricalData_units env 7 w units E) as Hp.
      cbv zeta in Hp. rewrite Hp.
      destruct (generateTodayData env w) as [rt wt]. cbn [fst] in Ht. subst rt.
      cbn [fst snd].
      assert (Hyes : Ok tt = Ok tt /\
                     exists units0 : list SolarUnit.t, Ok units = Ok units0)
        by (split; [reflexivity | exists units; reflexivity]).
      split; [left; reflexivity|].
      split; [split; [intros _; exact Hyes | intros _; reflexivity]|].
      split; [left; reflexivity|].
      split; [split; [intros _; exact Hyes | intros _; reflexivity]|].
      intros e He. discriminate He.
    + destruct (generateTodayData_registry_error env w e E) as [Ht _].
      rewrite (generateHistoricalData_registry_error env 7 w e E).
      destruct (generateTodayData env w) as [rt wt]. cbn [fst] in Ht. subst rt.
      cbn [fst snd].
      split; [right; reflexivity|].
      split; [split; [intro H; discriminate H | intros [_ [units Hu]]; discriminate Hu]|].
      split; [right; reflexivity|].
      split; [split; [intro H; discriminate H | intros [_ [units Hu]]; discriminate Hu]|].
      intros e' He. discriminate He.
  - cbn [fst snd].
    split; [right; reflexivity|].
    split; [split; [intro H; discriminate H | intros [Hc _]; discriminate Hc]|].
    split; [right; reflexivity|].
    split; [split; [intro H; discriminate H | intros [Hc _]; discriminate Hc]|].
    intros e _. split; reflexivity.
Qed.

Lemma scripts_exit_codes_witness :
  (Ok tt = Ok tt /\ exists units, activeUnits envTwoUnits = Ok units) /\
  fst (Scripts.generateTodayScript envTwoUnits (Ok tt) flakyWorld) = Ok 0%Z /\
  snd (Scripts.generateHistoricalScript envTwoUnits (Err storeDown) flakyWorld) =
    flakyWorld.
Proof.
  assert (H : Ok tt = Ok tt /\ exists units, activeUnits envTwoUnits = Ok units)
    by (split; [reflexivity | exists [unitB; unitA]; reflexivity]).
  split; [exact H|]. split.
  - exact (proj2 (proj1 (proj2
      (scripts_exit_codes envTwoUnits (Ok tt) flakyWorld))) H).
  - exact (proj2 (proj2 (proj2 (proj2 (proj2
      (scripts_exit_codes envTwoUnits (Err storeDown) flakyWorld)))) storeDown
      eq_refl)).
Defined.
